(** * account-importer: user data dumper

    A shallow embedding of the two Go programs of the repository:

    - [MainGo]: [src/main.go], the dumper driven by a [user_id] (given
      directly, positionally, or looked up from an [account_id]);
    - [AccountDump]: [src/unnamed/part_000], the variant driven by an
      [account_id] that prints every statement as soon as it is built.

    Module [Go] models the pieces of Go's library the programs call
    ([strings], [fmt] verbs, [time], [sort], [database/sql], [log]).
    Effects are recorded as a trace of events; [log.Fatal] ends a run.
    Module [Spec] holds the vocabulary of the statements, module
    [Examples] a small database and a few invocations; the properties
    come last. *)

From Stdlib Require Import ZArith Ascii.
From stdpp Require Import gmap strings list sorting.

Local Open Scope Z_scope.

(** ** Go library model *)
Module Go.

(** *** package strings *)

(** [strings.Join(elems, sep)]. *)
Fixpoint Join (elems : list string) (sep : string) : string :=
  match elems with
  | [] => ""
  | x :: rest =>
      match rest with
      | [] => x
      | _ :: _ => x +:+ sep +:+ Join rest sep
      end
  end.

(** Scanning loop of [strings.Replace] for a non-empty pattern: at each
    position either [old] matches (it is replaced and the scan resumes
    after it, so matches never overlap) or one byte is copied.  [skip]
    counts the bytes of a match still to be passed over. *)
Fixpoint replace_from (old new : string) (skip : nat) (s : string) : string :=
  match s with
  | "" => ""
  | String c s' =>
      match skip with
      | S k => replace_from old new k s'
      | O =>
          if String.prefix old s
          then new +:+ replace_from old new (String.length old - 1) s'
          else String c (replace_from old new 0 s')
      end
  end.

(** With an empty pattern Go inserts [new] in front of every rune and at
    the end; runes are taken to be single bytes here (exact on ASCII).
    The programs only ever pass the one-byte pattern ['] . *)
Fixpoint insert_around (new s : string) : string :=
  match s with
  | "" => new
  | String c s' => new +:+ String c (insert_around new s')
  end.

(** [strings.ReplaceAll(s, old, new)]. *)
Definition ReplaceAll (s old new : string) : string :=
  match old with
  | "" => insert_around new s
  | String _ _ => replace_from old new 0 s
  end.

(** [strings.Contains(s, substr)], used to state that a message names an
    identifier. *)
Fixpoint Contains (s substr : string) : bool :=
  String.prefix substr s ||
  match s with
  | "" => false
  | String _ s' => Contains s' substr
  end.

(** *** package fmt: the verbs the programs use *)

(** [%t]. *)
Definition FormatBool (b : bool) : string := if b then "true" else "false".

(** Decimal digits of a non-negative integer. *)
Definition digit (d : Z) : ascii := ascii_of_nat (48 + Z.to_nat d).

Fixpoint utoa_from (fuel : nat) (u : Z) (acc : string) : string :=
  let acc' := String (digit (u mod 10)) acc in
  match fuel with
  | O => acc'
  | S fuel' => if u <? 10 then acc' else utoa_from fuel' (u / 10) acc'
  end.

Definition utoa (u : Z) : string := utoa_from (Z.to_nat (Z.log2 u)) u "".

(** [%d]. *)
Definition Itoa (x : Z) : string :=
  if x <? 0 then "-" +:+ utoa (- x) else utoa x.

(** *** package time *)

(** The zone in effect at the instant a [Time] denotes: its abbreviation
    and its offset in seconds east of UTC. *)
Record Location := { zoneName : string; zoneOffset : Z }.

Definition UTC : Location := {| zoneName := "UTC"; zoneOffset := 0 |}.

(** [time.FixedZone(name, offset)]. *)
Definition FixedZone (name : string) (offset : Z) : Location :=
  {| zoneName := name; zoneOffset := offset |}.

(** A [time.Time]: an instant (seconds since the Unix epoch and
    nanoseconds within the second, [0 <= nsec < 10^9]) and a location. *)
Record Time := { unixSec : Z; nsec : Z; loc : Location }.

(** [t.UTC()]: same instant, location UTC. *)
Definition Time_UTC (t : Time) : Time :=
  {| unixSec := unixSec t; nsec := nsec t; loc := UTC |}.

(** Proleptic Gregorian date of a day count relative to 1970-01-01
    (what [Time.Date] computes). *)
Definition civil_from_days (days : Z) : Z * Z * Z :=
  let z := days + 719468 in
  let era := z / 146097 in
  let doe := z - era * 146097 in
  let yoe := (doe - doe / 1460 + doe / 36524 - doe / 146096) / 365 in
  let doy := doe - (365 * yoe + yoe / 4 - yoe / 100) in
  let mp := (5 * doy + 2) / 153 in
  let d := doy - (153 * mp + 2) / 5 + 1 in
  let m := if mp <? 10 then mp + 3 else mp - 9 in
  let y := yoe + era * 400 + (if m <=? 2 then 1 else 0) in
  (y, m, d).

(** Day count relative to 1970-01-01 of a Gregorian date (the date part
    of [time.Date]). *)
Definition days_from_civil (y m d : Z) : Z :=
  let y' := if m <=? 2 then y - 1 else y in
  let era := y' / 400 in
  let yoe := y' - era * 400 in
  let mp := if m <=? 2 then m + 9 else m - 3 in
  let doy := (153 * mp + 2) / 5 + d - 1 in
  let doe := yoe * 365 + yoe / 4 - yoe / 100 + doy in
  era * 146097 + doe - 719468.

(** [time.Date(year, month, day, hour, min, sec, nsec, loc)] for field
    values in their normal ranges: the wall clock reading is taken in
    [loc]. *)
Definition Date (y m d hh mm ss ns : Z) (l : Location) : Time :=
  {| unixSec := days_from_civil y m d * 86400 + hh * 3600 + mm * 60 + ss
                - zoneOffset l;
     nsec := ns;
     loc := l |}.

(** Seconds on the wall clock of the time's own location. *)
Definition wallSec (t : Time) : Z := unixSec t + zoneOffset (loc t).

Definition Year (t : Time) : Z := (civil_from_days (wallSec t / 86400)).1.1.
Definition Month (t : Time) : Z := (civil_from_days (wallSec t / 86400)).1.2.
Definition Day (t : Time) : Z := (civil_from_days (wallSec t / 86400)).2.
Definition Hour (t : Time) : Z := (wallSec t mod 86400) / 3600.
Definition Minute (t : Time) : Z := (wallSec t mod 3600) / 60.
Definition Second (t : Time) : Z := wallSec t mod 60.

(** [appendInt(b, x, width)] of [time/format.go]: sign, then the decimal
    digits zero-padded to [width]. *)
Definition appendInt (x : Z) (width : nat) : string :=
  let digits := utoa (Z.abs x) in
  (if x <? 0 then "-" else "") +:+
  String.string_of_list_ascii
    (replicate (width - String.length digits)%nat "0"%char) +:+
  digits.

(** [t.Format("2006-01-02T15:04:05Z")]: the trailing [Z] is not followed
    by [07], so it is literal text and not a zone element. *)
Definition Format_seconds_Z (t : Time) : string :=
  appendInt (Year t) 4 +:+ "-" +:+ appendInt (Month t) 2 +:+ "-" +:+
  appendInt (Day t) 2 +:+ "T" +:+ appendInt (Hour t) 2 +:+ ":" +:+
  appendInt (Minute t) 2 +:+ ":" +:+ appendInt (Second t) 2 +:+ "Z".

(** Layout element [.999999999]: the fraction with trailing zeros
    removed, nothing at all when the fraction is zero. *)
Fixpoint trim_zeros_rev (rev_digits : list ascii) : list ascii :=
  match rev_digits with
  | c :: rest => if decide (c = "0"%char) then trim_zeros_rev rest else rev_digits
  | [] => []
  end.

Definition appendNano9 (ns : Z) : string :=
  if ns =? 0 then ""
  else "." +:+ String.string_of_list_ascii
         (rev (trim_zeros_rev (rev (String.list_ascii_of_string (appendInt ns 9))))).

(** Layout element [-0700]. *)
Definition appendNumTZ (offset : Z) : string :=
  let zone := Z.quot offset 60 in
  (if zone <? 0 then "-" else "+") +:+
  appendInt (Z.quot (Z.abs zone) 60) 2 +:+ appendInt (Z.rem (Z.abs zone) 60) 2.

(** Layout element [MST]: the abbreviation, or the numeric zone when the
    location has none. *)
Definition appendTZ (l : Location) : string :=
  match zoneName l with
  | "" => appendNumTZ (zoneOffset l)
  | name => name
  end.

(** [t.String()], which is what [%v] prints for a [time.Time] without a
    monotonic clock reading: layout
    ["2006-01-02 15:04:05.999999999 -0700 MST"]. *)
Definition Time_String (t : Time) : string :=
  appendInt (Year t) 4 +:+ "-" +:+ appendInt (Month t) 2 +:+ "-" +:+
  appendInt (Day t) 2 +:+ " " +:+ appendInt (Hour t) 2 +:+ ":" +:+
  appendInt (Minute t) 2 +:+ ":" +:+ appendInt (Second t) 2 +:+
  appendNano9 (nsec t) +:+ " " +:+ appendNumTZ (zoneOffset (loc t)) +:+
  " " +:+ appendTZ (loc t).

(** *** errors *)

(** A Go [error] value.  [sql.ErrNoRows] is told apart; every other
    failure (driver, network, conversion) carries its message. *)
Inductive error :=
| ErrNoRows
| ErrOther (msg : string).

(** [err.Error()], which is also what [%v] prints for an error. *)
Definition Error (e : error) : string :=
  match e with
  | ErrNoRows => "sql: no rows in result set"
  | ErrOther msg => msg
  end.

(** A Go pair [(value, err)], of which exactly one is meaningful. *)
Inductive result (A : Type) :=
| Ok (a : A)
| Err (e : error).
Arguments Ok {A} a.
Arguments Err {A} e.

Definition is_Ok {A} (r : result A) : bool :=
  match r with Ok _ => true | Err _ => false end.

(** *** package database/sql *)

(** What a driver stores in an [interface{}] destination.  The programs
    tell apart [nil], [bool], [[]byte] (carried here as the string of
    its bytes) and, in [main.go], [time.Time]; a value of any other
    dynamic type ([int64], [float64], and [string], which is what the
    driver [lib/pq] hands over for the columns of type [text],
    [varchar] and [char]) is carried as the text that the verb [%v]
    prints for it: for a [string], the string itself. *)
Inductive Value :=
| VNil
| VBool (b : bool)
| VBytes (s : string)
| VTime (t : Time)
| VOther (text : string).

(** An open result set: the answer of [rows.Columns()], then for every
    [rows.Next()] that returned [true] the values the driver holds for
    that row (or the failure [rows.Scan] reports for it), and the error
    [rows.Err()] would report once [Next] has returned [false]. *)
Record Rows := {
  rows_Columns : result (list string);
  rows_data : list (result (list Value));
  rows_Err : option error
}.

(** [rows.Scan(dest...)] with [ndest] destinations of type
    [*interface{}]: the values are stored as they are; the only check is
    on the number of destinations. *)
Definition Scan (ndest : nat) (row : result (list Value)) : result (list Value) :=
  match row with
  | Err e => Err e
  | Ok vals =>
      if decide (length vals = ndest) then Ok vals
      else Err (ErrOther ("sql: expected " +:+ Itoa (Z.of_nat (length vals)) +:+
                          " destination arguments in Scan, not " +:+
                          Itoa (Z.of_nat ndest)))
  end.

(** A database handle, as the programs see it: the outcome of
    [db.QueryRow(query, arg).Scan(&s)] for a string destination, and of
    [db.Query(query, arg)]. *)
Record DB := {
  db_QueryRow : string -> string -> result string;
  db_Query : string -> string -> result Rows
}.

(** *** the process and its environment *)

(** What a run does to the outside world, in order.  [EvLog] carries
    the message handed to the logger, without the date and time it puts
    in front and the newline it appends. *)
Inductive event :=
| EvOpen (dsn : string)
| EvQueryRow (query arg : string)
| EvQuery (query arg : string)
| EvRowsClose
| EvClose
| EvStdout (text : string)
| EvLog (text : string)
| EvWriteFile (name data : string)
| EvCreate (name : string)
| EvFileWrite (name data : string)
| EvFileClose (name : string).

(** What the run reads from the outside world.  [url_String] stands for
    [u.String()] of the connection URL that [connectDB] assembles from
    host, port, user, password, database name and SSL mode. *)
Record Env := {
  Getenv : string -> string;
  sql_Open : string -> result DB;
  url_String : string -> string -> string -> string -> string -> string -> string;
  os_WriteFile : string -> string -> option error;
  os_Create : string -> option error;
  os_Args0 : string
}.

(** A computation: the events it performed, and either the value it
    returned or the status the process exited with. *)
Inductive outcome (A : Type) :=
| Returned (a : A)
| Exited (status : Z).
Arguments Returned {A} a.
Arguments Exited {A} status.

Definition M (A : Type) : Type := list event * outcome A.

Definition trace {A} (m : M A) : list event := m.1.
Definition result_of {A} (m : M A) : outcome A := m.2.

#[global] Instance M_ret : MRet M := fun A a => ([], Returned a).

#[global] Instance M_bind : MBind M := fun A B f m =>
  match m.2 with
  | Returned a => (m.1 ++ (f a).1, (f a).2)
  | Exited status => (m.1, Exited status)
  end.

Definition emit (e : event) : M unit := ([e], Returned tt).

(** [log.Fatal] and [log.Fatalf]: the message, then [os.Exit(1)]. *)
Definition log_Fatal {A} (msg : string) : M A := ([EvLog msg], Exited 1).

(** [log.Printf]. *)
Definition log_Printf (msg : string) : M unit := emit (EvLog msg).

(** [fmt.Print], [fmt.Printf], [fmt.Println] once formatted. *)
Definition fmt_Print (text : string) : M unit := emit (EvStdout text).

(** Everything a run wrote to standard output. *)
Fixpoint stdout (tr : list event) : string :=
  match tr with
  | [] => ""
  | EvStdout text :: tr' => text +:+ stdout tr'
  | _ :: tr' => stdout tr'
  end.

(** The events that reach the database. *)
Definition is_db_event (e : event) : bool :=
  match e with
  | EvOpen _ | EvQueryRow _ _ | EvQuery _ _ | EvRowsClose | EvClose => true
  | _ => false
  end.

(** Text constants that cannot be written inside a literal. *)
Definition nl : string := String "010"%char "".
Definition dquote : string := String "034"%char "".

(** [sort.Strings]: increasing byte-wise order. *)
Definition sort_Strings (l : list string) : list string :=
  merge_sort String.le l.

End Go.

(** ** [src/main.go] *)
Module MainGo.
Import Go.

(** The package-level flag variables and [flag.Args()], as
    [flag.Parse()] leaves them. *)
Record Flags := {
  outputToFile : bool;
  userIDFlag : string;
  accountIDFlag : string;
  Args : list string
}.

(** The map literal of [main]. *)
Definition queries : gmap string string :=
  list_to_map
    [ ("accounts", "SELECT * FROM accounts WHERE user_id = $1");
      ("users", "SELECT * FROM users WHERE id = $1");
      ("app_auth_tokens", "SELECT * FROM app_auth_tokens WHERE user_id = $1");
      ("user_identities", "SELECT * FROM user_identities WHERE user_id = $1");
      ("user_preferences", "SELECT * FROM user_preferences WHERE user_id = $1") ].

(** [escapeSingleQuotes]. *)
Definition escapeSingleQuotes (s : string) : string :=
  ReplaceAll s "'" "''".

(** The type switch of [generateInsertStatements]: the literal stored in
    [values[i]] for the scanned value [raw]. *)
Definition formatValue (raw : Value) : string :=
  match raw with
  | VNil => "NULL"
  | VBool val => FormatBool val
  | VBytes val => "'" +:+ escapeSingleQuotes val +:+ "'"
  | VTime val => "'" +:+ Format_seconds_Z (Time_UTC val) +:+ "'"
  | VOther text => "'" +:+ text +:+ "'"
  end.

(** The text one pass of the row loop hands to [out.WriteString]. *)
Definition insertStatement (table : string) (cols : list string)
    (rawResult : list Value) : string :=
  let values := formatValue <$> rawResult in
  "INSERT INTO " +:+ dquote +:+ table +:+ dquote +:+ " (" +:+
  Join cols ", " +:+ ") VALUES (" +:+ Join values ", " +:+ ");" +:+ nl.

(** The loop [for rows.Next() { ... }] of [generateInsertStatements];
    [out] is the builder's content so far.  A failing [Scan] returns at
    once and drops [out]; when [Next] returns [false] the accumulated
    text is returned and [rows.Err()] is not looked at. *)
Fixpoint scanRows (table : string) (cols : list string)
    (data : list (result (list Value))) (out : string) : result string :=
  match data with
  | [] => Ok out
  | row :: data' =>
      match Scan (length cols) row with
      | Err err => Err err
      | Ok rawResult =>
          scanRows table cols data' (out +:+ insertStatement table cols rawResult)
      end
  end.

Section Program.
Context (env : Env).

(** [connectDB]. *)
Definition connectDB : M DB :=
  dbURL ←
    (if decide (Getenv env "DATABASE_URL" = "") then
       let host := Getenv env "DB_HOST" in
       let port := Getenv env "DB_PORT" in
       let user := Getenv env "DB_USER" in
       let pass := Getenv env "DB_PASS" in
       let dbname := Getenv env "DB_NAME" in
       let sslmode := Getenv env "DB_SSLMODE" in
       let sslmode := if decide (sslmode = "") then "disable" else sslmode in
       if bool_decide (host = "") || bool_decide (port = "") ||
          bool_decide (user = "") || bool_decide (dbname = "")
       then log_Fatal "Missing required DB environment variables. Either set DATABASE_URL or DB_HOST, DB_PORT, DB_USER, DB_NAME (and optionally DB_PASS and DB_SSLMODE)"
       else mret (url_String env host port user pass dbname sslmode)
     else mret (Getenv env "DATABASE_URL"));
  emit (EvOpen dbURL);;
  match sql_Open env dbURL with
  | Err err => log_Fatal (Error err)
  | Ok db => mret db
  end.

(** [getUserIDFromAccountID]. *)
Definition getUserIDFromAccountID (accountID : string) : M (result string) :=
  db ← connectDB;
  emit (EvQueryRow "SELECT user_id FROM accounts WHERE id = $1" accountID);;
  let r := db_QueryRow db "SELECT user_id FROM accounts WHERE id = $1" accountID in
  emit EvClose;;
  mret r.

(** [userExists]. *)
Definition userExists (userID : string) : M bool :=
  db ← connectDB;
  emit (EvQueryRow "SELECT id FROM users WHERE id = $1" userID);;
  let r := db_QueryRow db "SELECT id FROM users WHERE id = $1" userID in
  match r with
  | Err err => fmt_Print (Error err +:+ nl)
  | Ok _ => mret tt
  end;;
  emit EvClose;;
  mret (is_Ok r).

(** [generateInsertStatements]. *)
Definition generateInsertStatements (db : DB) (query table param : string)
    : M (result string) :=
  emit (EvQuery query param);;
  match db_Query db query param with
  | Err err => mret (Err err)
  | Ok rows =>
      let r :=
        match rows_Columns rows with
        | Err err => Err err
        | Ok cols => scanRows table cols (rows_data rows) ""
        end in
      emit EvRowsClose;;
      mret r
  end.

Context (flags : Flags).

(** The guard at the top of [main]. *)
Definition conflictingArgs : bool :=
  (bool_decide (userIDFlag flags ≠ "") && bool_decide (accountIDFlag flags ≠ "")) ||
  (bool_decide (0 < length (Args flags))%nat &&
   (bool_decide (userIDFlag flags ≠ "") || bool_decide (accountIDFlag flags ≠ ""))).

(** The [switch] of [main] that settles [userID]. *)
Definition resolveUserID : M string :=
  if decide (userIDFlag flags ≠ "") then
    let userID := userIDFlag flags in
    found ← userExists userID;
    if negb found
    then log_Fatal ("Could not find user_id " +:+ userID +:+ " in the database.")
    else mret userID
  else if decide (accountIDFlag flags ≠ "") then
    r ← getUserIDFromAccountID (accountIDFlag flags);
    match r with
    | Err err =>
        log_Fatal ("Could not find user_id associated with account_id " +:+
                   accountIDFlag flags +:+ ": " +:+ Error err)
    | Ok userID => mret userID
    end
  else
    match Args flags with
    | [userID] =>
        found ← userExists userID;
        if negb found
        then log_Fatal ("Could not find user_id " +:+ userID +:+ " in the database.")
        else mret userID
    | _ => log_Fatal "Usage: go run main.go [--output=true] [--user_id=<id> | --account_id=<id>] <user_id>"
    end.

(** The loop [for _, table := range sortedKeys] of [main]; [output] is
    the builder's content so far. *)
Fixpoint dumpTables (db : DB) (userID : string) (tables : list string)
    (output : string) : M string :=
  match tables with
  | [] => mret output
  | table :: tables' =>
      r ← generateInsertStatements db (queries !!! table) table userID;
      match r with
      | Err err =>
          log_Printf ("Warning: Skipping table " +:+ table +:+
                      " due to error: " +:+ Error err);;
          dumpTables db userID tables' output
      | Ok dump =>
          dumpTables db userID tables'
            (output +:+ ("-- Insert for " +:+ table +:+ nl) +:+ dump +:+ nl)
      end
  end.

(** [main].  [enum] is the order in which [for k := range queries]
    yields the keys of the map, which Go leaves unspecified. *)
Definition main (enum : list string) : M unit :=
  if conflictingArgs
  then log_Fatal "Provide either --user_id or --account_id, not both. Or pass a positional argument (assumed to be user_id by default)."
  else
    userID ← resolveUserID;
    db ← connectDB;
    let sortedKeys := sort_Strings enum in
    output ← dumpTables db userID sortedKeys "";
    fmt_Print output;;
    (if outputToFile flags then
       let filename := "user_" +:+ userID +:+ "_dump.sql" in
       emit (EvWriteFile filename output);;
       match os_WriteFile env filename output with
       | Some err => log_Fatal ("Failed to write to file: " +:+ Error err)
       | None => fmt_Print ("Wrote SQL output to " +:+ filename +:+ nl)
       end
     else mret tt);;
    emit EvClose.

End Program.
End MainGo.

(** ** [src/unnamed/part_000] *)
Module AccountDump.
Import Go.

(** [*flagOutput] and [flag.Args()], as [flag.Parse()] leaves them. *)
Record Flags := {
  flagOutput : bool;
  Args : list string
}.

(** The package-level map [queries]. *)
Definition queries : gmap string string :=
  list_to_map
    [ ("accounts", "SELECT * FROM accounts WHERE id = $1");
      ("users", "SELECT * FROM users WHERE id = (SELECT user_id FROM accounts WHERE id = $1)");
      ("app_auth_tokens", "SELECT * FROM app_auth_tokens WHERE user_id = (SELECT user_id FROM accounts WHERE id = $1)");
      ("user_identities", "SELECT * FROM user_identities WHERE user_id = (SELECT user_id FROM accounts WHERE id = $1)");
      ("user_preferences", "SELECT * FROM user_preferences WHERE user_id = (SELECT user_id FROM accounts WHERE id = $1)") ].

(** [escapeSingleQuotes]. *)
Definition escapeSingleQuotes (s : string) : string :=
  ReplaceAll s "'" "''".

(** The type switch of [runDump].  It has no [time.Time] case: a
    timestamp takes the [default] branch, where [%v] prints
    [t.String()]. *)
Definition formatValue (val : Value) : string :=
  match val with
  | VNil => "NULL"
  | VBool v => FormatBool v
  | VBytes v => "'" +:+ escapeSingleQuotes v +:+ "'"
  | VTime v => "'" +:+ Time_String v +:+ "'"
  | VOther text => "'" +:+ text +:+ "'"
  end.

(** The text [stmt] built by one pass of the row loop. *)
Definition insertStatement (table : string) (cols : list string)
    (raw : list Value) : string :=
  let values := formatValue <$> raw in
  "-- Insert for " +:+ table +:+ nl +:+
  "INSERT INTO " +:+ dquote +:+ table +:+ dquote +:+ " (" +:+
  Join cols ", " +:+ ") VALUES (" +:+ Join values ", " +:+ ");" +:+ nl +:+ nl.

(** The loop [for rows.Next() { ... }] of [runDump]: every statement is
    printed (and written to [file] when there is one) as soon as it is
    built; a failing [Scan] ends the process. *)
Fixpoint printRows (table : string) (cols : list string)
    (data : list (result (list Value))) (file : option string) : M unit :=
  match data with
  | [] => mret tt
  | row :: data' =>
      match Scan (length cols) row with
      | Err err => log_Fatal ("Scan failed: " +:+ Error err)
      | Ok raw =>
          let stmt := insertStatement table cols raw in
          fmt_Print stmt;;
          match file with
          | Some name => emit (EvFileWrite name stmt)
          | None => mret tt
          end;;
          printRows table cols data' file
      end
  end.

(** [runDump]. *)
Definition runDump (db : DB) (query table param : string)
    (file : option string) : M unit :=
  emit (EvQuery query param);;
  match db_Query db query param with
  | Err err =>
      log_Fatal ("Query for table " +:+ table +:+ " failed: " +:+ Error err)
  | Ok rows =>
      match rows_Columns rows with
      | Err err => log_Fatal ("Failed to get columns: " +:+ Error err)
      | Ok cols =>
          printRows table cols (rows_data rows) file;;
          emit EvRowsClose
      end
  end.

(** [lookupUserID]. *)
Definition lookupUserID (db : DB) (accountID : string) : M string :=
  emit (EvQueryRow "SELECT user_id FROM accounts WHERE id = $1" accountID);;
  match db_QueryRow db "SELECT user_id FROM accounts WHERE id = $1" accountID with
  | Err err => log_Fatal ("Failed to look up user_id: " +:+ Error err)
  | Ok userID => mret userID
  end.

Section Program.
Context (env : Env).

(** [setupDB]. *)
Definition setupDB : M DB :=
  let url := Getenv env "DATABASE_URL" in
  if decide (url ≠ "") then
    emit (EvOpen url);;
    match sql_Open env url with
    | Err err => log_Fatal ("Failed to connect using DATABASE_URL: " +:+ Error err)
    | Ok db => mret db
    end
  else
    let host := Getenv env "DB_HOST" in
    let port := Getenv env "DB_PORT" in
    let user := Getenv env "DB_USER" in
    let pass := Getenv env "DB_PASS" in
    let name := Getenv env "DB_NAME" in
    let ssl := Getenv env "DB_SSLMODE" in
    if bool_decide (host = "") || bool_decide (port = "") ||
       bool_decide (user = "") || bool_decide (name = "")
    then log_Fatal "Missing required DB environment variables. Either set DATABASE_URL or DB_HOST, DB_PORT, DB_USER, DB_NAME (and optionally DB_PASSWORD)"
    else
      let dsn := "host=" +:+ host +:+ " port=" +:+ port +:+ " user=" +:+ user +:+
                 " password=" +:+ pass +:+ " dbname=" +:+ name +:+
                 " sslmode=" +:+ ssl in
      emit (EvOpen dsn);;
      match sql_Open env dsn with
      | Err err => log_Fatal ("Failed to connect to DB: " +:+ Error err)
      | Ok db => mret db
      end.

(** The loop [for table, query := range queries] of [main]. *)
Fixpoint dumpTables (db : DB) (accountID : string) (file : option string)
    (tables : list string) : M unit :=
  match tables with
  | [] => mret tt
  | table :: tables' =>
      runDump db (queries !!! table) table accountID file;;
      dumpTables db accountID file tables'
  end.

(** [main].  [enum] is the order in which [range queries] yields the
    keys of the map, which Go leaves unspecified. *)
Definition main (flags : Flags) (enum : list string) : M unit :=
  match Args flags with
  | [accountID] =>
      db ← setupDB;
      userID ← lookupUserID db accountID;
      file ←
        (if flagOutput flags then
           let filename := "user_" +:+ userID +:+ "_dump.sql" in
           emit (EvCreate filename);;
           match os_Create env filename with
           | Some err => log_Fatal ("Failed to create output file: " +:+ Error err)
           | None => mret (Some filename)
           end
         else mret None);
      dumpTables db accountID file enum;;
      match file with
      | Some name => emit (EvFileClose name)
      | None => mret tt
      end;;
      emit EvClose
  | _ => log_Fatal ("Usage: " +:+ os_Args0 env +:+ " [--output=true] <account_id>")
  end.

End Program.
End AccountDump.

(** ** Vocabulary of the statements *)
Module Spec.
Import Go.

(** Concatenation of a list of texts. *)
Fixpoint cat (l : list string) : string :=
  match l with
  | [] => ""
  | s :: l' => s +:+ cat l'
  end.

(** The text in which every single quote of [s] is written twice and
    every other byte is copied. *)
Fixpoint doubleQuotes (s : string) : string :=
  match s with
  | "" => ""
  | String c s' =>
      if decide (c = "'"%char) then String c (String c (doubleQuotes s'))
      else String c (doubleQuotes s')
  end.

(** [s] without its single quotes. *)
Fixpoint dropQuotes (s : string) : string :=
  match s with
  | "" => ""
  | String c s' =>
      if decide (c = "'"%char) then dropQuotes s' else String c (dropQuotes s')
  end.

(** Number of single quotes in [s]. *)
Fixpoint countQuotes (s : string) : nat :=
  match s with
  | "" => 0%nat
  | String c s' =>
      ((if decide (c = "'"%char) then 1 else 0) + countQuotes s')%nat
  end.

(** Reading a quoted SQL literal body back: a pair of single quotes
    stands for one; a lone single quote would end the literal. *)
Fixpoint unquoteBody (s : string) : option string :=
  match s with
  | "" => Some ""
  | String c s' =>
      if decide (c = "'"%char) then
        match s' with
        | String c' s'' =>
            if decide (c' = "'"%char)
            then String c <$> unquoteBody s''
            else None
        | "" => None
        end
      else String c <$> unquoteBody s'
  end.

(** A list written out as [x1, x2, ..., xn]: the elements in their
    order, each one but the first after a comma and a space. *)
Definition commaList (l : list string) : string :=
  match l with
  | [] => ""
  | x :: l' => x +:+ cat ((λ y, ", " +:+ y) <$> l')
  end.

(** One statement line, for literals already formatted:
    [INSERT INTO "<table>" (<col1>, ..., <colM>) VALUES (<lit1>, ...,
    <litM>);] and a newline. *)
Definition insertLine (table : string) (cols lits : list string) : string :=
  "INSERT INTO " +:+ dquote +:+ table +:+ dquote +:+ " (" +:+
  commaList cols +:+ ") VALUES (" +:+ commaList lits +:+ ");" +:+ nl.

(** Number of line breaks in [s]. *)
Fixpoint newlines (s : string) : nat :=
  match s with
  | "" => 0%nat
  | String c s' =>
      ((if decide (c = "010"%char) then 1 else 0) + newlines s')%nat
  end.

(** The statement of one row: the line of its formatted values. *)
Definition rowLine (fmt : Value → string) (table : string) (cols : list string)
    (row : list Value) : string :=
  insertLine table cols (fmt <$> row).

(** [text] is one line: its only line break is its last byte. *)
Definition singleLine (text : string) : Prop :=
  ∃ line, text = line +:+ nl ∧ newlines line = 0%nat.

(** Two and four decimal digits. *)
Definition dec2 (n : Z) : string :=
  String (digit (n / 10)) (String (digit (n mod 10)) "").

Definition dec4 (n : Z) : string :=
  String (digit (n / 1000)) (String (digit (n / 100 mod 10))
    (String (digit (n / 10 mod 10)) (String (digit (n mod 10)) ""))).

(** Year of era, shifted month, day and month of the day [doe] of a
    400-year era that starts on 1 March: the part of [civil_from_days]
    that does not depend on the era. *)
Definition civil_of_doe (doe : Z) : Z * Z * Z * Z :=
  let yoe := (doe - doe / 1460 + doe / 36524 - doe / 146096) / 365 in
  let doy := doe - (365 * yoe + yoe / 4 - yoe / 100) in
  let mp := (5 * doy + 2) / 153 in
  let d := doy - (153 * mp + 2) / 5 + 1 in
  let m := if mp <? 10 then mp + 3 else mp - 9 in
  (yoe, mp, d, m).

(** Leap years of the Gregorian calendar, and the number of days of
    month [m] of year [y]. *)
Definition isLeap (y : Z) : bool :=
  (y mod 4 =? 0) && (negb (y mod 100 =? 0) || (y mod 400 =? 0)).

Definition daysIn (y m : Z) : Z :=
  if m =? 2 then (if isLeap y then 29 else 28)
  else if (m =? 4) || (m =? 6) || (m =? 9) || (m =? 11) then 30
  else 31.

Definition civil_of_doe_ok (doe : Z) : bool :=
  let '(yoe, mp, d, m) := civil_of_doe doe in
  (0 <=? yoe) && (yoe <=? 399) && (0 <=? mp) && (mp <=? 11) &&
  (1 <=? d) && (d <=? 31) && (1 <=? m) && (m <=? 12) &&
  (d <=? daysIn (yoe + (if m <=? 2 then 1 else 0)) m).

(** The dates of one era of 400 years, numbered: year of the era (it
    starts on 1 March), month and day. *)
Definition date_of_index (k : Z) : Z * Z * Z :=
  (k / 372, k mod 372 / 31 + 1, k mod 31 + 1).

(** Day of the era of a date, as [days_from_civil] counts it. *)
Definition doe_of_date (yoe m d : Z) : Z :=
  let mp := if m <=? 2 then m + 9 else m - 3 in
  yoe * 365 + yoe / 4 - yoe / 100 + ((153 * mp + 2) / 5 + d - 1).

(** The date with number [k], when its day exists in its month, is
    the date computed for its day of the era. *)
Definition date_round_trip (k : Z) : bool :=
  let '(yoe, m, d) := date_of_index k in
  if d <=? daysIn (yoe + (if m <=? 2 then 1 else 0)) m then
    let doe := doe_of_date yoe m d in
    (0 <=? doe) && (doe <? 146097) &&
    let '(yoe', _, d', m') := civil_of_doe doe in
    (yoe' =? yoe) && (d' =? d) && (m' =? m)
  else true.

(** [P] holds of the [fuel] integers from [n] on. *)
Fixpoint holds_from (P : Z → bool) (fuel : nat) (n : Z) : bool :=
  match fuel with
  | O => true
  | S fuel' => P n && holds_from P fuel' (n + 1)
  end.

(** The comment line that heads a block. *)
Definition header (table : string) : string :=
  "-- Insert for " +:+ table +:+ nl.

(** The rows of a result set, when every one of them scans into [n]
    destinations. *)
Fixpoint allScanned (n : nat) (data : list (result (list Value)))
    : option (list (list Value)) :=
  match data with
  | [] => Some []
  | row :: data' =>
      match Scan n row with
      | Err _ => None
      | Ok vals => (vals ::.) <$> allScanned n data'
      end
  end.

(** The statements of all the rows that a query of [main.go] yields for
    [table], when the query, its column list and every scan succeed. *)
Definition tableDump (db : DB) (query table param : string) : option string :=
  match db_Query db query param with
  | Err _ => None
  | Ok rows =>
      match rows_Columns rows with
      | Err _ => None
      | Ok cols =>
          (λ data, cat (MainGo.insertStatement table cols <$> data)) <$>
          allScanned (length cols) (rows_data rows)
      end
  end.

(** The cursor was read to the end of its result set: [rows.Next()]
    returned [false] because no row was left, not because reading
    failed. *)
Definition exhausted (rows : Rows) : Prop := rows_Err rows = None.

(** The block of [table] in the output of [main.go]: comment line, all
    the statements, empty line. *)
Definition tableBlock (db : DB) (userID table : string) : option string :=
  (λ dump, header table +:+ dump +:+ nl) <$>
  tableDump db (MainGo.queries !!! table) table userID.

(** The file that [--output] names. *)
Definition dumpFile (userID : string) : string :=
  "user_" +:+ userID +:+ "_dump.sql".

(** What [main.go] prints after the dump when [--output] is set and the
    file could be written. *)
Definition fileNotice (env : Env) (flags : MainGo.Flags) (userID out : string)
    : string :=
  if MainGo.outputToFile flags then
    match os_WriteFile env (dumpFile userID) out with
    | None => "Wrote SQL output to " +:+ dumpFile userID +:+ nl
    | Some _ => ""
    end
  else "".

(** The queries that dump a table (as opposed to the single-row
    look-ups of the identifier). *)
Definition is_dump_query (e : event) : bool :=
  match e with
  | EvQuery _ _ => true
  | _ => false
  end.

(** The last event of a trace is the log message [msg]. *)
Definition ends_with_log (tr : list event) (msg : string) : Prop :=
  last tr = Some (EvLog msg).

(** Everything [runDump] prints for [table] when the query, its column
    list and every scan succeed. *)
Definition accountBlock (db : DB) (accountID table : string) : option string :=
  match db_Query db (AccountDump.queries !!! table) accountID with
  | Err _ => None
  | Ok rows =>
      match rows_Columns rows with
      | Err _ => None
      | Ok cols =>
          (λ data, cat (AccountDump.insertStatement table cols <$> data)) <$>
          allScanned (length cols) (rows_data rows)
      end
  end.

(** The invocation names the user [userID], by [--user_id] or as the
    only positional argument. *)
Definition selectsUser (flags : MainGo.Flags) (userID : string) : Prop :=
  (MainGo.userIDFlag flags = userID ∧ userID ≠ "" ∧
   MainGo.accountIDFlag flags = "" ∧ MainGo.Args flags = []) ∨
  (MainGo.userIDFlag flags = "" ∧ MainGo.accountIDFlag flags = "" ∧
   MainGo.Args flags = [userID]).

(** The invocation names the account [accountID] by [--account_id]. *)
Definition selectsAccount (flags : MainGo.Flags) (accountID : string) : Prop :=
  MainGo.userIDFlag flags = "" ∧ MainGo.accountIDFlag flags = accountID ∧
  accountID ≠ "" ∧ MainGo.Args flags = [].

(** No log message of the trace contains [text]. *)
Definition no_log_names (tr : list event) (text : string) : bool :=
  forallb (λ e, match e with
                | EvLog msg => negb (Contains msg text)
                | _ => true
                end) tr.

(** [enum] is an order in which [range] may yield the keys of [m]. *)
Definition enumerates (enum : list string) (m : gmap string string) : Prop :=
  enum ≡ₚ (map_to_list m).*1.

(** The table names in increasing order. *)
Definition sortedTables : list string :=
  ["accounts"; "app_auth_tokens"; "user_identities"; "user_preferences"; "users"].

End Spec.

(** ** Concrete runs *)
Module Examples.
Import Go.

Definition usersRows : Rows :=
  {| rows_Columns := Ok ["id"; "name"; "created_at"];
     rows_data :=
       [ Ok [VOther "7"; VBytes "O'Neil"; VTime (Date 2024 1 2 3 4 5 0 UTC)];
         Ok [VOther "8"; VNil; VBool true] ];
     rows_Err := None |}.

Definition oneRow : Rows :=
  {| rows_Columns := Ok ["id"];
     rows_data := [Ok [VOther "1"]];
     rows_Err := None |}.

Definition noRows : Rows :=
  {| rows_Columns := Ok ["id"]; rows_data := []; rows_Err := None |}.

(** A result set whose second row fails to scan: [rows.Scan] reports
    that the cursor has been closed under it. *)
Definition brokenRows : Rows :=
  {| rows_Columns := Ok ["id"];
     rows_data := [Ok [VOther "1"]; Err (ErrOther "sql: Rows are closed")];
     rows_Err := None |}.

(** A result set with one cell of two lines. *)
Definition noteRows : Rows :=
  {| rows_Columns := Ok ["note"];
     rows_data := [Ok [VBytes ("first" +:+ nl +:+ "second")]];
     rows_Err := None |}.

(** A database that knows user [U1] and its account [A1]; every table
    holds one row for it, [users] two and [app_auth_tokens] none. *)
Definition db : DB :=
  {| db_QueryRow query arg :=
       if decide (query = "SELECT id FROM users WHERE id = $1" ∧ arg = "U1")
       then Ok "U1"
       else if decide (query = "SELECT user_id FROM accounts WHERE id = $1" ∧
                       arg = "A1")
       then Ok "U1"
       else Err ErrNoRows;
     db_Query query arg :=
       if String.prefix "SELECT * FROM users" query then Ok usersRows
       else if String.prefix "SELECT * FROM app_auth_tokens" query then Ok noRows
       else Ok oneRow |}.

(** The same database, where the second row of [accounts] does not
    scan. *)
Definition flakyDB : DB :=
  {| db_QueryRow := db_QueryRow db;
     db_Query query arg :=
       if String.prefix "SELECT * FROM accounts" query then Ok brokenRows
       else db_Query db query arg |}.

(** A database whose every table holds the two-line note. *)
Definition notesDB : DB :=
  {| db_QueryRow := db_QueryRow db;
     db_Query _ _ := Ok noteRows |}.

(** A database that cannot be reached: every query fails in the
    network layer. *)
Definition downDB : DB :=
  {| db_QueryRow _ _ :=
       Err (ErrOther "dial tcp 127.0.0.1:5432: connect: connection refused");
     db_Query _ _ :=
       Err (ErrOther "dial tcp 127.0.0.1:5432: connect: connection refused") |}.

(** A process environment with [DATABASE_URL] set, whose connections
    reach [d]. *)
Definition envOf (d : DB) : Env :=
  {| Getenv name :=
       if decide (name = "DATABASE_URL") then "postgres://localhost/development"
       else "";
     sql_Open _ := Ok d;
     url_String _ _ _ _ _ _ := "";
     os_WriteFile _ _ := None;
     os_Create _ := None;
     os_Args0 := "account-importer" |}.

Definition env : Env := envOf db.

Definition byUserID (id : string) : MainGo.Flags :=
  {| MainGo.outputToFile := false; MainGo.userIDFlag := id;
     MainGo.accountIDFlag := ""; MainGo.Args := [] |}.

Definition byAccountID (id : string) : MainGo.Flags :=
  {| MainGo.outputToFile := false; MainGo.userIDFlag := "";
     MainGo.accountIDFlag := id; MainGo.Args := [] |}.

Definition positional (id : string) : MainGo.Flags :=
  {| MainGo.outputToFile := false; MainGo.userIDFlag := "";
     MainGo.accountIDFlag := ""; MainGo.Args := [id] |}.

Definition bothFlags : MainGo.Flags :=
  {| MainGo.outputToFile := false; MainGo.userIDFlag := "U1";
     MainGo.accountIDFlag := "A1"; MainGo.Args := [] |}.

Definition accountArg (id : string) : AccountDump.Flags :=
  {| AccountDump.flagOutput := false; AccountDump.Args := [id] |}.

End Examples.

(** ** Observations on a run *)
Module Observe.
Import Go Spec.

(** The table queries of a trace with their bound parameter, in
    order. *)
Definition dumpQueries (tr : list event) : list (string * string) :=
  omap (λ e, match e with EvQuery q a => Some (q, a) | _ => None end) tr.

(** The single-row look-ups of a trace with their bound parameter. *)
Definition lookups (tr : list event) : list (string * string) :=
  omap (λ e, match e with EvQueryRow q a => Some (q, a) | _ => None end) tr.

(** The messages handed to the logger. *)
Definition logged (tr : list event) : list string :=
  omap (λ e, match e with EvLog msg => Some msg | _ => None end) tr.

(** The connection strings handed to [sql.Open]. *)
Definition opened (tr : list event) : list string :=
  omap (λ e, match e with EvOpen dsn => Some dsn | _ => None end) tr.

(** Number of [db.Close()] and of [rows.Close()] calls. *)
Definition closes (tr : list event) : nat :=
  length (omap (λ e, match e with EvClose => Some tt | _ => None end) tr).

Definition cursorCloses (tr : list event) : nat :=
  length (omap (λ e, match e with EvRowsClose => Some tt | _ => None end) tr).

(** Everything handed to [file.WriteString]. *)
Fixpoint written (tr : list event) : string :=
  match tr with
  | [] => ""
  | EvFileWrite _ data :: tr' => data +:+ written tr'
  | _ :: tr' => written tr'
  end.

(** The files handed to [os.WriteFile], with their content. *)
Definition filesWritten (tr : list event) : list (string * string) :=
  omap (λ e, match e with EvWriteFile name data => Some (name, data) | _ => None end) tr.

(** The first error that reading a result set meets: a failing
    [Scan]. *)
Fixpoint firstScanError (n : nat) (data : list (result (list Value)))
    : option error :=
  match data with
  | [] => None
  | row :: data' =>
      match Scan n row with
      | Err err => Some err
      | Ok _ => firstScanError n data'
      end
  end.

(** The first error that dumping a table meets: the query, the column
    list, then the rows in order. *)
Definition dumpError (db : DB) (query param : string) : option error :=
  match db_Query db query param with
  | Err err => Some err
  | Ok rows =>
      match rows_Columns rows with
      | Err err => Some err
      | Ok cols => firstScanError (length cols) (rows_data rows)
      end
  end.

(** The warning of [main.go] for a table it skips. *)
Definition warning (table : string) (err : error) : string :=
  "Warning: Skipping table " +:+ table +:+ " due to error: " +:+ Error err.

(** [os.Setenv(name, value)] on the environment of the process. *)
Definition setenv (env : Env) (name value : string) : Env :=
  {| Getenv := λ k, if decide (k = name) then value else Getenv env k;
     sql_Open := sql_Open env;
     url_String := url_String env;
     os_WriteFile := os_WriteFile env;
     os_Create := os_Create env;
     os_Args0 := os_Args0 env |}.

(** The environment variables that describe the connection. *)
Definition connectVars : list string :=
  ["DATABASE_URL"; "DB_HOST"; "DB_PORT"; "DB_USER"; "DB_PASS"; "DB_NAME";
   "DB_SSLMODE"].

(** One of the four required variables is missing. *)
Definition missingVar (env : Env) : Prop :=
  Getenv env "DB_HOST" = "" ∨ Getenv env "DB_PORT" = "" ∨
  Getenv env "DB_USER" = "" ∨ Getenv env "DB_NAME" = "".

(** The two usage messages of [main.go]. *)
Definition conflictMessage : string :=
  "Provide either --user_id or --account_id, not both. Or pass a positional argument (assumed to be user_id by default).".

Definition usageMessage : string :=
  "Usage: go run main.go [--output=true] [--user_id=<id> | --account_id=<id>] <user_id>".

(** The events of [main.go] for one table: the query, the closing of
    the cursor when there is one, the warning when the dump fails. *)
Definition tableEvents (db : DB) (userID table : string) : list event :=
  EvQuery (MainGo.queries !!! table) userID ::
  (if is_Ok (db_Query db (MainGo.queries !!! table) userID)
   then [EvRowsClose] else []) ++
  match dumpError db (MainGo.queries !!! table) userID with
  | Some err => [EvLog (warning table err)]
  | None => []
  end.

(** What [main.go] does after the dump is printed: the file, when
    [--output] is set, then the closing of the connection. *)
Definition fileEvents (env : Env) (flags : MainGo.Flags) (userID out : string)
    : list event :=
  if MainGo.outputToFile flags then
    EvWriteFile (dumpFile userID) out ::
    match os_WriteFile env (dumpFile userID) out with
    | Some err => [EvLog ("Failed to write to file: " +:+ Error err)]
    | None => [EvStdout ("Wrote SQL output to " +:+ dumpFile userID +:+ nl);
               EvClose]
    end
  else [EvClose].

(** Number of tables whose query [main.go] gets an answer to, that is,
    number of cursors it opens. *)
Definition cursorsOpened (db : DB) (userID : string) (tables : list string)
    : nat :=
  length (omap (λ table,
                  match db_Query db (MainGo.queries !!! table) userID with
                  | Ok rows => Some rows
                  | Err _ => None
                  end) tables).

(** What [main.go] logs when the file cannot be written. *)
Definition writeFailure (env : Env) (flags : MainGo.Flags) (userID out : string)
    : list string :=
  if MainGo.outputToFile flags then
    match os_WriteFile env (dumpFile userID) out with
    | Some err => ["Failed to write to file: " +:+ Error err]
    | None => []
    end
  else [].


(** The tables the loop of the account-id variant gets to: every table
    up to and including the first one whose dump fails. *)
Fixpoint reached (db : DB) (accountID : string) (tables : list string)
    : list string :=
  match tables with
  | [] => []
  | table :: tables' =>
      table :: (if accountBlock db accountID table is Some _
                then reached db accountID tables' else [])
  end.

(** What [generateInsertStatements] returns to [main] for [table]. *)
Definition dumpResult (db : DB) (userID table : string) : outcome (result string) :=
  result_of (MainGo.generateInsertStatements db (MainGo.queries !!! table)
               table userID).

(** The warning of [table], when [generateInsertStatements] returned an
    error for it; and its block, when it returned the statements. *)
Definition warningOf (db : DB) (userID table : string) : option string :=
  match dumpResult db userID table with
  | Returned (Err err) => Some (warning table err)
  | _ => None
  end.

Definition blockOf (db : DB) (userID table : string) : option string :=
  match dumpResult db userID table with
  | Returned (Ok dump) => Some (header table +:+ dump +:+ nl)
  | _ => None
  end.

(** The database [db] with every cursor reporting [e] from
    [rows.Err()]. *)
Definition withErr (e : option error) (db : DB) : DB :=
  {| db_QueryRow := db_QueryRow db;
     db_Query query arg :=
       match db_Query db query arg with
       | Ok rows => Ok {| rows_Columns := rows_Columns rows;
                          rows_data := rows_data rows;
                          rows_Err := e |}
       | Err err => Err err
       end |}.

End Observe.

(** ** More concrete runs *)
Module Cases.
Import Go.

(** A process environment without [DATABASE_URL], described by the
    separate variables; no password, no SSL mode. *)
Definition envByVars (d : DB) : Env :=
  {| Getenv name :=
       if decide (name = "DB_HOST") then "localhost"
       else if decide (name = "DB_PORT") then "5432"
       else if decide (name = "DB_USER") then "timehop"
       else if decide (name = "DB_NAME") then "development"
       else "";
     sql_Open _ := Ok d;
     url_String host port user pass dbname sslmode :=
       "postgres://" +:+ user +:+ ":" +:+ pass +:+ "@" +:+ host +:+ ":" +:+
       port +:+ "/" +:+ dbname +:+ "?default_transaction_read_only=true&sslmode=" +:+
       sslmode;
     os_WriteFile _ _ := None;
     os_Create _ := None;
     os_Args0 := "account-importer" |}.

(** An environment in which nothing describes the connection. *)
Definition emptyEnv : Env :=
  {| Getenv _ := "";
     sql_Open _ := Ok Examples.db;
     url_String _ _ _ _ _ _ := "";
     os_WriteFile _ _ := None;
     os_Create _ := None;
     os_Args0 := "account-importer" |}.

(** The example environment on a disk that cannot be written. *)
Definition readOnlyDisk : Env :=
  {| Getenv := Getenv Examples.env;
     sql_Open := sql_Open Examples.env;
     url_String := url_String Examples.env;
     os_WriteFile _ _ := Some (ErrOther "open user_U1_dump.sql: read-only file system");
     os_Create _ := Some (ErrOther "open user_U1_dump.sql: read-only file system");
     os_Args0 := "account-importer" |}.

Definition toFile (id : string) : MainGo.Flags :=
  {| MainGo.outputToFile := true; MainGo.userIDFlag := id;
     MainGo.accountIDFlag := ""; MainGo.Args := [] |}.

Definition noIdentifier : MainGo.Flags :=
  {| MainGo.outputToFile := false; MainGo.userIDFlag := "";
     MainGo.accountIDFlag := ""; MainGo.Args := [] |}.

Definition flagAndPositional : MainGo.Flags :=
  {| MainGo.outputToFile := false; MainGo.userIDFlag := "U1";
     MainGo.accountIDFlag := ""; MainGo.Args := ["U1"] |}.

Definition accountToFile (id : string) : AccountDump.Flags :=
  {| AccountDump.flagOutput := true; AccountDump.Args := [id] |}.

End Cases.

(** ** Properties *)
Import Go Spec.

(** *** Texts *)

Lemma sapp_cons (c : ascii) (a b : string) : String c a +:+ b = String c (a +:+ b).
Proof. done. Qed.

Lemma sapp_nil_l (s : string) : "" +:+ s = s.
Proof. done. Qed.

Lemma sapp_nil_r (s : string) : s +:+ "" = s.
Proof. induction s as [|c s IH]; [done|]. by rewrite sapp_cons, IH. Qed.

Lemma sapp_assoc (a b c : string) : (a +:+ b) +:+ c = a +:+ (b +:+ c).
Proof. induction a as [|x a IH]; [done|]. by rewrite !sapp_cons, IH. Qed.

Lemma cat_app (l1 l2 : list string) : cat (l1 ++ l2) = cat l1 +:+ cat l2.
Proof.
  induction l1 as [|s l1 IH]; [done|].
  cbn [cat app]. by rewrite IH, sapp_assoc.
Qed.

Lemma prefix_refl (s : string) : String.prefix s s = true.
Proof.
  induction s as [|c s IH]; [done|].
  cbn [String.prefix]. by destruct (ascii_dec c c).
Qed.

Lemma prefix_app (s t : string) : String.prefix s (s +:+ t) = true.
Proof.
  induction s as [|c s IH]; [by destruct t|].
  rewrite sapp_cons. cbn [String.prefix]. by destruct (ascii_dec c c).
Qed.

Lemma Contains_app_l (a s : string) (sub : string) :
  Contains s sub = true → Contains (a +:+ s) sub = true.
Proof.
  intros Hs. induction a as [|c a IH]; [done|].
  rewrite sapp_cons. cbn [Contains].
  rewrite IH. apply orb_true_r.
Qed.

(** A text contains whatever was spliced into it. *)
Lemma Contains_splice (a sub b : string) : Contains (a +:+ sub +:+ b) sub = true.
Proof.
  apply Contains_app_l.
  destruct (sub +:+ b) eqn:E; cbn [Contains]; rewrite <- E, prefix_app; done.
Qed.

(** *** Computations *)

(** Goals about every event of an explicit trace. *)
Ltac each_event :=
  repeat first [done | apply Forall_nil_2 | apply Forall_cons_2].

(** Goals about the last event of a trace that ends with an explicit
    list of events. *)
Ltac last_event :=
  unfold ends_with_log; cbn [trace fst]; by rewrite last_app.

Lemma bind_Returned {A B} (m : M A) (f : A → M B) tr a :
  m = (tr, Returned a) → m ≫= f = (tr ++ trace (f a), result_of (f a)).
Proof. by intros ->. Qed.

Lemma bind_Exited {A B} (m : M A) (f : A → M B) tr status :
  m = (tr, Exited status) → m ≫= f = (tr, Exited status).
Proof. by intros ->. Qed.

Lemma result_of_bind {A B} (m : M A) (f : A → M B) :
  result_of (m ≫= f) =
  match result_of m with
  | Returned a => result_of (f a)
  | Exited status => Exited status
  end.
Proof. destruct m as [tr [a|status]]; done. Qed.

Lemma trace_bind {A B} (m : M A) (f : A → M B) :
  trace (m ≫= f) =
  match result_of m with
  | Returned a => trace m ++ trace (f a)
  | Exited _ => trace m
  end.
Proof. destruct m as [tr [a|status]]; done. Qed.

Lemma ret_bind {A B} (a : A) (f : A → M B) : mret a ≫= f = f a.
Proof. unfold mbind, M_bind, mret, M_ret. cbn. by destruct (f a). Qed.

Lemma emit_bind_result {B} (e : event) (f : unit → M B) :
  result_of (emit e ≫= f) = result_of (f tt).
Proof. done. Qed.

Lemma emit_bind_trace {B} (e : event) (f : unit → M B) :
  trace (emit e ≫= f) = e :: trace (f tt).
Proof. done. Qed.

Lemma stdout_app (tr1 tr2 : list event) :
  stdout (tr1 ++ tr2) = stdout tr1 +:+ stdout tr2.
Proof.
  induction tr1 as [|e tr1 IH]; [done|].
  destruct e; cbn [stdout app]; rewrite ?IH, ?sapp_assoc; done.
Qed.

(** *** C2: quoting of binary and text values *)

Lemma prefix_empty (s : string) : String.prefix "" s = true.
Proof. by destruct s. Qed.

Lemma prefix_byte (a c : ascii) (s : string) :
  String.prefix (String a "") (String c s) = bool_decide (a = c).
Proof.
  cbn [String.prefix]. destruct (ascii_dec a c) as [->|Hne].
  - by rewrite prefix_empty, bool_decide_eq_true_2.
  - by rewrite bool_decide_eq_false_2.
Qed.

Lemma replace_from_cons (old new : string) (c : ascii) (s : string) :
  replace_from old new 0 (String c s) =
  if String.prefix old (String c s)
  then new +:+ replace_from old new (String.length old - 1) s
  else String c (replace_from old new 0 s).
Proof. done. Qed.

Lemma escapeSingleQuotes_doubleQuotes (s : string) :
  MainGo.escapeSingleQuotes s = doubleQuotes s.
Proof.
  unfold MainGo.escapeSingleQuotes, ReplaceAll.
  induction s as [|c s IH]; [done|].
  rewrite replace_from_cons, prefix_byte. cbn [doubleQuotes].
  destruct (decide (c = "'"%char)) as [->|Hne].
  - rewrite bool_decide_eq_true_2 by done.
    change (String.length "'" - 1)%nat with 0%nat. by rewrite IH.
  - rewrite bool_decide_eq_false_2 by congruence. by rewrite IH.
Qed.

Lemma dropQuotes_doubleQuotes (s : string) :
  dropQuotes (doubleQuotes s) = dropQuotes s.
Proof.
  induction s as [|c s IH]; [done|].
  cbn [doubleQuotes dropQuotes]. destruct (decide (c = "'"%char)) as [->|Hne].
  - cbn [dropQuotes]. rewrite !decide_True by done. done.
  - cbn [dropQuotes]. rewrite decide_False by done. by rewrite IH.
Qed.

Lemma countQuotes_doubleQuotes (s : string) :
  countQuotes (doubleQuotes s) = (2 * countQuotes s)%nat.
Proof.
  induction s as [|c s IH]; [done|].
  cbn [doubleQuotes countQuotes]. destruct (decide (c = "'"%char)) as [->|Hne].
  - cbn [countQuotes]. rewrite !decide_True by done. lia.
  - cbn [countQuotes]. rewrite decide_False by done. lia.
Qed.

Lemma unquoteBody_doubleQuotes (s : string) :
  unquoteBody (doubleQuotes s) = Some s.
Proof.
  induction s as [|c s IH]; [done|].
  cbn [doubleQuotes]. destruct (decide (c = "'"%char)) as [->|Hne].
  - cbn [unquoteBody]. rewrite !decide_True by done. by rewrite IH.
  - cbn [unquoteBody]. rewrite decide_False by done. by rewrite IH.
Qed.

(** Values of type [[]byte]: in both programs such a value [s] is
    formatted as a single quote, then [s] with every single quote
    doubled and every other byte copied unchanged, then a single quote.
    Consequently the bytes other than single quotes are the same, in
    the same order, before and after escaping; the number of single
    quotes doubles; and reading the body back as an SQL literal gives
    [s] again. *)
Lemma formatValue_VBytes_quoted (s : string) :
  MainGo.formatValue (VBytes s) = "'" +:+ doubleQuotes s +:+ "'" ∧
  AccountDump.formatValue (VBytes s) = "'" +:+ doubleQuotes s +:+ "'" ∧
  dropQuotes (MainGo.escapeSingleQuotes s) = dropQuotes s ∧
  countQuotes (MainGo.escapeSingleQuotes s) = (2 * countQuotes s)%nat ∧
  unquoteBody (MainGo.escapeSingleQuotes s) = Some s.
Proof.
  unfold MainGo.formatValue, AccountDump.formatValue.
  change (AccountDump.escapeSingleQuotes s) with (MainGo.escapeSingleQuotes s).
  rewrite escapeSingleQuotes_doubleQuotes.
  auto using dropQuotes_doubleQuotes, countQuotes_doubleQuotes,
    unquoteBody_doubleQuotes.
Qed.

Lemma length_sapp (a b : string) :
  String.length (a +:+ b) = (String.length a + String.length b)%nat.
Proof.
  induction a as [|c a IH]; [done|].
  rewrite sapp_cons. cbn [String.length]. by rewrite IH.
Qed.

Lemma length_doubleQuotes (s : string) :
  String.length (doubleQuotes s) = (String.length s + countQuotes s)%nat.
Proof.
  induction s as [|c s IH]; [done|].
  cbn [doubleQuotes countQuotes].
  destruct (decide (c = "'"%char)); cbn [String.length]; rewrite IH; lia.
Qed.

(** Reading a body back takes one byte away for every pair of single
    quotes. *)
Lemma unquoteBody_length (s r : string) :
  unquoteBody s = Some r →
  (2 * String.length r + countQuotes s = 2 * String.length s)%nat.
Proof.
  remember (String.length s) as n eqn:Hn. revert s r Hn.
  induction n as [n IH] using lt_wf_ind. intros s r Hn Hs.
  destruct s as [|c s].
  - cbn in Hs. injection Hs as <-. by subst n.
  - cbn [unquoteBody] in Hs. cbn [String.length] in Hn.
    cbn [countQuotes String.length].
    destruct (decide (c = "'"%char)) as [->|Hne].
    + destruct s as [|c' s]; [done|].
      destruct (decide (c' = "'"%char)) as [->|Hne']; [|done].
      destruct (unquoteBody s) as [r'|] eqn:Hr'; [|done].
      cbn in Hs. injection Hs as <-.
      cbn [String.length] in Hn |- *. cbn [countQuotes].
      rewrite decide_True by done.
      pose proof (IH (String.length s) ltac:(lia) s r' eq_refl Hr'). lia.
    + destruct (unquoteBody s) as [r'|] eqn:Hr'; [|done].
      cbn in Hs. injection Hs as <-. cbn [String.length].
      pose proof (IH (String.length s) ltac:(lia) s r' eq_refl Hr'). lia.
Qed.

(** C2.  The type switch of both programs doubles the single quotes of
    [[]byte] values only; it has no case for [string].  A text cell
    that the driver hands over as a Go [string] takes the generic
    branch: it is printed between single quotes with its own quotes
    left single.  When the text holds a single quote, the literal is
    not the one with every quote doubled that the same text gets as a
    [[]byte], and its body does not read back as the text. *)
Theorem C2_string_cell_quotes_not_doubled (s : string) :
  (0 < countQuotes s)%nat →
  MainGo.formatValue (VOther s) = "'" +:+ s +:+ "'" ∧
  AccountDump.formatValue (VOther s) = "'" +:+ s +:+ "'" ∧
  MainGo.formatValue (VOther s) ≠ "'" +:+ doubleQuotes s +:+ "'" ∧
  AccountDump.formatValue (VOther s) ≠ "'" +:+ doubleQuotes s +:+ "'" ∧
  unquoteBody s ≠ Some s ∧
  MainGo.formatValue (VBytes s) = "'" +:+ doubleQuotes s +:+ "'" ∧
  AccountDump.formatValue (VBytes s) = "'" +:+ doubleQuotes s +:+ "'".
Proof.
  intros Hquote.
  assert ("'" +:+ s +:+ "'" ≠ "'" +:+ doubleQuotes s +:+ "'") as Hne.
  { intros Heq. apply (f_equal String.length) in Heq.
    rewrite !length_sapp, length_doubleQuotes in Heq. lia. }
  destruct (formatValue_VBytes_quoted s) as (Hb1 & Hb2 & _).
  split_and!; try done.
  intros Hback. apply unquoteBody_length in Hback. lia.
Qed.

(** Witness of C2: the name [O'Neil], as a [string] and as a
    [[]byte]. *)
Lemma C2_string_cell_quotes_not_doubled_witness :
  MainGo.formatValue (VOther "O'Neil") = "'O'Neil'" ∧
  AccountDump.formatValue (VOther "O'Neil") = "'O'Neil'" ∧
  MainGo.formatValue (VBytes "O'Neil") = "'O''Neil'".
Proof.
  destruct (C2_string_cell_quotes_not_doubled "O'Neil")
    as (Hmain & Hvariant & _ & _ & _ & Hbytes & _).
  - vm_compute. lia.
  - rewrite Hmain, Hvariant, Hbytes. by vm_compute.
Defined.

(** *** C1, C9: one statement per row *)

Lemma Scan_Ok (n : nat) (vals : list Value) :
  length vals = n → Scan n (Ok vals) = Ok vals.
Proof. intros H. unfold Scan. by rewrite decide_True. Qed.

Lemma scanRows_Ok (table : string) (cols : list string)
    (data : list (list Value)) (out : string) :
  Forall (λ row, length row = length cols) data →
  MainGo.scanRows table cols (Ok <$> data) out =
  Ok (out +:+ cat (MainGo.insertStatement table cols <$> data)).
Proof.
  intros Hlen. revert out.
  induction Hlen as [|row data Hrow _ IH]; intros out.
  - cbn [fmap list_fmap MainGo.scanRows cat]. by rewrite sapp_nil_r.
  - rewrite !fmap_cons. cbn [MainGo.scanRows cat].
    rewrite Scan_Ok by done. by rewrite IH, sapp_assoc.
Qed.

(** One pass of the row loop of [runDump] on a row that scans: the
    statement is printed, then the loop goes on. *)
Lemma printRows_step (table : string) (cols : list string)
    (row : result (list Value)) (vals : list Value)
    (data : list (result (list Value))) (file : option string) :
  Scan (length cols) row = Ok vals →
  result_of (AccountDump.printRows table cols (row :: data) file) =
    result_of (AccountDump.printRows table cols data file) ∧
  stdout (trace (AccountDump.printRows table cols (row :: data) file)) =
    AccountDump.insertStatement table cols vals +:+
    stdout (trace (AccountDump.printRows table cols data file)).
Proof.
  intros Hscan. cbn [AccountDump.printRows]. rewrite Hscan. unfold fmt_Print.
  rewrite emit_bind_result, emit_bind_trace.
  destruct file; by rewrite ?emit_bind_result, ?emit_bind_trace, ?ret_bind.
Qed.

Lemma printRows_Ok (table : string) (cols : list string)
    (data : list (list Value)) (file : option string) :
  Forall (λ row, length row = length cols) data →
  result_of (AccountDump.printRows table cols (Ok <$> data) file) = Returned tt ∧
  stdout (trace (AccountDump.printRows table cols (Ok <$> data) file)) =
  cat (AccountDump.insertStatement table cols <$> data).
Proof.
  induction 1 as [|row data Hrow _ [IHr IHt]]; [done|].
  rewrite !fmap_cons. cbn [cat].
  destruct (printRows_step table cols (Ok row) row (Ok <$> data) file)
    as [-> ->]; [by apply Scan_Ok|].
  by rewrite IHt.
Qed.

(** [strings.Join] with the separator [", "] writes the list out with
    commas. *)
Lemma Join_commaList (l : list string) : Join l ", " = commaList l.
Proof.
  induction l as [|x l IH]; [done|].
  destruct l as [|y l].
  - cbn [Join commaList]. rewrite fmap_nil. cbn [cat]. by rewrite sapp_nil_r.
  - change (Join (x :: y :: l) ", ") with (x +:+ ", " +:+ Join (y :: l) ", ").
    rewrite IH. cbn [commaList]. rewrite !fmap_cons. cbn [cat].
    by rewrite !sapp_assoc.
Qed.

Lemma insertStatement_rowLine (table : string) (cols : list string)
    (row : list Value) :
  MainGo.insertStatement table cols row = rowLine MainGo.formatValue table cols row.
Proof.
  unfold MainGo.insertStatement, rowLine, insertLine. cbv zeta.
  by rewrite !Join_commaList.
Qed.

Lemma insertStatement_header_rowLine (table : string) (cols : list string)
    (row : list Value) :
  AccountDump.insertStatement table cols row =
  header table +:+ rowLine AccountDump.formatValue table cols row +:+ nl.
Proof.
  unfold AccountDump.insertStatement, rowLine, insertLine, header. cbv zeta.
  by rewrite !Join_commaList, !sapp_assoc.
Qed.

Lemma newlines_app (a b : string) :
  newlines (a +:+ b) = (newlines a + newlines b)%nat.
Proof.
  induction a as [|c a IH]; [done|].
  rewrite sapp_cons. cbn [newlines]. rewrite IH. lia.
Qed.

Lemma newlines_commaList (l : list string) :
  Forall (λ s, newlines s = 0%nat) l → newlines (commaList l) = 0%nat.
Proof.
  destruct 1 as [|x l Hx Hl]; [done|].
  cbn [commaList]. rewrite newlines_app, Hx.
  assert (newlines (cat ((λ y, ", " +:+ y) <$> l)) = 0%nat) as ->; [|done].
  induction Hl as [|y l Hy _ IH]; [done|].
  rewrite fmap_cons. cbn [cat]. by rewrite !newlines_app, Hy, IH.
Qed.

(** A statement is one line when the names and the literals hold no
    line break. *)
Lemma insertLine_singleLine (table : string) (cols lits : list string) :
  newlines table = 0%nat →
  Forall (λ s, newlines s = 0%nat) cols →
  Forall (λ s, newlines s = 0%nat) lits →
  singleLine (insertLine table cols lits).
Proof.
  intros Htable Hcols Hlits.
  exists ("INSERT INTO " +:+ dquote +:+ table +:+ dquote +:+ " (" +:+
          commaList cols +:+ ") VALUES (" +:+ commaList lits +:+ ");").
  split; [unfold insertLine; by rewrite !sapp_assoc|].
  by rewrite !newlines_app, Htable, (newlines_commaList cols),
    (newlines_commaList lits).
Qed.

Lemma singleLine_newlines (text : string) :
  singleLine text → newlines text = 1%nat.
Proof. intros (line & -> & Hline). by rewrite newlines_app, Hline. Qed.

Lemma newlines_cat_lines (l : list string) :
  Forall singleLine l → newlines (cat l) = length l.
Proof.
  induction 1 as [|text l Htext _ IH]; [done|].
  cbn [cat length]. by rewrite newlines_app, IH, singleLine_newlines.
Qed.

Lemma rowLines_single (fmt : Value → string) (table : string)
    (cols : list string) (data : list (list Value)) :
  newlines table = 0%nat →
  Forall (λ col, newlines col = 0%nat) cols →
  Forall (Forall (λ v, newlines (fmt v) = 0%nat)) data →
  Forall singleLine (rowLine fmt table cols <$> data).
Proof.
  intros Htable Hcols Hdata. apply Forall_fmap.
  eapply Forall_impl; [exact Hdata|]. intros row Hrow.
  apply insertLine_singleLine; [done|done|]. by apply Forall_fmap.
Qed.

Lemma digit_not_newline (d : Z) : digit (d mod 10) ≠ "010"%char.
Proof.
  pose proof (Z.mod_pos_bound d 10 ltac:(lia)) as Hd.
  assert (d mod 10 = 0 ∨ d mod 10 = 1 ∨ d mod 10 = 2 ∨ d mod 10 = 3 ∨
          d mod 10 = 4 ∨ d mod 10 = 5 ∨ d mod 10 = 6 ∨ d mod 10 = 7 ∨
          d mod 10 = 8 ∨ d mod 10 = 9) as Hcases by lia.
  destruct_or!; rewrite Hcases; by vm_compute.
Qed.

Lemma newlines_utoa_from (fuel : nat) (u : Z) (acc : string) :
  newlines (utoa_from fuel u acc) = newlines acc.
Proof.
  revert u acc. induction fuel as [|fuel IH]; intros u acc; cbn [utoa_from].
  - cbn [newlines]. by rewrite decide_False by apply digit_not_newline.
  - destruct (u <? 10); [|rewrite IH]; cbn [newlines];
      by rewrite decide_False by apply digit_not_newline.
Qed.

Lemma newlines_appendInt (x : Z) (width : nat) : newlines (appendInt x width) = 0%nat.
Proof.
  unfold appendInt, utoa. cbv zeta. rewrite !newlines_app, newlines_utoa_from.
  assert (∀ n, newlines (String.string_of_list_ascii (replicate n "0"%char)) = 0%nat)
    as Hzeros by (induction n as [|n IH]; [done|by cbn; rewrite IH]).
  rewrite Hzeros. by destruct (x <? 0).
Qed.

Lemma newlines_doubleQuotes (s : string) :
  newlines (doubleQuotes s) = newlines s.
Proof.
  induction s as [|c s IH]; [done|].
  cbn [doubleQuotes newlines].
  destruct (decide (c = "'"%char)) as [->|Hne]; cbn [newlines]; rewrite IH.
  - by rewrite !decide_False by done.
  - done.
Qed.

(** The line breaks of a literal are those of the value it is made
    from: a literal of [main.go] holds one only when a [[]byte] value or
    the text of a value of another type does. *)
Lemma newlines_formatValue (v : Value) :
  newlines (MainGo.formatValue v) =
  match v with
  | VBytes s | VOther s => newlines s
  | _ => 0%nat
  end.
Proof.
  assert (newlines "'" = 0%nat) as Hquote by done.
  destruct v as [|[]|s|t|s]; try done; unfold MainGo.formatValue.
  - rewrite escapeSingleQuotes_doubleQuotes, !newlines_app, Hquote,
      newlines_doubleQuotes. lia.
  - unfold Format_seconds_Z. by rewrite !newlines_app, !newlines_appendInt.
  - rewrite !newlines_app, Hquote. lia.
Qed.

(** In the account-id variant a timestamp is printed in its default
    text, which ends with the abbreviation of its zone. *)
Lemma newlines_formatValue_variant (v : Value) :
  newlines (AccountDump.formatValue v) =
  match v with
  | VBytes s | VOther s => newlines s
  | VTime t => newlines (Time_String t)
  | _ => 0%nat
  end.
Proof.
  assert (newlines "'" = 0%nat) as Hquote by done.
  destruct v as [|[]|s|t|s]; try done; unfold AccountDump.formatValue.
  - change (AccountDump.escapeSingleQuotes s) with (MainGo.escapeSingleQuotes s).
    rewrite escapeSingleQuotes_doubleQuotes, !newlines_app, Hquote,
      newlines_doubleQuotes. lia.
  - rewrite !newlines_app, Hquote. lia.
  - rewrite !newlines_app, Hquote. lia.
Qed.

(** C1, as amended.  For a result set of N rows over M columns, each
    row holding M values: [generateInsertStatements] returns, without
    error, the statements of the N rows in the order of the rows, the
    statement of a row being [INSERT INTO "<table>" (<col1>, ...,
    <colM>) VALUES (<lit1>, ..., <litM>);] and a newline, where
    [<litj>] is the formatted j-th value of the row.  [runDump] prints
    the same N statements, each between the comment line naming the
    table and an empty line.  Names and literals are copied as they
    are: when the table name, the column names and the literals hold no
    line break, every statement is a single line and the text returned
    has exactly N lines. *)
Theorem C1_one_statement_per_row (db : DB) (query table param : string)
    (rows : Rows) (cols : list string) (data : list (list Value))
    (file : option string) :
  db_Query db query param = Ok rows →
  rows_Columns rows = Ok cols →
  rows_data rows = Ok <$> data →
  Forall (λ row, length row = length cols) data →
  result_of (MainGo.generateInsertStatements db query table param) =
    Returned (Ok (cat (rowLine MainGo.formatValue table cols <$> data))) ∧
  result_of (AccountDump.runDump db query table param file) = Returned tt ∧
  stdout (trace (AccountDump.runDump db query table param file)) =
    cat ((λ row, header table +:+
                 rowLine AccountDump.formatValue table cols row +:+ nl) <$> data) ∧
  length (rowLine MainGo.formatValue table cols <$> data) = length data ∧
  Forall (λ row, length (MainGo.formatValue <$> row) = length cols ∧
                 length (AccountDump.formatValue <$> row) = length cols) data ∧
  (newlines table = 0%nat →
   Forall (λ col, newlines col = 0%nat) cols →
   Forall (Forall (λ v, newlines (MainGo.formatValue v) = 0%nat)) data →
   Forall singleLine (rowLine MainGo.formatValue table cols <$> data) ∧
   newlines (cat (rowLine MainGo.formatValue table cols <$> data)) = length data) ∧
  (newlines table = 0%nat →
   Forall (λ col, newlines col = 0%nat) cols →
   Forall (Forall (λ v, newlines (AccountDump.formatValue v) = 0%nat)) data →
   Forall singleLine (rowLine AccountDump.formatValue table cols <$> data)) ∧
  (∀ v, newlines (MainGo.formatValue v) =
        match v with
        | VBytes s | VOther s => newlines s
        | _ => 0%nat
        end) ∧
  (∀ v, newlines (AccountDump.formatValue v) =
        match v with
        | VBytes s | VOther s => newlines s
        | VTime t => newlines (Time_String t)
        | _ => 0%nat
        end).
Proof.
  intros Hq Hcols Hdata Hlen.
  destruct (printRows_Ok table cols data file Hlen) as [Hr Ht].
  assert (MainGo.insertStatement table cols <$> data =
          rowLine MainGo.formatValue table cols <$> data) as Hmain.
  { apply list_fmap_ext. intros i row _. apply insertStatement_rowLine. }
  assert (AccountDump.insertStatement table cols <$> data =
          (λ row, header table +:+
                  rowLine AccountDump.formatValue table cols row +:+ nl) <$> data)
    as Hvariant.
  { apply list_fmap_ext. intros i row _. apply insertStatement_header_rowLine. }
  rewrite Hvariant in Ht.
  split_and!.
  - unfold MainGo.generateInsertStatements.
    rewrite Hq, Hcols, Hdata, scanRows_Ok by done. by rewrite Hmain.
  - unfold AccountDump.runDump. rewrite Hq, Hcols, Hdata.
    by rewrite emit_bind_result, result_of_bind, Hr.
  - unfold AccountDump.runDump. rewrite Hq, Hcols, Hdata.
    rewrite emit_bind_trace, trace_bind, Hr. cbn [stdout].
    by rewrite stdout_app, Ht, sapp_nil_r.
  - by rewrite length_fmap.
  - eapply Forall_impl; [exact Hlen|]. intros row Hrow. by rewrite !length_fmap.
  - intros Htable Hnames Hvalues.
    pose proof (rowLines_single MainGo.formatValue table cols data
                  Htable Hnames Hvalues) as Hlines.
    split; [done|]. by rewrite newlines_cat_lines, length_fmap.
  - intros Htable Hnames Hvalues. by apply rowLines_single.
  - apply newlines_formatValue.
  - apply newlines_formatValue_variant.
Qed.

(** C9.  When the query of a table succeeds and its result set has no
    row, [generateInsertStatements] returns the empty text and no
    error. *)
Theorem C9_zero_rows_empty_block (db : DB) (query table param : string)
    (rows : Rows) (cols : list string) :
  db_Query db query param = Ok rows →
  rows_Columns rows = Ok cols →
  rows_data rows = [] →
  MainGo.generateInsertStatements db query table param =
    ([EvQuery query param; EvRowsClose], Returned (Ok "")).
Proof.
  intros Hq Hcols Hdata. unfold MainGo.generateInsertStatements.
  by rewrite Hq, Hcols, Hdata.
Qed.

(** *** C3: timestamps *)

Lemma holds_from_spec (P : Z → bool) (fuel : nat) (n : Z) :
  holds_from P fuel n = true →
  ∀ k, n ≤ k < n + Z.of_nat fuel → P k = true.
Proof.
  revert n. induction fuel as [|fuel IH]; intros n Hall k Hk; [lia|].
  cbn [holds_from] in Hall. apply andb_true_iff in Hall as [Hn Hrest].
  destruct (decide (k = n)) as [->|Hne]; [done|].
  apply (IH (n + 1)); [done|lia].
Qed.

Lemma holds_below (P : Z → bool) (hi : Z) :
  holds_from P (Z.to_nat hi) 0 = true → ∀ k, 0 ≤ k < hi → P k = true.
Proof. intros Hall k Hk. apply (holds_from_spec P (Z.to_nat hi) 0); [done|lia]. Qed.

Lemma appendInt_dec2 (n : Z) : 0 ≤ n < 100 → appendInt n 2 = dec2 n.
Proof.
  intros Hn. apply String.eqb_eq.
  apply (holds_below (λ k, String.eqb (appendInt k 2) (dec2 k)) 100); [|done].
  by vm_compute.
Qed.

Lemma appendInt_dec4 (n : Z) : 0 ≤ n < 10000 → appendInt n 4 = dec4 n.
Proof.
  intros Hn. apply String.eqb_eq.
  apply (holds_below (λ k, String.eqb (appendInt k 4) (dec4 k)) 10000); [|done].
  by vm_compute.
Qed.

Lemma civil_of_doe_bounds (doe : Z) :
  0 ≤ doe < 146097 → civil_of_doe_ok doe = true.
Proof. apply (holds_below civil_of_doe_ok 146097). by vm_compute. Qed.

Lemma isLeap_period (y k : Z) : isLeap (y + k * 400) = isLeap y.
Proof.
  unfold isLeap.
  assert ((y + k * 400) mod 4 = y mod 4) as ->.
  { replace (y + k * 400) with (y + k * 100 * 4) by lia. apply Z_mod_plus_full. }
  assert ((y + k * 400) mod 100 = y mod 100) as ->.
  { replace (y + k * 400) with (y + k * 4 * 100) by lia. apply Z_mod_plus_full. }
  by rewrite Z_mod_plus_full.
Qed.

Lemma daysIn_period (y k m : Z) : daysIn (y + k * 400) m = daysIn y m.
Proof. unfold daysIn. by rewrite isLeap_period. Qed.

Lemma daysIn_bounds (y m : Z) : 28 ≤ daysIn y m ≤ 31.
Proof.
  unfold daysIn.
  destruct (m =? 2), (isLeap y), ((m =? 4) || (m =? 6) || (m =? 9) || (m =? 11));
    lia.
Qed.

(** The date computed for a day count is a date of the calendar (the
    day exists in its month), and it is a date of that day. *)
Lemma civil_from_days_spec (n : Z) :
  ∃ y m d, civil_from_days n = (y, m, d) ∧
    1 ≤ m ≤ 12 ∧ 1 ≤ d ≤ daysIn y m ∧ days_from_civil y m d = n.
Proof.
  unfold civil_from_days. cbv zeta.
  set (z := n + 719468). set (era := z / 146097).
  set (doe := z - era * 146097).
  assert (0 ≤ doe < 146097) as Hdoe.
  { subst doe era. pose proof (Z.div_mod z 146097). 
    pose proof (Z.mod_pos_bound z 146097). lia. }
  pose proof (civil_of_doe_bounds doe Hdoe) as Hok.
  unfold civil_of_doe_ok, civil_of_doe in Hok. cbv zeta in Hok.
  set (yoe := (doe - doe / 1460 + doe / 36524 - doe / 146096) / 365) in *.
  set (q4 := yoe / 4) in *. set (q100 := yoe / 100) in *.
  set (doy := doe - (365 * yoe + q4 - q100)) in *.
  set (mp := (5 * doy + 2) / 153) in *.
  set (x := (153 * mp + 2) / 5) in *.
  set (d := doy - x + 1) in *.
  set (m := if mp <? 10 then mp + 3 else mp - 9) in *.
  repeat (apply andb_true_iff in Hok as [Hok ?]).
  eexists _, m, d. split; [reflexivity|].
  split; [lia|]. split.
  { split; [lia|].
    replace (yoe + era * 400 + (if m <=? 2 then 1 else 0))
      with (yoe + (if m <=? 2 then 1 else 0) + era * 400) by lia.
    rewrite daysIn_period. lia. }
  unfold days_from_civil. cbv zeta.
  assert (m ≤ 2 ↔ 10 ≤ mp) as Hm.
  { subst m. destruct (Z.ltb_spec mp 10); lia. }
  assert ((if m <=? 2 then m + 9 else m - 3) = mp) as ->.
  { subst m. destruct (Z.ltb_spec mp 10);
      destruct (Z.leb_spec (mp + 3) 2); destruct (Z.leb_spec (mp - 9) 2); lia. }
  fold x.
  assert ((if m <=? 2
           then yoe + era * 400 + (if m <=? 2 then 1 else 0) - 1
           else yoe + era * 400 + (if m <=? 2 then 1 else 0)) =
          yoe + era * 400) as ->.
  { destruct (Z.leb_spec m 2); lia. }
  assert ((yoe + era * 400) / 400 = era) as ->.
  { symmetry. apply (Z.div_unique _ _ _ yoe); lia. }
  replace (yoe + era * 400 - era * 400) with yoe by lia.
  fold q4 q100. subst d doy doe z. lia.
Qed.

Lemma date_round_trip_all (k : Z) : 0 ≤ k < 148800 → date_round_trip k = true.
Proof. apply (holds_below date_round_trip 148800). by vm_compute. Qed.

(** A date of the calendar is the date computed for its day count: no
    two dates of the calendar have the same day count. *)
Lemma days_from_civil_inv (y m d : Z) :
  1 ≤ m ≤ 12 → 1 ≤ d ≤ daysIn y m →
  civil_from_days (days_from_civil y m d) = (y, m, d).
Proof.
  intros Hm Hd.
  set (adj := if m <=? 2 then 1 else 0).
  set (y' := y - adj).
  set (era := y' / 400). set (yoe := y' - era * 400).
  assert (0 ≤ yoe < 400) as Hyoe.
  { subst yoe era. pose proof (Z.div_mod y' 400). 
    pose proof (Z.mod_pos_bound y' 400). lia. }
  assert (0 ≤ adj ≤ 1) as Hadj by (subst adj; destruct (m <=? 2); lia).
  pose proof (daysIn_bounds y m) as Hmonth.
  set (k := yoe * 372 + (m - 1) * 31 + (d - 1)).
  assert (k / 372 = yoe) as Hk1.
  { symmetry. apply (Z.div_unique _ _ _ ((m - 1) * 31 + (d - 1))); lia. }
  assert (k mod 372 = (m - 1) * 31 + (d - 1)) as Hk2.
  { symmetry. apply (Z.mod_unique _ _ yoe); lia. }
  assert (k mod 372 / 31 = m - 1) as Hk3.
  { rewrite Hk2. symmetry. apply (Z.div_unique _ _ _ (d - 1)); lia. }
  assert (k mod 31 = d - 1) as Hk4.
  { symmetry. apply (Z.mod_unique _ _ (yoe * 12 + (m - 1))); lia. }
  pose proof (date_round_trip_all k ltac:(lia)) as Hrt.
  unfold date_round_trip, date_of_index in Hrt.
  rewrite Hk1, Hk3, Hk4 in Hrt.
  replace (m - 1 + 1) with m in Hrt by lia.
  replace (d - 1 + 1) with d in Hrt by lia.
  fold adj in Hrt.
  assert (daysIn (yoe + adj) m = daysIn y m) as Hdays.
  { replace y with (yoe + adj + era * 400) by (subst yoe y'; lia).
    by rewrite daysIn_period. }
  rewrite Hdays in Hrt.
  destruct (Z.leb_spec d (daysIn y m)) as [_|]; [|lia].
  set (doe := doe_of_date yoe m d) in *.
  destruct (civil_of_doe doe) as [[[yoe' mp'] d'] m'] eqn:Hciv.
  repeat (apply andb_true_iff in Hrt as [Hrt ?]).
  assert (days_from_civil y m d + 719468 = era * 146097 + doe) as Hz.
  { unfold days_from_civil. cbv zeta. fold adj.
    assert ((if m <=? 2 then y - 1 else y) = y') as ->.
    { subst y' adj. destruct (m <=? 2); lia. }
    fold era. fold yoe. subst doe. unfold doe_of_date. cbv zeta. lia. }
  assert (∀ n, civil_from_days n =
               let z := n + 719468 in
               let era := z / 146097 in
               let '(yoe, _, d, m) := civil_of_doe (z - era * 146097) in
               (yoe + era * 400 + (if m <=? 2 then 1 else 0), m, d)) as ->
    by reflexivity.
  cbv zeta. rewrite Hz.
  assert ((era * 146097 + doe) / 146097 = era) as ->.
  { symmetry. apply (Z.div_unique _ _ _ doe); lia. }
  replace (era * 146097 + doe - era * 146097) with doe by lia.
  rewrite Hciv.
  assert (m' = m) as -> by lia. assert (d' = d) as -> by lia.
  assert (yoe' = yoe) as -> by lia.
  fold adj. f_equal. f_equal. subst yoe y'. lia.
Qed.

(** Some dates of the calendar: the epoch, the day before it, leap days
    of 2000 and 2024, and 1 March 1900 (1900 has no 29 February). *)
Example civil_from_days_known :
  civil_from_days 0 = (1970, 1, 1) ∧
  civil_from_days (-1) = (1969, 12, 31) ∧
  civil_from_days 11016 = (2000, 2, 29) ∧
  civil_from_days 19782 = (2024, 2, 29) ∧
  civil_from_days (-25509) = (1900, 2, 28) ∧
  civil_from_days (-25508) = (1900, 3, 1) ∧
  unixSec (Date 2024 1 2 3 4 5 0 UTC) = 1704164645.
Proof. by vm_compute. Qed.

Lemma clock_split (w : Z) :
  w / 86400 * 86400 + w mod 86400 / 3600 * 3600 + w mod 3600 / 60 * 60 + w mod 60 = w ∧
  0 ≤ w mod 86400 / 3600 < 24 ∧ 0 ≤ w mod 3600 / 60 < 60 ∧ 0 ≤ w mod 60 < 60.
Proof.
  pose proof (Z.div_mod w 86400). pose proof (Z.mod_pos_bound w 86400).
  pose proof (Z.div_mod w 3600). pose proof (Z.mod_pos_bound w 3600).
  pose proof (Z.div_mod w 60). pose proof (Z.mod_pos_bound w 60).
  pose proof (Z.div_mod (w mod 86400) 3600).
  pose proof (Z.mod_pos_bound (w mod 86400) 3600).
  pose proof (Z.div_mod (w mod 3600) 60).
  pose proof (Z.mod_pos_bound (w mod 3600) 60).
  assert ((w mod 86400) mod 3600 = w mod 3600) as Ha.
  { apply (Z.mod_unique _ _ (w / 86400 * 24 + w mod 86400 / 3600)); lia. }
  assert ((w mod 3600) mod 60 = w mod 60) as Hb.
  { apply (Z.mod_unique _ _ (w / 3600 * 60 + w mod 3600 / 60)); lia. }
  lia.
Qed.

(** The text [main.go] prints for a timestamp only depends on the
    instant's whole seconds: its fields are the UTC date and clock of
    that second. *)
Lemma formatValue_VTime_fields (t : Time) :
  ∃ Y M D h m s,
    MainGo.formatValue (VTime t) =
      "'" +:+ appendInt Y 4 +:+ "-" +:+ dec2 M +:+ "-" +:+ dec2 D +:+ "T" +:+
      dec2 h +:+ ":" +:+ dec2 m +:+ ":" +:+ dec2 s +:+ "Z" +:+ "'" ∧
    1 ≤ M ≤ 12 ∧ 1 ≤ D ≤ daysIn Y M ∧ 0 ≤ h < 24 ∧ 0 ≤ m < 60 ∧ 0 ≤ s < 60 ∧
    days_from_civil Y M D * 86400 + h * 3600 + m * 60 + s = unixSec t.
Proof.
  destruct (civil_from_days_spec (unixSec t / 86400))
    as (Y & M & D & Hciv & HM & HD & Hdays).
  pose proof (daysIn_bounds Y M) as Hmonth.
  destruct (clock_split (unixSec t)) as (Hsplit & Hh & Hm & Hs).
  exists Y, M, D, (unixSec t mod 86400 / 3600), (unixSec t mod 3600 / 60),
    (unixSec t mod 60).
  split; [|split_and!; try lia; rewrite Hdays; lia].
  unfold MainGo.formatValue, Format_seconds_Z, Year, Month, Day, Hour, Minute,
    Second, wallSec.
  cbn [Time_UTC unixSec loc zoneOffset UTC]. rewrite Z.add_0_r, Hciv.
  cbn [fst snd].
  rewrite (appendInt_dec2 M), (appendInt_dec2 D), (appendInt_dec2 (_ / 3600)),
    (appendInt_dec2 (_ / 60)), (appendInt_dec2 (_ mod 60)) by lia.
  by rewrite !sapp_assoc.
Qed.

(** *** C4, C5: the blocks of the tables *)

Lemma scanRows_allScanned (table : string) (cols : list string)
    (data : list (result (list Value))) (out : string) :
  match allScanned (length cols) data with
  | Some rows =>
      MainGo.scanRows table cols data out =
      Ok (out +:+ cat (MainGo.insertStatement table cols <$> rows))
  | None => ∃ err, MainGo.scanRows table cols data out = Err err
  end.
Proof.
  revert out. induction data as [|row data IH]; intros out.
  - cbn. by rewrite sapp_nil_r.
  - cbn [allScanned MainGo.scanRows].
    destruct (Scan (length cols) row) as [vals|err]; [|by eexists].
    specialize (IH (out +:+ MainGo.insertStatement table cols vals)).
    destruct (allScanned (length cols) data) as [rows|]; [|done].
    cbn [fmap option_fmap option_map]. rewrite fmap_cons. cbn [cat].
    by rewrite IH, sapp_assoc.
Qed.

(** [generateInsertStatements] always returns to its caller, with the
    whole dump of the table or with an error. *)
Lemma generateInsertStatements_result (db : DB) (query table param : string) :
  ∃ r, result_of (MainGo.generateInsertStatements db query table param) = Returned r ∧
       stdout (trace (MainGo.generateInsertStatements db query table param)) = "" ∧
       match r with
       | Ok dump => tableDump db query table param = Some dump
       | Err _ => tableDump db query table param = None
       end.
Proof.
  unfold MainGo.generateInsertStatements, tableDump.
  destruct (db_Query db query param) as [rows|err]; [|by eexists].
  destruct (rows_Columns rows) as [cols|err]; [|by eexists].
  pose proof (scanRows_allScanned table cols (rows_data rows) "") as Hscan.
  destruct (allScanned (length cols) (rows_data rows)) as [data|].
  - rewrite Hscan. by eexists.
  - destruct Hscan as [err ->]. by eexists.
Qed.

(** The loop of [main] appends, in the order of [tables], the block of
    every table whose dump succeeded and nothing for the others; it
    prints nothing itself. *)
Lemma dumpTables_result (db : DB) (userID : string) (tables : list string)
    (output : string) :
  result_of (MainGo.dumpTables db userID tables output) =
    Returned (output +:+ cat (omap (tableBlock db userID) tables)) ∧
  stdout (trace (MainGo.dumpTables db userID tables output)) = "".
Proof.
  revert output. induction tables as [|table tables IH]; intros output.
  - cbn. by rewrite sapp_nil_r.
  - cbn [MainGo.dumpTables omap list_omap]. unfold tableBlock at 1 3.
    destruct (generateInsertStatements_result db (MainGo.queries !!! table)
                table userID) as (r & Hr & Hout & Hdump).
    rewrite result_of_bind, trace_bind, Hr.
    destruct r as [dump|err]; rewrite Hdump; cbn [fmap option_fmap option_map].
    + destruct (IH (output +:+ header table +:+ dump +:+ nl)) as [IHr IHt].
      unfold header in *. rewrite stdout_app, Hout, IHt, IHr. cbn [cat].
      by rewrite !sapp_assoc.
    + destruct (IH output) as [IHr IHt]. unfold log_Printf.
      rewrite emit_bind_result, emit_bind_trace, stdout_app, Hout. cbn [stdout].
      by rewrite IHr, IHt.
Qed.

(** *** Connecting and resolving the identifier *)

Lemma connectDB_trace (env : Env) :
  stdout (trace (MainGo.connectDB env)) = "" ∧
  Forall (λ e, is_dump_query e = false) (trace (MainGo.connectDB env)) ∧
  Forall (λ e, ∀ q a, e ≠ EvQueryRow q a) (trace (MainGo.connectDB env)).
Proof.
  unfold MainGo.connectDB.
  repeat (first [case_decide | case_match]; cbn);
    split_and!; each_event.
Qed.

Lemma userExists_eq (env : Env) (userID : string) :
  MainGo.userExists env userID =
  match result_of (MainGo.connectDB env) with
  | Exited status => (trace (MainGo.connectDB env), Exited status)
  | Returned db =>
      let r := db_QueryRow db "SELECT id FROM users WHERE id = $1" userID in
      (trace (MainGo.connectDB env) ++
       EvQueryRow "SELECT id FROM users WHERE id = $1" userID ::
       match r with
       | Err err => [EvStdout (Error err +:+ nl); EvClose]
       | Ok _ => [EvClose]
       end,
       Returned (is_Ok r))
  end.
Proof.
  unfold MainGo.userExists.
  destruct (MainGo.connectDB env) as [tr [db|status]]; [|done].
  cbn. by destruct (db_QueryRow db _ userID).
Qed.

Lemma getUserIDFromAccountID_eq (env : Env) (accountID : string) :
  MainGo.getUserIDFromAccountID env accountID =
  match result_of (MainGo.connectDB env) with
  | Exited status => (trace (MainGo.connectDB env), Exited status)
  | Returned db =>
      (trace (MainGo.connectDB env) ++
       [EvQueryRow "SELECT user_id FROM accounts WHERE id = $1" accountID; EvClose],
       Returned (db_QueryRow db "SELECT user_id FROM accounts WHERE id = $1" accountID))
  end.
Proof.
  unfold MainGo.getUserIDFromAccountID.
  by destruct (MainGo.connectDB env) as [tr [db|status]].
Qed.

(** Resolving the identifier never queries a table to dump, and prints
    nothing when it succeeds. *)
Lemma resolveUserID_trace (env : Env) (flags : MainGo.Flags) :
  Forall (λ e, is_dump_query e = false) (trace (MainGo.resolveUserID env flags)) ∧
  ∀ userID, result_of (MainGo.resolveUserID env flags) = Returned userID →
            stdout (trace (MainGo.resolveUserID env flags)) = "".
Proof.
  destruct (connectDB_trace env) as (Hout & Hdump & _).
  unfold MainGo.resolveUserID.
  repeat case_decide; [| |destruct (MainGo.Args flags) as [|? [|? ?]]];
    rewrite ?userExists_eq, ?getUserIDFromAccountID_eq;
    destruct (MainGo.connectDB env) as [tr [db|status]];
    cbn in Hout, Hdump |- *;
    repeat case_match; cbn;
    rewrite ?sapp_nil_r, ?stdout_app, ?Hout; cbn;
    (split; [|done]);
    rewrite ?Forall_app; split_and?; each_event.
Qed.

(** What a run of [main.go] prints once the identifier is resolved and
    the connection is open: the blocks of the tables whose dump
    succeeded, in the order of the sorted table names, then the notice
    about the file when there is one. *)
Lemma main_stdout (env : Env) (flags : MainGo.Flags) (enum : list string)
    (userID : string) (db : DB) :
  MainGo.conflictingArgs flags = false →
  result_of (MainGo.resolveUserID env flags) = Returned userID →
  result_of (MainGo.connectDB env) = Returned db →
  stdout (trace (MainGo.main env flags enum)) =
    cat (omap (tableBlock db userID) (sort_Strings enum)) +:+
    fileNotice env flags userID (cat (omap (tableBlock db userID) (sort_Strings enum))).
Proof.
  intros Hargs Hres Hconn.
  destruct (resolveUserID_trace env flags) as [_ Hquiet].
  destruct (connectDB_trace env) as (Hout & _ & _).
  destruct (dumpTables_result db userID (sort_Strings enum) "") as [Hdr Hdt].
  rewrite sapp_nil_l in Hdr.
  unfold MainGo.main. rewrite Hargs.
  rewrite trace_bind, Hres, stdout_app, (Hquiet userID Hres), sapp_nil_l.
  rewrite trace_bind, Hconn, stdout_app, Hout, sapp_nil_l.
  rewrite trace_bind, Hdr, stdout_app, Hdt, sapp_nil_l.
  unfold fmt_Print. rewrite emit_bind_trace. cbn [stdout]. f_equal.
  unfold fileNotice, dumpFile.
  destruct (MainGo.outputToFile flags); [|done].
  rewrite trace_bind.
  destruct (os_WriteFile env _ _); cbn; by rewrite ?sapp_nil_r.
Qed.

(** *** Sorting the table names *)

Lemma queries_keys : (map_to_list MainGo.queries).*1 ≡ₚ sortedTables.
Proof.
  replace ((map_to_list MainGo.queries).*1)
    with (["user_identities"; "user_preferences"; "users"] ++
          ["accounts"; "app_auth_tokens"]) by (by vm_compute).
  apply (Permutation_app_comm _ ["accounts"; "app_auth_tokens"]).
Qed.

Lemma sortedTables_Sorted : Sorted String.le sortedTables.
Proof. unfold sortedTables. repeat constructor. Qed.

Lemma sort_Strings_unique (l1 l2 : list string) :
  l1 ≡ₚ l2 → sort_Strings l1 = sort_Strings l2.
Proof.
  intros Hperm. unfold sort_Strings.
  apply (Sorted_unique String.le); try apply Sorted_merge_sort; try apply _.
  by rewrite !merge_sort_Permutation.
Qed.

Lemma sort_Strings_enumerates (enum : list string) :
  enumerates enum MainGo.queries → sort_Strings enum = sortedTables.
Proof.
  intros Henum. unfold sort_Strings.
  apply (Sorted_unique String.le).
  - apply Sorted_merge_sort; apply _.
  - apply sortedTables_Sorted.
  - rewrite merge_sort_Permutation, Henum. apply queries_keys.
Qed.

(** *** The account-id variant prints as it goes *)

Lemma printRows_failing (table : string) (cols : list string)
    (pre rest : list (result (list Value))) (bad : result (list Value))
    (rows : list (list Value)) (err : error) (file : option string) :
  allScanned (length cols) pre = Some rows →
  Scan (length cols) bad = Err err →
  result_of (AccountDump.printRows table cols (pre ++ bad :: rest) file) = Exited 1 ∧
  stdout (trace (AccountDump.printRows table cols (pre ++ bad :: rest) file)) =
    cat (AccountDump.insertStatement table cols <$> rows).
Proof.
  intros Hpre Hbad. revert rows Hpre.
  induction pre as [|row pre IH]; intros rows Hpre.
  - injection Hpre as <-. cbn [app AccountDump.printRows]. by rewrite Hbad.
  - cbn [allScanned] in Hpre.
    destruct (Scan (length cols) row) as [vals|] eqn:Hscan; [|done].
    destruct (allScanned (length cols) pre) as [rows'|]; [|done].
    injection Hpre as <-. destruct (IH rows' eq_refl) as [IHr IHt].
    rewrite fmap_cons. cbn [cat app].
    destruct (printRows_step table cols row vals (pre ++ bad :: rest) file Hscan)
      as [-> ->].
    by rewrite IHt.
Qed.

Lemma printRows_allScanned (table : string) (cols : list string)
    (data : list (result (list Value))) (rows : list (list Value))
    (file : option string) :
  allScanned (length cols) data = Some rows →
  result_of (AccountDump.printRows table cols data file) = Returned tt ∧
  stdout (trace (AccountDump.printRows table cols data file)) =
    cat (AccountDump.insertStatement table cols <$> rows).
Proof.
  revert rows. induction data as [|row data IH]; intros rows Hdata.
  - by injection Hdata as <-.
  - cbn [allScanned] in Hdata.
    destruct (Scan (length cols) row) as [vals|] eqn:Hscan; [|done].
    destruct (allScanned (length cols) data) as [rows'|]; [|done].
    injection Hdata as <-. destruct (IH rows' eq_refl) as [IHr IHt].
    rewrite fmap_cons. cbn [cat].
    destruct (printRows_step table cols row vals data file Hscan) as [-> ->].
    by rewrite IHt.
Qed.

Lemma runDump_accountBlock (db : DB) (accountID table block : string)
    (file : option string) :
  accountBlock db accountID table = Some block →
  result_of (AccountDump.runDump db (AccountDump.queries !!! table) table
               accountID file) = Returned tt ∧
  stdout (trace (AccountDump.runDump db (AccountDump.queries !!! table) table
                   accountID file)) = block.
Proof.
  unfold accountBlock, AccountDump.runDump. intros Hblock.
  destruct (db_Query db _ accountID) as [rows|]; [|done].
  destruct (rows_Columns rows) as [cols|]; [|done].
  destruct (allScanned (length cols) (rows_data rows)) as [data|] eqn:Hdata; [|done].
  injection Hblock as <-.
  destruct (printRows_allScanned table cols _ data file Hdata) as [Hr Ht].
  rewrite emit_bind_result, emit_bind_trace, result_of_bind, trace_bind, Hr.
  cbn [stdout]. by rewrite stdout_app, Ht, sapp_nil_r.
Qed.

(** The loop over the map prints the blocks in the order in which the
    tables are enumerated. *)
Lemma dumpTables_enum_order (db : DB) (accountID : string)
    (file : option string) (tables : list string) (blocks : list string) :
  Forall2 (λ table block, accountBlock db accountID table = Some block)
    tables blocks →
  result_of (AccountDump.dumpTables db accountID file tables) = Returned tt ∧
  stdout (trace (AccountDump.dumpTables db accountID file tables)) = cat blocks.
Proof.
  induction 1 as [|table block tables blocks Hblock _ [IHr IHt]]; [done|].
  cbn [AccountDump.dumpTables cat].
  destruct (runDump_accountBlock db accountID table block file Hblock) as [Hr Ht].
  by rewrite result_of_bind, trace_bind, Hr, stdout_app, Ht, IHt.
Qed.

(** *** Runs of [main.go] by the way the identifier is given *)

Arguments MainGo.queries : simpl never.
Arguments AccountDump.queries : simpl never.

Lemma selectsUser_args (flags : MainGo.Flags) (userID : string) :
  selectsUser flags userID → MainGo.conflictingArgs flags = false.
Proof.
  unfold MainGo.conflictingArgs.
  intros [(-> & Hne & -> & ->)|(-> & -> & ->)]; cbn.
  - by rewrite bool_decide_eq_true_2.
  - done.
Qed.

Lemma selectsAccount_args (flags : MainGo.Flags) (accountID : string) :
  selectsAccount flags accountID → MainGo.conflictingArgs flags = false.
Proof.
  unfold MainGo.conflictingArgs. by intros (-> & -> & Hne & ->).
Qed.

Lemma resolveUserID_user (env : Env) (flags : MainGo.Flags) (userID : string) :
  selectsUser flags userID →
  MainGo.resolveUserID env flags =
  found ← MainGo.userExists env userID;
  if negb found
  then log_Fatal ("Could not find user_id " +:+ userID +:+ " in the database.")
  else mret userID.
Proof.
  unfold MainGo.resolveUserID.
  intros [(-> & Hne & -> & ->)|(-> & -> & ->)].
  - by rewrite decide_True.
  - by rewrite !decide_False by (by intros ?).
Qed.

Lemma resolveUserID_account (env : Env) (flags : MainGo.Flags)
    (accountID : string) :
  selectsAccount flags accountID →
  MainGo.resolveUserID env flags =
  r ← MainGo.getUserIDFromAccountID env accountID;
  match r with
  | Err err =>
      log_Fatal ("Could not find user_id associated with account_id " +:+
                 accountID +:+ ": " +:+ Error err)
  | Ok userID => mret userID
  end.
Proof.
  unfold MainGo.resolveUserID. intros (-> & -> & Hne & ->).
  rewrite decide_False by (by intros ?). by rewrite decide_True.
Qed.

Lemma main_resolve_exited (env : Env) (flags : MainGo.Flags)
    (enum : list string) (tr : list event) (status : Z) :
  MainGo.conflictingArgs flags = false →
  MainGo.resolveUserID env flags = (tr, Exited status) →
  MainGo.main env flags enum = (tr, Exited status).
Proof. intros Hargs Hres. unfold MainGo.main. by rewrite Hargs, Hres. Qed.

Lemma user_found (env : Env) (flags : MainGo.Flags) (db : DB)
    (userID id : string) :
  selectsUser flags userID →
  result_of (MainGo.connectDB env) = Returned db →
  db_QueryRow db "SELECT id FROM users WHERE id = $1" userID = Ok id →
  MainGo.resolveUserID env flags =
  (trace (MainGo.connectDB env) ++
   [EvQueryRow "SELECT id FROM users WHERE id = $1" userID; EvClose],
   Returned userID).
Proof.
  intros Hsel Hconn Hrow.
  rewrite (resolveUserID_user env flags userID Hsel), userExists_eq, Hconn.
  cbn zeta. rewrite Hrow. cbn. by rewrite app_nil_r.
Qed.

Lemma user_not_found (env : Env) (flags : MainGo.Flags) (enum : list string)
    (db : DB) (userID : string) (err : error) :
  selectsUser flags userID →
  result_of (MainGo.connectDB env) = Returned db →
  db_QueryRow db "SELECT id FROM users WHERE id = $1" userID = Err err →
  MainGo.main env flags enum =
  (trace (MainGo.connectDB env) ++
   [EvQueryRow "SELECT id FROM users WHERE id = $1" userID;
    EvStdout (Error err +:+ nl); EvClose;
    EvLog ("Could not find user_id " +:+ userID +:+ " in the database.")],
   Exited 1).
Proof.
  intros Hsel Hconn Hrow.
  apply main_resolve_exited; [by eapply selectsUser_args|].
  rewrite (resolveUserID_user env flags userID Hsel), userExists_eq, Hconn.
  cbn zeta. rewrite Hrow. cbn. by rewrite <- (assoc_L (++)).
Qed.

Lemma account_found (env : Env) (flags : MainGo.Flags) (db : DB)
    (accountID userID : string) :
  selectsAccount flags accountID →
  result_of (MainGo.connectDB env) = Returned db →
  db_QueryRow db "SELECT user_id FROM accounts WHERE id = $1" accountID = Ok userID →
  MainGo.resolveUserID env flags =
  (trace (MainGo.connectDB env) ++
   [EvQueryRow "SELECT user_id FROM accounts WHERE id = $1" accountID; EvClose],
   Returned userID).
Proof.
  intros Hsel Hconn Hrow.
  rewrite (resolveUserID_account env flags accountID Hsel),
    getUserIDFromAccountID_eq, Hconn, Hrow.
  cbn. by rewrite app_nil_r.
Qed.

Lemma account_not_found (env : Env) (flags : MainGo.Flags) (enum : list string)
    (db : DB) (accountID : string) (err : error) :
  selectsAccount flags accountID →
  result_of (MainGo.connectDB env) = Returned db →
  db_QueryRow db "SELECT user_id FROM accounts WHERE id = $1" accountID = Err err →
  MainGo.main env flags enum =
  (trace (MainGo.connectDB env) ++
   [EvQueryRow "SELECT user_id FROM accounts WHERE id = $1" accountID; EvClose;
    EvLog ("Could not find user_id associated with account_id " +:+
           accountID +:+ ": " +:+ Error err)],
   Exited 1).
Proof.
  intros Hsel Hconn Hrow.
  apply main_resolve_exited; [by eapply selectsAccount_args|].
  rewrite (resolveUserID_account env flags accountID Hsel),
    getUserIDFromAccountID_eq, Hconn, Hrow.
  cbn. by rewrite <- (assoc_L (++)).
Qed.

(** Every query that dumps a table is bound to the resolved user
    identifier. *)
Lemma generateInsertStatements_param (db : DB) (query table param : string) :
  Forall (λ e, ∀ q a, e = EvQuery q a → a = param)
    (trace (MainGo.generateInsertStatements db query table param)).
Proof.
  unfold MainGo.generateInsertStatements.
  destruct (db_Query db query param) as [rows|err]; cbn;
    repeat first [apply Forall_nil_2 | apply Forall_cons_2];
    by intros ?? [= _ ->] || done.
Qed.

Lemma dumpTables_param (db : DB) (userID : string) (tables : list string)
    (output : string) :
  Forall (λ e, ∀ q a, e = EvQuery q a → a = userID)
    (trace (MainGo.dumpTables db userID tables output)).
Proof.
  revert output. induction tables as [|table tables IH]; intros output.
  - constructor.
  - cbn [MainGo.dumpTables]. rewrite trace_bind.
    destruct (generateInsertStatements_result db (MainGo.queries !!! table)
                table userID) as (r & -> & _ & _).
    apply Forall_app. split; [apply generateInsertStatements_param|].
    destruct r as [dump|err]; [apply IH|].
    unfold log_Printf. rewrite emit_bind_trace.
    apply Forall_cons_2; [done|apply IH].
Qed.

Lemma main_param (env : Env) (flags : MainGo.Flags) (enum : list string)
    (userID : string) :
  MainGo.conflictingArgs flags = false →
  result_of (MainGo.resolveUserID env flags) = Returned userID →
  Forall (λ e, ∀ q a, e = EvQuery q a → a = userID)
    (trace (MainGo.main env flags enum)).
Proof.
  intros Hargs Hres.
  assert (∀ tr, Forall (λ e, is_dump_query e = false) tr →
                Forall (λ e, ∀ q a, e = EvQuery q a → a = userID) tr) as Hquiet.
  { intros tr Htr. eapply Forall_impl; [done|]. by intros ? He ?? ->. }
  destruct (resolveUserID_trace env flags) as [Hres_tr _].
  destruct (connectDB_trace env) as (_ & Hconn_tr & _).
  unfold MainGo.main. rewrite Hargs, trace_bind, Hres.
  apply Forall_app. split; [by apply Hquiet|].
  rewrite trace_bind.
  destruct (result_of (MainGo.connectDB env)) as [db|status]; [|by apply Hquiet].
  apply Forall_app. split; [by apply Hquiet|].
  destruct (dumpTables_result db userID (sort_Strings enum) "") as [Hdr _].
  rewrite trace_bind, Hdr.
  apply Forall_app. split; [apply dumpTables_param|].
  apply Hquiet. unfold fmt_Print. rewrite emit_bind_trace.
  apply Forall_cons_2; [done|].
  destruct (MainGo.outputToFile flags); [|by repeat constructor].
  destruct (os_WriteFile env _ _); cbn; by repeat constructor.
Qed.

(** *** Scans that fail, scans that all succeed *)

Lemma allScanned_Forall2 (n : nat) (data : list (result (list Value)))
    (vals : list (list Value)) :
  Forall2 (λ row v, Scan n row = Ok v) data vals →
  allScanned n data = Some vals.
Proof.
  induction 1 as [|row v data vals Hrow _ IH]; [done|].
  cbn [allScanned]. by rewrite Hrow, IH.
Qed.

Lemma scanRows_failing (table : string) (cols : list string)
    (pre rest : list (result (list Value))) (bad : result (list Value))
    (vals : list (list Value)) (err : error) (out : string) :
  allScanned (length cols) pre = Some vals →
  Scan (length cols) bad = Err err →
  MainGo.scanRows table cols (pre ++ bad :: rest) out = Err err ∧
  allScanned (length cols) (pre ++ bad :: rest) = None.
Proof.
  intros Hpre Hbad. revert vals out Hpre.
  induction pre as [|row pre IH]; intros vals out Hpre.
  - cbn [app MainGo.scanRows allScanned]. by rewrite Hbad.
  - cbn [app MainGo.scanRows allScanned] in Hpre |- *.
    destruct (Scan (length cols) row) as [v|]; [|done].
    destruct (allScanned (length cols) pre) as [vals'|] eqn:Hpre'; [|done].
    destruct (IH vals' (out +:+ MainGo.insertStatement table cols v) eq_refl)
      as [-> ->].
    done.
Qed.

(** *** The claims *)

(** Witness of C1: the two rows of the example table [users] give two
    statements on two lines. *)
Lemma C1_one_statement_per_row_witness :
  result_of (MainGo.generateInsertStatements Examples.db
               "SELECT * FROM users WHERE id = $1" "users" "U1") =
    Returned (Ok
      ("INSERT INTO " +:+ dquote +:+ "users" +:+ dquote +:+
       " (id, name, created_at) VALUES ('7', 'O''Neil', '2024-01-02T03:04:05Z');" +:+
       nl +:+
       "INSERT INTO " +:+ dquote +:+ "users" +:+ dquote +:+
       " (id, name, created_at) VALUES ('8', NULL, true);" +:+ nl)) ∧
  newlines
    (cat (rowLine MainGo.formatValue "users" ["id"; "name"; "created_at"] <$>
          [ [VOther "7"; VBytes "O'Neil"; VTime (Date 2024 1 2 3 4 5 0 UTC)];
            [VOther "8"; VNil; VBool true] ])) = 2%nat.
Proof.
  destruct (C1_one_statement_per_row Examples.db
              "SELECT * FROM users WHERE id = $1" "users" "U1"
              Examples.usersRows ["id"; "name"; "created_at"]
              [ [VOther "7"; VBytes "O'Neil"; VTime (Date 2024 1 2 3 4 5 0 UTC)];
                [VOther "8"; VNil; VBool true] ] None)
    as (Hmain & _ & _ & _ & _ & Hlines & _ & _ & _).
  - reflexivity.
  - reflexivity.
  - reflexivity.
  - repeat constructor.
  - split; [rewrite Hmain; reflexivity|].
    apply Hlines; [reflexivity|repeat constructor|repeat constructor].
Defined.

(** Counterexample to C1 as stated: a cell of two lines is copied as it
    is into its literal, and the statement of its row is not a single
    line. *)
Lemma C1_multiline_value_counterexample :
  db_Query Examples.notesDB "SELECT * FROM users WHERE id = $1" "U1" =
    Ok Examples.noteRows ∧
  result_of (MainGo.generateInsertStatements Examples.notesDB
               "SELECT * FROM users WHERE id = $1" "users" "U1") =
    Returned (Ok
      ("INSERT INTO " +:+ dquote +:+ "users" +:+ dquote +:+
       " (note) VALUES ('first" +:+ nl +:+ "second');" +:+ nl)) ∧
  ¬ singleLine
      ("INSERT INTO " +:+ dquote +:+ "users" +:+ dquote +:+
       " (note) VALUES ('first" +:+ nl +:+ "second');" +:+ nl) ∧
  stdout (trace (AccountDump.runDump Examples.notesDB
                   "SELECT * FROM users WHERE id = $1" "users" "A1" None)) =
    "-- Insert for users" +:+ nl +:+
    "INSERT INTO " +:+ dquote +:+ "users" +:+ dquote +:+
    " (note) VALUES ('first" +:+ nl +:+ "second');" +:+ nl +:+ nl.
Proof.
  split_and!; [reflexivity|reflexivity| |reflexivity].
  intros (line & Heq & Hline). apply (f_equal newlines) in Heq.
  rewrite (newlines_app line nl), Hline in Heq. by vm_compute in Heq.
Qed.

(** Witness of C9: the example table [app_auth_tokens] holds no row. *)
Lemma C9_zero_rows_empty_block_witness :
  MainGo.generateInsertStatements Examples.db
    "SELECT * FROM app_auth_tokens WHERE user_id = $1" "app_auth_tokens" "U1" =
  ([EvQuery "SELECT * FROM app_auth_tokens WHERE user_id = $1" "U1"; EvRowsClose],
   Returned (Ok "")).
Proof.
  apply (C9_zero_rows_empty_block Examples.db _ _ _ Examples.noRows ["id"]);
    reflexivity.
Defined.

(** C3, as amended.  In [main.go] a timestamp is formatted as a quoted
    [YYYY-MM-DDTHH:MM:SSZ] whose fields are the UTC date and clock of the
    instant cut down to whole seconds (four year digits for the years 0
    to 9999): [MM] is a month, [DD] a day of that month of that year,
    the date and the clock add up to the instant's second, and no
    other date and clock do; the text
    does not depend on the location of the value nor
    on its nanoseconds, and 2024-01-02 03:04:05+00 gives
    ['2024-01-02T03:04:05Z'].  In the account-id variant the type switch
    has no timestamp case, and a timestamp is printed by the generic
    branch as the quoted default text of the value. *)
Theorem C3_timestamp_literal (t : Time) :
  (∃ Y M D h m s,
     MainGo.formatValue (VTime t) =
       "'" +:+ appendInt Y 4 +:+ "-" +:+ dec2 M +:+ "-" +:+ dec2 D +:+ "T" +:+
       dec2 h +:+ ":" +:+ dec2 m +:+ ":" +:+ dec2 s +:+ "Z" +:+ "'" ∧
     1 ≤ M ≤ 12 ∧ 1 ≤ D ≤ daysIn Y M ∧ 0 ≤ h < 24 ∧ 0 ≤ m < 60 ∧ 0 ≤ s < 60 ∧
     days_from_civil Y M D * 86400 + h * 3600 + m * 60 + s = unixSec t ∧
     (∀ Y' M' D' h' m' s',
        1 ≤ M' ≤ 12 → 1 ≤ D' ≤ daysIn Y' M' →
        0 ≤ h' < 24 → 0 ≤ m' < 60 → 0 ≤ s' < 60 →
        days_from_civil Y' M' D' * 86400 + h' * 3600 + m' * 60 + s' = unixSec t →
        (Y', M', D', h', m', s') = (Y, M, D, h, m, s)) ∧
     (0 ≤ Y ≤ 9999 → appendInt Y 4 = dec4 Y)) ∧
  (∀ t', unixSec t' = unixSec t →
         MainGo.formatValue (VTime t') = MainGo.formatValue (VTime t)) ∧
  (∀ ns name,
     MainGo.formatValue (VTime (Date 2024 1 2 3 4 5 ns (FixedZone name 0))) =
     "'2024-01-02T03:04:05Z'") ∧
  AccountDump.formatValue (VTime t) = "'" +:+ Time_String t +:+ "'".
Proof.
  split_and!.
  - destruct (formatValue_VTime_fields t)
      as (Y & M & D & h & m & s & Heq & HM & HD & Hh & Hm & Hs & Hinst).
    exists Y, M, D, h, m, s. split_and!; try lia; try done.
    + intros Y' M' D' h' m' s' HM' HD' Hh' Hm' Hs' Hinst'.
      assert (days_from_civil Y' M' D' = days_from_civil Y M D) as Hday by lia.
      assert (h' = h ∧ m' = m ∧ s' = s) as (-> & -> & ->) by lia.
      pose proof (days_from_civil_inv Y' M' D' HM' HD') as Hdate'.
      rewrite Hday, (days_from_civil_inv Y M D HM HD) in Hdate'.
      by injection Hdate' as -> -> ->.
    + intros HY. apply appendInt_dec4. lia.
  - intros t' Hsame.
    unfold MainGo.formatValue, Format_seconds_Z, Year, Month, Day, Hour, Minute,
      Second, wallSec.
    cbn [Time_UTC unixSec loc zoneOffset UTC]. by rewrite Hsame.
  - intros ns name. reflexivity.
  - reflexivity.
Qed.

(** Witness of C3: the same instant read on a clock two hours east of
    UTC, with a fraction of a second. *)
Lemma C3_timestamp_literal_witness :
  MainGo.formatValue
    (VTime (Date 2024 1 2 5 4 5 999999999 (FixedZone "CEST" 7200))) =
  "'2024-01-02T03:04:05Z'".
Proof.
  destruct (C3_timestamp_literal (Date 2024 1 2 3 4 5 0 UTC))
    as (_ & Hsame & Hexample & _).
  rewrite (Hsame (Date 2024 1 2 5 4 5 999999999 (FixedZone "CEST" 7200)) eq_refl).
  exact (Hexample 0 "UTC").
Defined.

(** Counterexample to C3 as stated: the account-id variant prints the
    timestamp 2024-01-02 03:04:05+00 in Go's default layout; and in
    [main.go] a year beyond 9999 is not written with four digits. *)
Lemma C3_default_layout_counterexample :
  AccountDump.formatValue (VTime (Date 2024 1 2 3 4 5 0 UTC)) =
    "'2024-01-02 03:04:05 +0000 UTC'" ∧
  AccountDump.formatValue (VTime (Date 2024 1 2 3 4 5 0 UTC)) ≠
    "'2024-01-02T03:04:05Z'" ∧
  MainGo.formatValue (VTime (Date 12024 1 2 3 4 5 0 UTC)) =
    "'12024-01-02T03:04:05Z'".
Proof. split_and!; [reflexivity|by vm_compute|reflexivity]. Qed.

(** C4, as amended.  In [main.go], once the identifier is resolved and
    the connection is open, the text printed is made of blocks of
    tables, in the order of the tables.  A table for which
    [generateInsertStatements] returns an error (failed query or column
    list, or a row that does not scan, also after rows that did) has
    nothing in the text, not even its comment line.  A table whose
    cursor is read to the end of its result set with every row scanned
    has its whole block there (comment line, the statement of every
    row, empty line).  The account-id variant prints each statement as soon as it
    is built: when a scan fails, the statements of the rows read before
    it have been printed and the process exits. *)
Theorem C4_block_whole_or_absent (env : Env) (flags : MainGo.Flags)
    (enum : list string) (userID : string) (db : DB) :
  MainGo.conflictingArgs flags = false →
  result_of (MainGo.resolveUserID env flags) = Returned userID →
  result_of (MainGo.connectDB env) = Returned db →
  stdout (trace (MainGo.main env flags enum)) =
    cat (omap (tableBlock db userID) (sort_Strings enum)) +:+
    fileNotice env flags userID
      (cat (omap (tableBlock db userID) (sort_Strings enum))) ∧
  (∀ table err,
     result_of (MainGo.generateInsertStatements db (MainGo.queries !!! table)
                  table userID) = Returned (Err err) →
     tableBlock db userID table = None) ∧
  (∀ table rows cols pre bad rest vals err,
     db_Query db (MainGo.queries !!! table) userID = Ok rows →
     rows_Columns rows = Ok cols →
     rows_data rows = pre ++ bad :: rest →
     allScanned (length cols) pre = Some vals →
     Scan (length cols) bad = Err err →
     result_of (MainGo.generateInsertStatements db (MainGo.queries !!! table)
                  table userID) = Returned (Err err) ∧
     tableBlock db userID table = None) ∧
  (∀ table rows cols data,
     db_Query db (MainGo.queries !!! table) userID = Ok rows →
     rows_Columns rows = Ok cols →
     exhausted rows →
     Forall2 (λ row vals, Scan (length cols) row = Ok vals) (rows_data rows) data →
     tableBlock db userID table =
       Some (header table +:+
             cat (rowLine MainGo.formatValue table cols <$> data) +:+ nl)) ∧
  (∀ table cols pre bad rest rows err file,
     allScanned (length cols) pre = Some rows →
     Scan (length cols) bad = Err err →
     result_of (AccountDump.printRows table cols (pre ++ bad :: rest) file) =
       Exited 1 ∧
     stdout (trace (AccountDump.printRows table cols (pre ++ bad :: rest) file)) =
       cat (AccountDump.insertStatement table cols <$> rows)).
Proof.
  intros Hargs Hres Hconn. split_and!.
  - by apply main_stdout.
  - intros table err Herr. unfold tableBlock.
    destruct (generateInsertStatements_result db (MainGo.queries !!! table)
                table userID) as (r & Hr & _ & Hdump).
    rewrite Herr in Hr. injection Hr as <-. by rewrite Hdump.
  - intros table rows cols pre bad rest vals err Hq Hcols Hdata Hpre Hbad.
    destruct (scanRows_failing table cols pre rest bad vals err "" Hpre Hbad)
      as [Hscan Hnone].
    unfold tableBlock, tableDump, MainGo.generateInsertStatements.
    by rewrite Hq, Hcols, Hdata, Hscan, Hnone.
  - intros table rows cols data Hq Hcols _ Hdata.
    unfold tableBlock, tableDump.
    rewrite Hq, Hcols, (allScanned_Forall2 _ _ _ Hdata).
    cbn [fmap option_fmap option_map]. do 4 f_equal.
    apply list_fmap_ext. intros i row _. apply insertStatement_rowLine.
  - intros table cols pre bad rest rows err file Hpre Hbad.
    by apply (printRows_failing table cols pre rest bad rows err file).
Qed.

(** Witness of C4: the second row of [accounts] does not scan; the
    output holds the blocks of the four other tables and nothing of
    [accounts]. *)
Lemma C4_block_whole_or_absent_witness :
  stdout (trace (MainGo.main (Examples.envOf Examples.flakyDB)
                   (Examples.byUserID "U1") (reverse sortedTables))) =
    cat (omap (tableBlock Examples.flakyDB "U1")
           ["app_auth_tokens"; "user_identities"; "user_preferences"; "users"]) ∧
  tableBlock Examples.flakyDB "U1" "accounts" = None ∧
  tableBlock Examples.flakyDB "U1" "app_auth_tokens" =
    Some ("-- Insert for app_auth_tokens" +:+ nl +:+ nl).
Proof.
  destruct (C4_block_whole_or_absent (Examples.envOf Examples.flakyDB)
              (Examples.byUserID "U1") (reverse sortedTables) "U1"
              Examples.flakyDB) as (Hout & _ & Hbad & Hwhole & _).
  - reflexivity.
  - reflexivity.
  - reflexivity.
  - split_and!.
    + rewrite Hout. reflexivity.
    + apply (Hbad "accounts" Examples.brokenRows ["id"] [Ok [VOther "1"]]
               (Err (ErrOther "sql: Rows are closed")) [] [[VOther "1"]]
               (ErrOther "sql: Rows are closed")); reflexivity.
    + apply (Hwhole "app_auth_tokens" Examples.noRows ["id"] []);
        [reflexivity|reflexivity|reflexivity|constructor].
Defined.

(** Counterexample to C4 as stated: in the account-id variant the scan
    of the second row of [accounts] fails; the statement of the first
    row has been printed, and the process exits there. *)
Lemma C4_streaming_counterexample :
  db_Query Examples.flakyDB (AccountDump.queries !!! "accounts") "A1" =
    Ok Examples.brokenRows ∧
  result_of (AccountDump.main (Examples.envOf Examples.flakyDB)
               (Examples.accountArg "A1") sortedTables) = Exited 1 ∧
  stdout (trace (AccountDump.main (Examples.envOf Examples.flakyDB)
                   (Examples.accountArg "A1") sortedTables)) =
    header "accounts" +:+ insertLine "accounts" ["id"] ["'1'"] +:+ nl.
Proof. by vm_compute. Qed.

(** C5, as amended.  In [main.go] the table names are sorted before the
    tables are dumped: whatever the order in which the map yields its
    keys, the run is the same, and the blocks printed are those of
    [accounts], [app_auth_tokens], [user_identities], [user_preferences]
    and [users], in this (increasing) order.  The account-id variant
    dumps the tables in the order in which the map yields them. *)
Theorem C5_blocks_in_name_order (env : Env) (flags : MainGo.Flags)
    (enum : list string) :
  enumerates enum MainGo.queries →
  sort_Strings enum = sortedTables ∧
  Sorted String.le sortedTables ∧
  (∀ enum', enumerates enum' MainGo.queries →
            MainGo.main env flags enum' = MainGo.main env flags enum) ∧
  (∀ userID db,
     MainGo.conflictingArgs flags = false →
     result_of (MainGo.resolveUserID env flags) = Returned userID →
     result_of (MainGo.connectDB env) = Returned db →
     stdout (trace (MainGo.main env flags enum)) =
       cat (omap (tableBlock db userID) sortedTables) +:+
       fileNotice env flags userID
         (cat (omap (tableBlock db userID) sortedTables))) ∧
  (∀ db accountID file tables blocks,
     Forall2 (λ table block, accountBlock db accountID table = Some block)
       tables blocks →
     stdout (trace (AccountDump.dumpTables db accountID file tables)) =
       cat blocks).
Proof.
  intros Henum. split_and!.
  - by apply sort_Strings_enumerates.
  - apply sortedTables_Sorted.
  - intros enum' Henum'. unfold MainGo.main.
    by rewrite (sort_Strings_unique enum' enum) by (by rewrite Henum, Henum').
  - intros userID db Hargs Hres Hconn.
    rewrite <- (sort_Strings_enumerates enum Henum). by apply main_stdout.
  - intros db accountID file tables blocks Hblocks.
    by destruct (dumpTables_enum_order db accountID file tables blocks Hblocks).
Qed.

(** Witness of C5: the keys in the order in which the map lists them. *)
Lemma C5_blocks_in_name_order_witness :
  sort_Strings (map_to_list MainGo.queries).*1 = sortedTables.
Proof.
  destruct (C5_blocks_in_name_order Examples.env (Examples.byUserID "U1")
              (map_to_list MainGo.queries).*1) as [Hsorted _].
  - unfold enumerates. reflexivity.
  - exact Hsorted.
Defined.

(** Counterexample to C5 as stated: two enumerations of the map of the
    account-id variant give two different outputs; with the keys
    yielded in decreasing order the output starts with the block of
    [users]. *)
Lemma C5_enumeration_order_counterexample :
  enumerates sortedTables AccountDump.queries ∧
  enumerates (reverse sortedTables) AccountDump.queries ∧
  stdout (trace (AccountDump.main Examples.env (Examples.accountArg "A1")
                   sortedTables)) ≠
  stdout (trace (AccountDump.main Examples.env (Examples.accountArg "A1")
                   (reverse sortedTables))) ∧
  String.prefix (header "users")
    (stdout (trace (AccountDump.main Examples.env (Examples.accountArg "A1")
                      (reverse sortedTables)))) = true.
Proof.
  assert ((map_to_list AccountDump.queries).*1 =
          ["user_identities"; "user_preferences"; "users"] ++
          ["accounts"; "app_auth_tokens"]) as Hkeys by (by vm_compute).
  assert (enumerates sortedTables AccountDump.queries) as Henum.
  { unfold enumerates. rewrite Hkeys.
    apply (Permutation_app_comm ["accounts"; "app_auth_tokens"]). }
  split_and!; [done| |by vm_compute|by vm_compute].
  unfold enumerates in *. by rewrite <- Henum, reverse_Permutation.
Qed.

(** C6.  When both [--user_id] and [--account_id] are given, the run
    consists of the usage message and the exit with status 1: no
    connection is opened and no query is issued. *)
Theorem C6_both_identifiers_usage_error (env : Env) (flags : MainGo.Flags)
    (enum : list string) :
  MainGo.userIDFlag flags ≠ "" →
  MainGo.accountIDFlag flags ≠ "" →
  MainGo.main env flags enum =
    ([EvLog "Provide either --user_id or --account_id, not both. Or pass a positional argument (assumed to be user_id by default)."],
     Exited 1) ∧
  Forall (λ e, is_db_event e = false) (trace (MainGo.main env flags enum)).
Proof.
  intros Huser Haccount.
  assert (MainGo.conflictingArgs flags = true) as Hargs.
  { unfold MainGo.conflictingArgs.
    by rewrite (bool_decide_eq_true_2 _ Huser), (bool_decide_eq_true_2 _ Haccount). }
  unfold MainGo.main. rewrite Hargs. split; [done|]. by repeat constructor.
Qed.

(** Witness of C6: [--user_id=U1 --account_id=A1]. *)
Lemma C6_both_identifiers_usage_error_witness :
  result_of (MainGo.main Examples.env Examples.bothFlags sortedTables) = Exited 1 ∧
  Forall (λ e, is_db_event e = false)
    (trace (MainGo.main Examples.env Examples.bothFlags sortedTables)).
Proof.
  destruct (C6_both_identifiers_usage_error Examples.env Examples.bothFlags
              sortedTables) as [Hrun Hquiet].
  - discriminate.
  - discriminate.
  - split; [|exact Hquiet]. rewrite Hrun. reflexivity.
Defined.

(** C7.  When the user identifier is given by [--user_id] or as the only
    positional argument, it is looked up in [users].  If the row is
    found, the identifier itself is the resolved one and every query
    that dumps a table is bound to it.  If it is not, the run ends with
    status 1 on the message [Could not find user_id <id> in the
    database.], which names the identifier, and no table has been
    queried. *)
Theorem C7_user_id_verified (env : Env) (flags : MainGo.Flags)
    (enum : list string) (db : DB) (userID : string) :
  selectsUser flags userID →
  result_of (MainGo.connectDB env) = Returned db →
  (∀ id, db_QueryRow db "SELECT id FROM users WHERE id = $1" userID = Ok id →
     MainGo.resolveUserID env flags =
       (trace (MainGo.connectDB env) ++
        [EvQueryRow "SELECT id FROM users WHERE id = $1" userID; EvClose],
        Returned userID) ∧
     Forall (λ e, ∀ q a, e = EvQuery q a → a = userID)
       (trace (MainGo.main env flags enum))) ∧
  (∀ err, db_QueryRow db "SELECT id FROM users WHERE id = $1" userID = Err err →
     result_of (MainGo.main env flags enum) = Exited 1 ∧
     ends_with_log (trace (MainGo.main env flags enum))
       ("Could not find user_id " +:+ userID +:+ " in the database.") ∧
     Contains ("Could not find user_id " +:+ userID +:+ " in the database.")
       userID = true ∧
     Forall (λ e, is_dump_query e = false) (trace (MainGo.main env flags enum))).
Proof.
  intros Hsel Hconn. split.
  - intros id Hrow.
    pose proof (user_found env flags db userID id Hsel Hconn Hrow) as Hres.
    split; [done|].
    apply main_param; [by eapply selectsUser_args|by rewrite Hres].
  - intros err Hrow.
    rewrite (user_not_found env flags enum db userID err Hsel Hconn Hrow).
    destruct (connectDB_trace env) as (_ & Hquiet & _).
    split_and!.
    + done.
    + last_event.
    + apply Contains_splice.
    + cbn [trace fst]. apply Forall_app. split; [done|]. by repeat constructor.
Qed.

(** Witness of C7: [--user_id=U2] for a user that the example database
    does not hold. *)
Lemma C7_user_id_verified_witness :
  result_of (MainGo.main Examples.env (Examples.byUserID "U2") sortedTables) =
    Exited 1 ∧
  ends_with_log
    (trace (MainGo.main Examples.env (Examples.byUserID "U2") sortedTables))
    "Could not find user_id U2 in the database.".
Proof.
  destruct (C7_user_id_verified Examples.env (Examples.byUserID "U2")
              sortedTables Examples.db "U2") as [_ Hmissing].
  - left. repeat split. discriminate.
  - reflexivity.
  - destruct (Hmissing ErrNoRows eq_refl) as (Hexit & Hlog & _ & _).
    split; [exact Hexit|exact Hlog].
Defined.

(** C8, as amended.  In [main.go], when the account identifier is given
    by [--account_id], one single-row query keyed by it looks up the
    user identifier.  If the row is found, that user identifier is the
    resolved one and every query that dumps a table is bound to it.  If
    it is not, the run ends with status 1 on the message [Could not find
    user_id associated with account_id <id>: <error>], which names the
    account identifier, and no table has been queried.  In the
    account-id variant [lookupUserID] issues the same query and returns
    the user identifier; when the look-up fails the process exits on the
    message [Failed to look up user_id: <error>]. *)
Theorem C8_account_id_lookup (env : Env) (flags : MainGo.Flags)
    (enum : list string) (db : DB) (accountID : string) :
  selectsAccount flags accountID →
  result_of (MainGo.connectDB env) = Returned db →
  (∀ userID,
     db_QueryRow db "SELECT user_id FROM accounts WHERE id = $1" accountID =
       Ok userID →
     MainGo.resolveUserID env flags =
       (trace (MainGo.connectDB env) ++
        [EvQueryRow "SELECT user_id FROM accounts WHERE id = $1" accountID;
         EvClose],
        Returned userID) ∧
     Forall (λ e, ∀ q a, e = EvQuery q a → a = userID)
       (trace (MainGo.main env flags enum))) ∧
  (∀ err,
     db_QueryRow db "SELECT user_id FROM accounts WHERE id = $1" accountID =
       Err err →
     result_of (MainGo.main env flags enum) = Exited 1 ∧
     ends_with_log (trace (MainGo.main env flags enum))
       ("Could not find user_id associated with account_id " +:+ accountID +:+
        ": " +:+ Error err) ∧
     Contains ("Could not find user_id associated with account_id " +:+
               accountID +:+ ": " +:+ Error err) accountID = true ∧
     Forall (λ e, is_dump_query e = false) (trace (MainGo.main env flags enum))) ∧
  AccountDump.lookupUserID db accountID =
    match db_QueryRow db "SELECT user_id FROM accounts WHERE id = $1" accountID with
    | Ok userID =>
        ([EvQueryRow "SELECT user_id FROM accounts WHERE id = $1" accountID],
         Returned userID)
    | Err err =>
        ([EvQueryRow "SELECT user_id FROM accounts WHERE id = $1" accountID;
          EvLog ("Failed to look up user_id: " +:+ Error err)],
         Exited 1)
    end.
Proof.
  intros Hsel Hconn. split_and!.
  - intros userID Hrow.
    pose proof (account_found env flags db accountID userID Hsel Hconn Hrow)
      as Hres.
    split; [done|].
    apply main_param; [by eapply selectsAccount_args|by rewrite Hres].
  - intros err Hrow.
    rewrite (account_not_found env flags enum db accountID err Hsel Hconn Hrow).
    destruct (connectDB_trace env) as (_ & Hquiet & _).
    split_and!.
    + done.
    + last_event.
    + apply Contains_splice.
    + cbn [trace fst]. apply Forall_app. split; [done|]. by repeat constructor.
  - unfold AccountDump.lookupUserID.
    by destruct (db_QueryRow db _ accountID).
Qed.

(** Witness of C8: [--account_id=A1], the account of user [U1]. *)
Lemma C8_account_id_lookup_witness :
  result_of (MainGo.resolveUserID Examples.env (Examples.byAccountID "A1")) =
  Returned "U1".
Proof.
  destruct (C8_account_id_lookup Examples.env (Examples.byAccountID "A1")
              sortedTables Examples.db "A1") as (Hfound & _ & _).
  - repeat split. discriminate.
  - reflexivity.
  - destruct (Hfound "U1" eq_refl) as [Hres _]. rewrite Hres. reflexivity.
Defined.

(** Counterexample to C8 as stated: in the account-id variant the
    failure for the unknown account [A2] is reported without naming
    it. *)
Lemma C8_unnamed_account_counterexample :
  db_QueryRow Examples.db "SELECT user_id FROM accounts WHERE id = $1" "A2" =
    Err ErrNoRows ∧
  result_of (AccountDump.main Examples.env (Examples.accountArg "A2")
               sortedTables) = Exited 1 ∧
  ends_with_log
    (trace (AccountDump.main Examples.env (Examples.accountArg "A2") sortedTables))
    "Failed to look up user_id: sql: no rows in result set" ∧
  no_log_names
    (trace (AccountDump.main Examples.env (Examples.accountArg "A2") sortedTables))
    "A2" = true.
Proof. by vm_compute. Qed.



(** ** Further properties *)
Import Observe.

(** *** Connecting *)

Lemma connectDB_opened (env : Env) :
  opened (trace (MainGo.connectDB env)) =
  if decide (Getenv env "DATABASE_URL" = "") then
    if bool_decide (Getenv env "DB_HOST" = "") || bool_decide (Getenv env "DB_PORT" = "") ||
       bool_decide (Getenv env "DB_USER" = "") || bool_decide (Getenv env "DB_NAME" = "")
    then []
    else [url_String env (Getenv env "DB_HOST") (Getenv env "DB_PORT")
            (Getenv env "DB_USER") (Getenv env "DB_PASS") (Getenv env "DB_NAME")
            (if decide (Getenv env "DB_SSLMODE" = "") then "disable"
             else Getenv env "DB_SSLMODE")]
  else [Getenv env "DATABASE_URL"].
Proof.
  unfold MainGo.connectDB.
  repeat (first [case_decide | case_match]; cbn); done.
Qed.

Lemma missingVar_bool (env : Env) :
  bool_decide (Getenv env "DB_HOST" = "") || bool_decide (Getenv env "DB_PORT" = "") ||
  bool_decide (Getenv env "DB_USER" = "") || bool_decide (Getenv env "DB_NAME" = "") = true
  ↔ missingVar env.
Proof.
  unfold missingVar. rewrite !orb_true_iff, !bool_decide_eq_true. tauto.
Qed.

(** X1.  [connectDB] gives up before calling [sql.Open] exactly when
    [DATABASE_URL] is empty and one of [DB_HOST], [DB_PORT], [DB_USER],
    [DB_NAME] is; it then exits with status 1.  In every other case it
    calls [sql.Open] exactly once, and it never issues a query. *)
Theorem X1_connectDB_required_variables (env : Env) :
  (opened (trace (MainGo.connectDB env)) = [] ↔
   Getenv env "DATABASE_URL" = "" ∧ missingVar env) ∧
  (opened (trace (MainGo.connectDB env)) = [] →
   result_of (MainGo.connectDB env) = Exited 1) ∧
  (length (opened (trace (MainGo.connectDB env))) ≤ 1)%nat ∧
  lookups (trace (MainGo.connectDB env)) = [] ∧
  dumpQueries (trace (MainGo.connectDB env)) = [].
Proof.
  pose proof (missingVar_bool env) as Hmiss.
  rewrite connectDB_opened. unfold MainGo.connectDB.
  destruct (decide (Getenv env "DATABASE_URL" = "")) as [Hurl|Hurl];
    [destruct (_ || _) eqn:Hb|]; cbn; repeat case_match; cbn;
    split_and!; try done; try lia; try (intros [? ?]; done).
  all: split; [try done|].
  all: try (intros [_ Hm]; apply Hmiss in Hm; congruence).
  all: try (intros [? _]; done).
  intros _. split; [done|by apply Hmiss].
Qed.

(** Witness of X1: nothing describes the connection. *)
Lemma X1_connectDB_required_variables_witness :
  result_of (MainGo.connectDB Cases.emptyEnv) = Exited 1.
Proof.
  destruct (X1_connectDB_required_variables Cases.emptyEnv) as (_ & Hexit & _).
  apply Hexit. reflexivity.
Defined.

Lemma Getenv_setenv_ne (env : Env) (name value k : string) :
  k ≠ name → Getenv (setenv env name value) k = Getenv env k.
Proof. intros Hne. cbn. by rewrite decide_False. Qed.

Lemma Getenv_setenv_eq (env : Env) (name value : string) :
  Getenv (setenv env name value) name = value.
Proof. cbn. by rewrite decide_True. Qed.

(** [connectDB] is a function of the seven variables it reads. *)
Lemma connectDB_ext (env env' : Env) :
  (∀ k, k ∈ connectVars → Getenv env' k = Getenv env k) →
  sql_Open env' = sql_Open env →
  url_String env' = url_String env →
  MainGo.connectDB env' = MainGo.connectDB env.
Proof.
  intros Hvars Hopen Hurl. unfold MainGo.connectDB.
  rewrite Hopen, Hurl. unfold connectVars in Hvars.
  by rewrite !Hvars by set_solver.
Qed.

(** X2.  [connectDB] reads no other variable than [DATABASE_URL],
    [DB_HOST], [DB_PORT], [DB_USER], [DB_PASS], [DB_NAME] and
    [DB_SSLMODE]; a non-empty [DATABASE_URL] takes precedence, whatever
    the other variables hold; and an unset [DB_SSLMODE] stands for
    [disable]. *)
Theorem X2_connectDB_variables (env : Env) (name value : string) :
  (name ∉ connectVars →
   MainGo.connectDB (setenv env name value) = MainGo.connectDB env) ∧
  (Getenv env "DATABASE_URL" ≠ "" → name ≠ "DATABASE_URL" →
   MainGo.connectDB (setenv env name value) = MainGo.connectDB env ∧
   opened (trace (MainGo.connectDB env)) = [Getenv env "DATABASE_URL"]) ∧
  (Getenv env "DB_SSLMODE" = "" →
   MainGo.connectDB (setenv env "DB_SSLMODE" "disable") = MainGo.connectDB env).
Proof.
  split_and!.
  - intros Hname. apply connectDB_ext; [|done..].
    intros k Hk. apply Getenv_setenv_ne. by intros ->.
  - intros Hurl Hname. split.
    + unfold MainGo.connectDB.
      rewrite (Getenv_setenv_ne env name value "DATABASE_URL") by done.
      by rewrite !decide_False by done.
    + rewrite connectDB_opened. by rewrite decide_False.
  - intros Hssl. unfold MainGo.connectDB.
    rewrite Getenv_setenv_eq.
    rewrite !(Getenv_setenv_ne env "DB_SSLMODE") by done.
    by rewrite Hssl.
Qed.

(** Witness of X2: [DATABASE_URL] is set, so [DB_HOST] does not
    matter. *)
Lemma X2_connectDB_variables_witness :
  MainGo.connectDB (setenv Examples.env "DB_HOST" "db.example.org") =
  MainGo.connectDB Examples.env.
Proof.
  destruct (X2_connectDB_variables Examples.env "DB_HOST" "db.example.org")
    as (_ & Hurl & _).
  destruct Hurl as [Hsame _]; [discriminate|discriminate|exact Hsame].
Defined.

Lemma setupDB_opened (env : Env) :
  opened (trace (AccountDump.setupDB env)) =
  if decide (Getenv env "DATABASE_URL" ≠ "") then [Getenv env "DATABASE_URL"]
  else if bool_decide (Getenv env "DB_HOST" = "") || bool_decide (Getenv env "DB_PORT" = "") ||
          bool_decide (Getenv env "DB_USER" = "") || bool_decide (Getenv env "DB_NAME" = "")
  then []
  else ["host=" +:+ Getenv env "DB_HOST" +:+ " port=" +:+ Getenv env "DB_PORT" +:+
        " user=" +:+ Getenv env "DB_USER" +:+ " password=" +:+ Getenv env "DB_PASS" +:+
        " dbname=" +:+ Getenv env "DB_NAME" +:+ " sslmode=" +:+ Getenv env "DB_SSLMODE"].
Proof.
  unfold AccountDump.setupDB.
  repeat (first [case_decide | case_match]; cbn); done.
Qed.

(** X3.  [setupDB] of the account-id variant reads the same seven
    variables and no other (in particular not [DB_PASSWORD], which its
    message names: the password comes from [DB_PASS]); a non-empty
    [DATABASE_URL] is used as it is; otherwise the four required
    variables must be set, or the process exits with status 1 before
    [sql.Open]; and [DB_SSLMODE] is passed on as it is, without a
    default. *)
Theorem X3_setupDB_variables (env : Env) (name value : string) :
  (name ∉ connectVars →
   AccountDump.setupDB (setenv env name value) = AccountDump.setupDB env) ∧
  (opened (trace (AccountDump.setupDB env)) = [] ↔
   Getenv env "DATABASE_URL" = "" ∧ missingVar env) ∧
  (opened (trace (AccountDump.setupDB env)) = [] →
   result_of (AccountDump.setupDB env) = Exited 1) ∧
  (Getenv env "DATABASE_URL" ≠ "" →
   opened (trace (AccountDump.setupDB env)) = [Getenv env "DATABASE_URL"]) ∧
  (Getenv env "DATABASE_URL" = "" → ¬ missingVar env →
   opened (trace (AccountDump.setupDB env)) =
   ["host=" +:+ Getenv env "DB_HOST" +:+ " port=" +:+ Getenv env "DB_PORT" +:+
    " user=" +:+ Getenv env "DB_USER" +:+ " password=" +:+ Getenv env "DB_PASS" +:+
    " dbname=" +:+ Getenv env "DB_NAME" +:+ " sslmode=" +:+ Getenv env "DB_SSLMODE"]).
Proof.
  split_and!.
  - intros Hname. unfold AccountDump.setupDB, connectVars in *.
    rewrite !(Getenv_setenv_ne env name value) by (intros Heq; subst name; set_solver).
    done.
  - pose proof (missingVar_bool env) as Hmiss. rewrite setupDB_opened.
    destruct (decide (Getenv env "DATABASE_URL" ≠ "")) as [Hurl|Hurl].
    + split; [done|]. by intros [? _].
    + apply dec_stable in Hurl. destruct (_ || _) eqn:Hb.
      * split; [|done]. intros _. split; [done|by apply Hmiss].
      * split; [done|]. intros [_ Hm]. apply Hmiss in Hm. congruence.
  - rewrite setupDB_opened. unfold AccountDump.setupDB.
    destruct (decide (Getenv env "DATABASE_URL" ≠ "")) as [Hurl|Hurl]; [done|].
    by destruct (_ || _) eqn:Hb.
  - intros Hurl. rewrite setupDB_opened. by rewrite decide_True.
  - intros Hurl Hm. rewrite setupDB_opened. rewrite decide_False by (by intros ?).
    destruct (_ || _) eqn:Hb; [|done]. by apply missingVar_bool in Hb.
Qed.

(** Witness of X3: the connection is described by the separate
    variables, without password nor SSL mode. *)
Lemma X3_setupDB_variables_witness :
  opened (trace (AccountDump.setupDB (Cases.envByVars Examples.db))) =
  ["host=localhost port=5432 user=timehop password= dbname=development sslmode="].
Proof.
  destruct (X3_setupDB_variables (Cases.envByVars Examples.db) "DB_PASSWORD" "x")
    as (_ & _ & _ & _ & Hdsn).
  rewrite Hdsn.
  - reflexivity.
  - reflexivity.
  - intros [H|[H|[H|H]]]; discriminate H.
Defined.

(** *** The invocations of [main.go] *)

(** X4.  An invocation of [main.go] that names neither one user (by
    [--user_id] alone or by a single positional argument alone) nor one
    account (by [--account_id] alone) ends with status 1 on a usage
    message, and nothing else happens: no connection, no query, no
    output.  In particular a positional argument next to a flag is
    refused, and so are two positional arguments. *)
Theorem X4_main_needs_one_identifier (env : Env) (flags : MainGo.Flags)
    (enum : list string) :
  (∀ id, ¬ selectsUser flags id) →
  (∀ id, ¬ selectsAccount flags id) →
  (MainGo.conflictingArgs flags = true ∧
   (MainGo.userIDFlag flags ≠ "" ∨ MainGo.accountIDFlag flags ≠ "") ∧
   MainGo.main env flags enum = ([EvLog conflictMessage], Exited 1)) ∨
  (MainGo.userIDFlag flags = "" ∧ MainGo.accountIDFlag flags = "" ∧
   length (MainGo.Args flags) ≠ 1%nat ∧
   MainGo.main env flags enum = ([EvLog usageMessage], Exited 1)).
Proof.
  destruct flags as [out user account args].
  unfold selectsUser, selectsAccount, MainGo.main, MainGo.conflictingArgs,
    MainGo.resolveUserID.
  cbn [MainGo.userIDFlag MainGo.accountIDFlag MainGo.Args MainGo.outputToFile].
  intros Huser Haccount.
  destruct (decide (user = "")) as [->|Hu], (decide (account = "")) as [->|Ha].
  - right. destruct args as [|id [|id' args]].
    + by rewrite !decide_False by (by intros ?).
    + destruct (Huser id). by right.
    + by rewrite !decide_False by (by intros ?).
  - left. destruct args as [|id args].
    + destruct (Haccount account). done.
    + rewrite (bool_decide_eq_true_2 (account ≠ "")) by done.
      rewrite (bool_decide_eq_true_2 (0 < _)%nat) by (cbn; lia).
      split_and!; [done|by right|done].
  - left. destruct args as [|id args].
    + destruct (Huser user). by left.
    + rewrite (bool_decide_eq_true_2 (user ≠ "")) by done.
      rewrite (bool_decide_eq_true_2 (0 < _)%nat) by (cbn; lia).
      split_and!; [done|by left|done].
  - left. rewrite (bool_decide_eq_true_2 (user ≠ "")) by done.
    rewrite (bool_decide_eq_true_2 (account ≠ "")) by done.
    split_and!; [done|by left|done].
Qed.

(** Witness of X4: [--user_id=U1 U1]. *)
Lemma X4_main_needs_one_identifier_witness :
  MainGo.main Examples.env Cases.flagAndPositional sortedTables =
  ([EvLog conflictMessage], Exited 1).
Proof.
  destruct (X4_main_needs_one_identifier Examples.env Cases.flagAndPositional
              sortedTables) as [(_ & _ & Hrun)|(Hnone & _)].
  - intros id [(_ & _ & _ & Hargs)|(Huser & _)]; discriminate.
  - intros id (Huser & _). discriminate.
  - exact Hrun.
  - discriminate.
Defined.

(** *** The whole run of [main.go] *)

Lemma scanRows_firstScanError (table : string) (cols : list string)
    (data : list (result (list Value))) (out : string) :
  match firstScanError (length cols) data with
  | Some err => MainGo.scanRows table cols data out = Err err
  | None => is_Ok (MainGo.scanRows table cols data out) = true
  end.
Proof.
  revert out. induction data as [|row data IH]; intros out; [done|].
  cbn [firstScanError MainGo.scanRows].
  destruct (Scan (length cols) row) as [vals|err]; [apply IH|done].
Qed.

Lemma generateInsertStatements_run (db : DB) (query table param : string) :
  trace (MainGo.generateInsertStatements db query table param) =
    EvQuery query param ::
    (if is_Ok (db_Query db query param) then [EvRowsClose] else []) ∧
  ∃ r, result_of (MainGo.generateInsertStatements db query table param) =
         Returned r ∧
       match dumpError db query param with
       | Some err => r = Err err
       | None => is_Ok r = true
       end.
Proof.
  unfold MainGo.generateInsertStatements, dumpError.
  destruct (db_Query db query param) as [rows|err]; [|by eauto].
  split; [done|]. eexists. split; [done|].
  destruct (rows_Columns rows) as [cols|err]; [|done].
  apply scanRows_firstScanError.
Qed.

Lemma dumpTables_trace (db : DB) (userID : string) (tables : list string)
    (output : string) :
  trace (MainGo.dumpTables db userID tables output) =
  concat (tableEvents db userID <$> tables).
Proof.
  revert output. induction tables as [|table tables IH]; intros output; [done|].
  cbn [MainGo.dumpTables]. rewrite fmap_cons. cbn [concat].
  destruct (generateInsertStatements_run db (MainGo.queries !!! table) table userID)
    as (Htr & r & Hr & Herr).
  rewrite trace_bind, Hr, Htr. unfold tableEvents.
  destruct (dumpError db _ userID) as [err|].
  - subst r. unfold log_Printf. rewrite emit_bind_trace, IH.
    cbn [app]. by rewrite <- !(assoc_L (++)).
  - destruct r as [dump|]; [|done]. rewrite IH.
    cbn [app]. by rewrite (right_id_L [] (++)).
Qed.

Lemma main_run (env : Env) (flags : MainGo.Flags) (enum : list string)
    (userID : string) (db : DB) :
  MainGo.conflictingArgs flags = false →
  result_of (MainGo.resolveUserID env flags) = Returned userID →
  result_of (MainGo.connectDB env) = Returned db →
  MainGo.main env flags enum =
  (trace (MainGo.resolveUserID env flags) ++ trace (MainGo.connectDB env) ++
   concat (tableEvents db userID <$> sort_Strings enum) ++
   EvStdout (cat (omap (tableBlock db userID) (sort_Strings enum))) ::
   fileEvents env flags userID (cat (omap (tableBlock db userID) (sort_Strings enum))),
   if MainGo.outputToFile flags then
     match os_WriteFile env (dumpFile userID)
             (cat (omap (tableBlock db userID) (sort_Strings enum))) with
     | Some _ => Exited 1
     | None => Returned tt
     end
   else Returned tt).
Proof.
  intros Hargs Hres Hconn.
  destruct (dumpTables_result db userID (sort_Strings enum) "") as [Hdr _].
  pose proof (dumpTables_trace db userID (sort_Strings enum) "") as Hdt.
  rewrite sapp_nil_l in Hdr.
  unfold MainGo.main. rewrite Hargs. cbv zeta.
  destruct (MainGo.resolveUserID env flags) as [tr1 o1]. cbn in Hres. subst o1.
  destruct (MainGo.connectDB env) as [tr2 o2]. cbn in Hconn. subst o2.
  unfold mbind at 1 2, M_bind at 1 2. cbn [fst snd].
  destruct (MainGo.dumpTables db userID (sort_Strings enum) "") as [tr3 o3].
  cbn in Hdr, Hdt. subst o3 tr3.
  unfold fileEvents, dumpFile.
  destruct (MainGo.outputToFile flags); cbn; [|done].
  by destruct (os_WriteFile env _ _).
Qed.

Lemma connectDB_returned (env : Env) (db : DB) :
  result_of (MainGo.connectDB env) = Returned db →
  ∃ url, trace (MainGo.connectDB env) = [EvOpen url].
Proof.
  unfold MainGo.connectDB.
  repeat (first [case_decide | case_match]; cbn); intros; by eauto.
Qed.

Lemma resolveUserID_returned (env : Env) (flags : MainGo.Flags)
    (userID : string) :
  result_of (MainGo.resolveUserID env flags) = Returned userID →
  ∃ q a, trace (MainGo.resolveUserID env flags) =
         trace (MainGo.connectDB env) ++ [EvQueryRow q a; EvClose].
Proof.
  unfold MainGo.resolveUserID.
  repeat case_decide; [| |destruct (MainGo.Args flags) as [|? [|? ?]]];
    rewrite ?userExists_eq, ?getUserIDFromAccountID_eq; try done;
    destruct (MainGo.connectDB env) as [tr [db|status]]; try done;
    cbn; repeat case_match; cbn; rewrite ?(right_id_L [] (++)); intros;
    by eauto.
Qed.

Lemma tableEvents_observed (db : DB) (userID : string) (tables : list string) :
  dumpQueries (concat (tableEvents db userID <$> tables)) =
    (λ table, (MainGo.queries !!! table, userID)) <$> tables ∧
  logged (concat (tableEvents db userID <$> tables)) =
    omap (λ table, warning table <$>
                   dumpError db (MainGo.queries !!! table) userID) tables ∧
  opened (concat (tableEvents db userID <$> tables)) = [] ∧
  lookups (concat (tableEvents db userID <$> tables)) = [] ∧
  filesWritten (concat (tableEvents db userID <$> tables)) = [] ∧
  closes (concat (tableEvents db userID <$> tables)) = 0%nat.
Proof.
  unfold dumpQueries, logged, opened, lookups, filesWritten, closes.
  induction tables as [|table tables (IH1 & IH2 & IH3 & IH4 & IH5 & IH6)];
    [done|].
  rewrite !fmap_cons. cbn [concat]. rewrite !omap_app, IH1, IH2, IH3, IH4, IH5.
  rewrite length_app, IH6. unfold tableEvents.
  destruct (is_Ok _), (dumpError db _ userID) eqn:Herr; cbn; rewrite ?Herr; done.
Qed.

Lemma fileEvents_observed (env : Env) (flags : MainGo.Flags)
    (userID out : string) :
  dumpQueries (fileEvents env flags userID out) = [] ∧
  opened (fileEvents env flags userID out) = [] ∧
  lookups (fileEvents env flags userID out) = [] ∧
  filesWritten (fileEvents env flags userID out) =
    (if MainGo.outputToFile flags then [(dumpFile userID, out)] else []) ∧
  stdout (fileEvents env flags userID out) = fileNotice env flags userID out.
Proof.
  unfold fileEvents, fileNotice.
  destruct (MainGo.outputToFile flags); [|done].
  destruct (os_WriteFile env _ _); cbn; by rewrite ?sapp_nil_r.
Qed.

(** X5.  Once the identifier is resolved and the connection is open,
    [main.go] queries every one of the five tables exactly once, in the
    order of the table names, each with the query of that table bound
    to the resolved user identifier, whether or not earlier tables
    failed.  The run then returns normally, unless [--output] is set
    and the file cannot be written. *)
Theorem X5_main_queries_every_table (env : Env) (flags : MainGo.Flags)
    (enum : list string) (userID : string) (db : DB) :
  enumerates enum MainGo.queries →
  MainGo.conflictingArgs flags = false →
  result_of (MainGo.resolveUserID env flags) = Returned userID →
  result_of (MainGo.connectDB env) = Returned db →
  dumpQueries (trace (MainGo.main env flags enum)) =
    [ ("SELECT * FROM accounts WHERE user_id = $1", userID);
      ("SELECT * FROM app_auth_tokens WHERE user_id = $1", userID);
      ("SELECT * FROM user_identities WHERE user_id = $1", userID);
      ("SELECT * FROM user_preferences WHERE user_id = $1", userID);
      ("SELECT * FROM users WHERE id = $1", userID) ] ∧
  (result_of (MainGo.main env flags enum) = Returned tt ↔
   MainGo.outputToFile flags = false ∨
   os_WriteFile env (dumpFile userID)
     (cat (omap (tableBlock db userID) sortedTables)) = None).
Proof.
  intros Henum Hargs Hres Hconn.
  rewrite (main_run env flags enum userID db Hargs Hres Hconn).
  rewrite (sort_Strings_enumerates enum Henum).
  destruct (resolveUserID_returned env flags userID Hres) as (q & a & ->).
  destruct (connectDB_returned env db Hconn) as (url & ->).
  destruct (tableEvents_observed db userID sortedTables) as (Hq & _).
  destruct (fileEvents_observed env flags userID
              (cat (omap (tableBlock db userID) sortedTables))) as (Hf & _).
  split.
  - cbn [trace fst]. unfold dumpQueries in *.
    rewrite !omap_app, Hq. cbn [omap list_omap app]. rewrite Hf.
    by vm_compute.
  - cbn [result_of snd]. destruct (MainGo.outputToFile flags).
    + destruct (os_WriteFile env _ _) as [err|].
      * split; [done|by intros [?|?]].
      * split; [by right|done].
    + split; [by left|done].
Qed.

(** Witness of X5: the run for user [U1], whose table [accounts] has a
    row that does not scan. *)
Lemma X5_main_queries_every_table_witness :
  length (dumpQueries (trace (MainGo.main (Examples.envOf Examples.flakyDB)
                                (Examples.byUserID "U1")
                                (map_to_list MainGo.queries).*1))) = 5%nat ∧
  result_of (MainGo.main (Examples.envOf Examples.flakyDB)
               (Examples.byUserID "U1") (map_to_list MainGo.queries).*1) =
  Returned tt.
Proof.
  destruct (X5_main_queries_every_table (Examples.envOf Examples.flakyDB)
              (Examples.byUserID "U1") (map_to_list MainGo.queries).*1 "U1"
              Examples.flakyDB) as [Hq Hret].
  - unfold enumerates. reflexivity.
  - reflexivity.
  - reflexivity.
  - reflexivity.
  - split; [rewrite Hq; reflexivity|]. apply Hret. left. reflexivity.
Defined.

Lemma tableEvents_cursors (db : DB) (userID : string) (tables : list string) :
  cursorCloses (concat (tableEvents db userID <$> tables)) =
  cursorsOpened db userID tables.
Proof.
  unfold cursorCloses, cursorsOpened.
  induction tables as [|table tables IH]; [done|].
  rewrite fmap_cons. cbn [concat omap list_omap].
  rewrite omap_app, length_app, IH. unfold tableEvents.
  destruct (db_Query db _ userID) eqn:Hq, (dumpError db _ userID); cbn; done.
Qed.

Lemma blockOf_tableBlock (db : DB) (userID table : string) :
  blockOf db userID table = tableBlock db userID table.
Proof.
  unfold blockOf, dumpResult, tableBlock.
  destruct (generateInsertStatements_result db (MainGo.queries !!! table)
              table userID) as (r & -> & _ & Hdump).
  by destruct r; rewrite Hdump.
Qed.

Lemma warningOf_dumpError (db : DB) (userID table : string) :
  warningOf db userID table =
  warning table <$> dumpError db (MainGo.queries !!! table) userID.
Proof.
  unfold warningOf, dumpResult.
  destruct (generateInsertStatements_run db (MainGo.queries !!! table)
              table userID) as (_ & r & -> & Herr).
  destruct (dumpError db _ userID) as [err|]; [by subst r|by destruct r].
Qed.

Lemma omap_ext_all {A B} (f g : A → option B) (l : list A) :
  (∀ x, f x = g x) → omap f l = omap g l.
Proof.
  intros Hfg. induction l as [|x l IH]; [done|].
  cbn [omap list_omap]. by rewrite Hfg, IH.
Qed.

(** X6.  Once the identifier is resolved and the connection is open,
    [main.go] treats every table according to what
    [generateInsertStatements] returned for it: for an error, one
    warning in the log, naming the table and that error, and nothing in
    the output; for statements, the block of the table in the output
    and nothing in the log.  The warnings and the blocks come in the
    order of the tables; the log holds nothing else but the report of a
    file that could not be written.  (An iteration that stops early is
    not an error for [generateInsertStatements], which does not ask the
    cursor for one.) *)
Theorem X6_skipped_tables_are_warned (env : Env) (flags : MainGo.Flags)
    (enum : list string) (userID : string) (db : DB) :
  MainGo.conflictingArgs flags = false →
  result_of (MainGo.resolveUserID env flags) = Returned userID →
  result_of (MainGo.connectDB env) = Returned db →
  logged (trace (MainGo.main env flags enum)) =
    omap (warningOf db userID) (sort_Strings enum) ++
    writeFailure env flags userID
      (cat (omap (blockOf db userID) (sort_Strings enum))) ∧
  stdout (trace (MainGo.main env flags enum)) =
    cat (omap (blockOf db userID) (sort_Strings enum)) +:+
    fileNotice env flags userID
      (cat (omap (blockOf db userID) (sort_Strings enum))) ∧
  (∀ table, ∃ r, dumpResult db userID table = Returned r ∧
                 (is_Some (warningOf db userID table) ↔ is_Ok r = false) ∧
                 (is_Some (blockOf db userID table) ↔ is_Ok r = true)) ∧
  (∀ table err, Contains (warning table err) table = true).
Proof.
  intros Hargs Hres Hconn.
  rewrite (omap_ext_all _ _ _ (blockOf_tableBlock db userID)).
  rewrite (omap_ext_all _ _ _ (warningOf_dumpError db userID)).
  split_and!.
  - rewrite (main_run env flags enum userID db Hargs Hres Hconn).
    destruct (resolveUserID_returned env flags userID Hres) as (q & a & ->).
    destruct (connectDB_returned env db Hconn) as (url & ->).
    destruct (tableEvents_observed db userID (sort_Strings enum))
      as (_ & Hlog & _).
    cbn [trace fst]. unfold logged in *. rewrite !omap_app, Hlog.
    cbn [omap list_omap app]. f_equal.
    unfold fileEvents, writeFailure.
    destruct (MainGo.outputToFile flags); [|done].
    by destruct (os_WriteFile env _ _).
  - by apply main_stdout.
  - intros table. unfold warningOf, blockOf, dumpResult.
    destruct (generateInsertStatements_result db (MainGo.queries !!! table)
                table userID) as (r & -> & _).
    exists r. split; [done|].
    destruct r; split; split; try done; by intros [? ?].
  - intros table err. apply Contains_splice.
Qed.

(** Witness of X6: on the database where the second row of [accounts]
    does not scan, the only warning of the run is the one for
    [accounts], and the output holds the four other blocks. *)
Lemma X6_skipped_tables_are_warned_witness :
  logged (trace (MainGo.main (Examples.envOf Examples.flakyDB)
                   (Examples.byUserID "U1") sortedTables)) =
    ["Warning: Skipping table accounts due to error: sql: Rows are closed"] ∧
  stdout (trace (MainGo.main (Examples.envOf Examples.flakyDB)
                   (Examples.byUserID "U1") sortedTables)) =
    cat (omap (blockOf Examples.flakyDB "U1")
           ["app_auth_tokens"; "user_identities"; "user_preferences"; "users"]).
Proof.
  destruct (X6_skipped_tables_are_warned (Examples.envOf Examples.flakyDB)
              (Examples.byUserID "U1") sortedTables "U1" Examples.flakyDB)
    as (Hlog & Hout & _ & _).
  - reflexivity.
  - reflexivity.
  - reflexivity.
  - split; [rewrite Hlog|rewrite Hout]; reflexivity.
Defined.

(** X7.  With [--output], [main.go] hands to [os.WriteFile], once, the
    file [user_<user id>_dump.sql] and exactly the text it has just
    printed; without it, no file is written.  When the file cannot be
    written, the run ends with status 1 on [Failed to write to file:
    <error>], the dump having been printed in full; when it can, the
    only other output is the notice naming the file. *)
Theorem X7_output_file_holds_printed_text (env : Env) (flags : MainGo.Flags)
    (enum : list string) (userID : string) (db : DB) :
  MainGo.conflictingArgs flags = false →
  result_of (MainGo.resolveUserID env flags) = Returned userID →
  result_of (MainGo.connectDB env) = Returned db →
  filesWritten (trace (MainGo.main env flags enum)) =
    (if MainGo.outputToFile flags
     then [("user_" +:+ userID +:+ "_dump.sql",
            cat (omap (tableBlock db userID) (sort_Strings enum)))]
     else []) ∧
  (∀ err,
     MainGo.outputToFile flags = true →
     os_WriteFile env ("user_" +:+ userID +:+ "_dump.sql")
       (cat (omap (tableBlock db userID) (sort_Strings enum))) = Some err →
     result_of (MainGo.main env flags enum) = Exited 1 ∧
     ends_with_log (trace (MainGo.main env flags enum))
       ("Failed to write to file: " +:+ Error err) ∧
     stdout (trace (MainGo.main env flags enum)) =
       cat (omap (tableBlock db userID) (sort_Strings enum))) ∧
  (MainGo.outputToFile flags = true →
   os_WriteFile env ("user_" +:+ userID +:+ "_dump.sql")
     (cat (omap (tableBlock db userID) (sort_Strings enum))) = None →
   result_of (MainGo.main env flags enum) = Returned tt ∧
   stdout (trace (MainGo.main env flags enum)) =
     cat (omap (tableBlock db userID) (sort_Strings enum)) +:+
     "Wrote SQL output to " +:+ ("user_" +:+ userID +:+ "_dump.sql") +:+ nl).
Proof.
  intros Hargs Hres Hconn.
  pose proof (main_stdout env flags enum userID db Hargs Hres Hconn) as Hout.
  pose proof (main_run env flags enum userID db Hargs Hres Hconn) as Hrun.
  destruct (resolveUserID_returned env flags userID Hres) as (q & a & Htr).
  destruct (connectDB_returned env db Hconn) as (url & Htr').
  rewrite Htr, Htr' in Hrun. clear Htr Htr'.
  destruct (tableEvents_observed db userID (sort_Strings enum))
    as (_ & _ & _ & _ & Hfiles & _).
  destruct (fileEvents_observed env flags userID
              (cat (omap (tableBlock db userID) (sort_Strings enum))))
    as (_ & _ & _ & Hfile & _).
  fold (dumpFile userID) in *.
  unfold fileNotice in Hout. unfold fileEvents in Hrun.
  split_and!.
  - rewrite Hrun. cbn [trace fst]. unfold filesWritten in *.
    rewrite !omap_app, Hfiles. cbn [omap list_omap app].
    unfold fileEvents in Hfile. by rewrite Hfile.
  - intros err Hflag Hwrite. rewrite Hflag, Hwrite in *. split_and!.
    + by rewrite Hrun.
    + rewrite Hrun. unfold ends_with_log. cbn [trace fst].
      rewrite !(assoc_L (++)). by rewrite last_app.
    + by rewrite Hout, sapp_nil_r.
  - intros Hflag Hwrite. rewrite Hflag, Hwrite in *. split; [by rewrite Hrun|].
    by rewrite Hout.
Qed.

(** Witness of X7: [--output=true --user_id=U1] on a disk that cannot
    be written. *)
Lemma X7_output_file_holds_printed_text_witness :
  result_of (MainGo.main Cases.readOnlyDisk (Cases.toFile "U1") sortedTables) =
  Exited 1.
Proof.
  destruct (X7_output_file_holds_printed_text Cases.readOnlyDisk
              (Cases.toFile "U1") sortedTables "U1" Examples.db)
    as (_ & Hfail & _).
  - reflexivity.
  - reflexivity.
  - reflexivity.
  - destruct (Hfail (ErrOther "open user_U1_dump.sql: read-only file system")
                eq_refl eq_refl) as [Hexit _].
    exact Hexit.
Defined.

Lemma connectDB_observed (env : Env) :
  lookups (trace (MainGo.connectDB env)) = [] ∧
  dumpQueries (trace (MainGo.connectDB env)) = [] ∧
  filesWritten (trace (MainGo.connectDB env)) = [] ∧
  stdout (trace (MainGo.connectDB env)) = "".
Proof.
  unfold MainGo.connectDB.
  repeat (first [case_decide | case_match]; cbn); done.
Qed.

(** X8.  A run of [main.go] that gets past the identification opens two
    connections with the same connection string, one for the look-up
    of the identifier and one for the dump, and issues one single-row
    look-up.  It closes every cursor it opened.  It closes both
    connections when it returns normally; when it exits because the
    file cannot be written, the connection of the dump is left open. *)
Theorem X8_main_connections (env : Env) (flags : MainGo.Flags)
    (enum : list string) (userID : string) (db : DB) :
  MainGo.conflictingArgs flags = false →
  result_of (MainGo.resolveUserID env flags) = Returned userID →
  result_of (MainGo.connectDB env) = Returned db →
  (∃ url, opened (trace (MainGo.main env flags enum)) = [url; url]) ∧
  length (lookups (trace (MainGo.main env flags enum))) = 1%nat ∧
  cursorCloses (trace (MainGo.main env flags enum)) =
    cursorsOpened db userID (sort_Strings enum) ∧
  closes (trace (MainGo.main env flags enum)) =
    match result_of (MainGo.main env flags enum) with
    | Returned _ => 2%nat
    | Exited _ => 1%nat
    end.
Proof.
  intros Hargs Hres Hconn.
  rewrite (main_run env flags enum userID db Hargs Hres Hconn).
  destruct (resolveUserID_returned env flags userID Hres) as (q & a & ->).
  destruct (connectDB_returned env db Hconn) as (url & ->).
  destruct (tableEvents_observed db userID (sort_Strings enum))
    as (_ & _ & Hopen & Hlook & _ & Hclose).
  pose proof (tableEvents_cursors db userID (sort_Strings enum)) as Hcur.
  cbn [trace fst result_of snd].
  unfold opened, lookups, closes, cursorCloses in *.
  rewrite !omap_app, !length_app, Hopen, Hlook, Hclose, Hcur.
  unfold fileEvents.
  destruct (MainGo.outputToFile flags); [destruct (os_WriteFile env _ _)|];
    cbn; split_and!; try done; try lia; by eauto.
Qed.

(** Witness of X8: the run for [--account_id=A1]. *)
Lemma X8_main_connections_witness :
  opened (trace (MainGo.main Examples.env (Examples.byAccountID "A1")
                   sortedTables)) =
  ["postgres://localhost/development"; "postgres://localhost/development"].
Proof.
  destruct (X8_main_connections Examples.env (Examples.byAccountID "A1")
              sortedTables "U1" Examples.db) as ((url & Hopen) & _).
  - reflexivity.
  - reflexivity.
  - reflexivity.
  - reflexivity.
Defined.

(** X9.  The only single-row look-up of a run of [main.go] is the one
    for the identifier as it was given: on [users] for a user
    identifier, on [accounts] for an account identifier.  The user
    identifier found through an account is therefore not looked up in
    [users]. *)
Theorem X9_one_lookup_for_the_given_identifier (env : Env)
    (flags : MainGo.Flags) (enum : list string) (id : string) :
  (selectsUser flags id →
   lookups (trace (MainGo.main env flags enum)) =
   match result_of (MainGo.connectDB env) with
   | Returned _ => [("SELECT id FROM users WHERE id = $1", id)]
   | Exited _ => []
   end) ∧
  (selectsAccount flags id →
   lookups (trace (MainGo.main env flags enum)) =
   match result_of (MainGo.connectDB env) with
   | Returned _ => [("SELECT user_id FROM accounts WHERE id = $1", id)]
   | Exited _ => []
   end).
Proof.
  destruct (connectDB_observed env) as (Hlook & _).
  assert (∀ userID db,
            MainGo.conflictingArgs flags = false →
            result_of (MainGo.resolveUserID env flags) = Returned userID →
            result_of (MainGo.connectDB env) = Returned db →
            lookups (trace (MainGo.main env flags enum)) =
            lookups (trace (MainGo.resolveUserID env flags))) as Hrun.
  { intros userID db Hargs Hres Hconn.
    rewrite (main_run env flags enum userID db Hargs Hres Hconn).
    destruct (tableEvents_observed db userID (sort_Strings enum))
      as (_ & _ & _ & Hl & _).
    destruct (fileEvents_observed env flags userID
                (cat (omap (tableBlock db userID) (sort_Strings enum))))
      as (_ & _ & Hf & _).
    cbn [trace fst]. unfold lookups in *.
    rewrite !omap_app, Hlook, Hl. cbn [omap list_omap]. rewrite Hf.
    by rewrite !(right_id_L [] (++)). }
  split; intros Hsel.
  - pose proof (selectsUser_args flags id Hsel) as Hargs.
    destruct (result_of (MainGo.connectDB env)) as [db|status] eqn:Hconn.
    + destruct (db_QueryRow db "SELECT id FROM users WHERE id = $1" id)
        as [row|err] eqn:Hrow.
      * pose proof (user_found env flags db id row Hsel Hconn Hrow) as Hres.
        rewrite (Hrun id db Hargs); [|by rewrite Hres|done].
        rewrite Hres. cbn [trace fst]. unfold lookups in *.
        by rewrite omap_app, Hlook.
      * rewrite (user_not_found env flags enum db id err Hsel Hconn Hrow).
        cbn [trace fst]. unfold lookups in *. by rewrite omap_app, Hlook.
    + rewrite (main_resolve_exited env flags enum
                 (trace (MainGo.connectDB env)) status Hargs); [done|].
      rewrite (resolveUserID_user env flags id Hsel), userExists_eq, Hconn.
      done.
  - pose proof (selectsAccount_args flags id Hsel) as Hargs.
    destruct (result_of (MainGo.connectDB env)) as [db|status] eqn:Hconn.
    + destruct (db_QueryRow db "SELECT user_id FROM accounts WHERE id = $1" id)
        as [userID|err] eqn:Hrow.
      * pose proof (account_found env flags db id userID Hsel Hconn Hrow) as Hres.
        rewrite (Hrun userID db Hargs); [|by rewrite Hres|done].
        rewrite Hres. cbn [trace fst]. unfold lookups in *.
        by rewrite omap_app, Hlook.
      * rewrite (account_not_found env flags enum db id err Hsel Hconn Hrow).
        cbn [trace fst]. unfold lookups in *. by rewrite omap_app, Hlook.
    + rewrite (main_resolve_exited env flags enum
                 (trace (MainGo.connectDB env)) status Hargs); [done|].
      rewrite (resolveUserID_account env flags id Hsel),
        getUserIDFromAccountID_eq, Hconn.
      done.
Qed.

(** Witness of X9: with [--account_id=A1] the table [users] is never
    asked about the user [U1] that the account yields. *)
Lemma X9_one_lookup_for_the_given_identifier_witness :
  lookups (trace (MainGo.main Examples.env (Examples.byAccountID "A1")
                    sortedTables)) =
  [("SELECT user_id FROM accounts WHERE id = $1", "A1")].
Proof.
  destruct (X9_one_lookup_for_the_given_identifier Examples.env
              (Examples.byAccountID "A1") sortedTables "A1") as [_ Haccount].
  rewrite Haccount.
  - reflexivity.
  - repeat split. discriminate.
Defined.

(** X10.  When the look-up of the identifier fails, [main.go] dumps
    nothing: for a user identifier the standard output holds only the
    text of the error and a newline, printed by [userExists]; for an
    account identifier it is empty; and no file is written, even with
    [--output]. *)
Theorem X10_failed_lookup_prints_no_statement (env : Env)
    (flags : MainGo.Flags) (enum : list string) (db : DB) (id : string)
    (err : error) :
  result_of (MainGo.connectDB env) = Returned db →
  (selectsUser flags id →
   db_QueryRow db "SELECT id FROM users WHERE id = $1" id = Err err →
   stdout (trace (MainGo.main env flags enum)) = Error err +:+ nl ∧
   filesWritten (trace (MainGo.main env flags enum)) = []) ∧
  (selectsAccount flags id →
   db_QueryRow db "SELECT user_id FROM accounts WHERE id = $1" id = Err err →
   stdout (trace (MainGo.main env flags enum)) = "" ∧
   filesWritten (trace (MainGo.main env flags enum)) = []).
Proof.
  intros Hconn.
  destruct (connectDB_observed env) as (_ & _ & Hfiles & Hout).
  split; intros Hsel Hrow.
  - rewrite (user_not_found env flags enum db id err Hsel Hconn Hrow).
    cbn [trace fst]. unfold filesWritten in *.
    rewrite stdout_app, omap_app, Hout, Hfiles. cbn. by rewrite sapp_nil_r.
  - rewrite (account_not_found env flags enum db id err Hsel Hconn Hrow).
    cbn [trace fst]. unfold filesWritten in *.
    by rewrite stdout_app, omap_app, Hout, Hfiles.
Qed.

(** Witness of X10: [--user_id=U2], a user the example database does
    not hold. *)
Lemma X10_failed_lookup_prints_no_statement_witness :
  stdout (trace (MainGo.main Examples.env (Examples.byUserID "U2") sortedTables)) =
  "sql: no rows in result set" +:+ nl.
Proof.
  destruct (X10_failed_lookup_prints_no_statement Examples.env
              (Examples.byUserID "U2") sortedTables Examples.db "U2" ErrNoRows)
    as [Huser _].
  - reflexivity.
  - destruct Huser as [Hout _].
    + left. repeat split. discriminate.
    + reflexivity.
    + exact Hout.
Defined.

(** X11.  [generateInsertStatements] returns the first error it meets:
    when a row does not scan, that error is returned, the statements of
    the rows before it are dropped, the rows after it are not read, and
    the cursor is closed. *)
Theorem X11_first_scan_error_returned (db : DB) (query table param : string)
    (rows : Rows) (cols : list string)
    (pre rest : list (result (list Value))) (bad : result (list Value))
    (vals : list (list Value)) (err : error) :
  db_Query db query param = Ok rows →
  rows_Columns rows = Ok cols →
  rows_data rows = pre ++ bad :: rest →
  allScanned (length cols) pre = Some vals →
  Scan (length cols) bad = Err err →
  MainGo.generateInsertStatements db query table param =
  ([EvQuery query param; EvRowsClose], Returned (Err err)).
Proof.
  intros Hq Hcols Hdata Hpre Hbad.
  destruct (generateInsertStatements_run db query table param)
    as (Htr & r & Hr & Herr).
  assert (dumpError db query param = Some err) as Hfirst.
  { unfold dumpError. rewrite Hq, Hcols, Hdata.
    clear Hdata. revert vals Hpre.
    induction pre as [|row pre IH]; intros vals Hpre; cbn [app firstScanError].
    - by rewrite Hbad.
    - cbn [allScanned] in Hpre.
      destruct (Scan (length cols) row); [|done].
      destruct (allScanned (length cols) pre); [|done]. by eapply IH. }
  rewrite Hfirst in Herr. subst r. rewrite Hq in Htr.
  destruct (MainGo.generateInsertStatements db query table param) as [tr o].
  cbn in Htr, Hr. by subst.
Qed.

(** Witness of X11: the second row of [accounts] does not scan. *)
Lemma X11_first_scan_error_returned_witness :
  MainGo.generateInsertStatements Examples.flakyDB
    "SELECT * FROM accounts WHERE user_id = $1" "accounts" "U1" =
  ([EvQuery "SELECT * FROM accounts WHERE user_id = $1" "U1"; EvRowsClose],
   Returned (Err (ErrOther "sql: Rows are closed"))).
Proof.
  apply (X11_first_scan_error_returned Examples.flakyDB _ _ _
           Examples.brokenRows ["id"] [Ok [VOther "1"]] []
           (Err (ErrOther "sql: Rows are closed")) [[VOther "1"]]);
    reflexivity.
Defined.

(** X12.  Tables whose query succeeds without any row are not skipped
    by the loop of [main.go]: each of them contributes its comment line
    and an empty line to the output, in order, and nothing is logged
    for them. *)
Theorem X12_empty_tables_keep_their_header (db : DB) (userID output : string)
    (tables : list string) :
  (∀ table, table ∈ tables →
     ∃ rows cols,
       db_Query db (MainGo.queries !!! table) userID = Ok rows ∧
       rows_Columns rows = Ok cols ∧ rows_data rows = []) →
  result_of (MainGo.dumpTables db userID tables output) =
    Returned (output +:+
              cat ((λ table, "-- Insert for " +:+ table +:+ nl +:+ nl) <$> tables)) ∧
  logged (trace (MainGo.dumpTables db userID tables output)) = [].
Proof.
  intros Hempty.
  destruct (dumpTables_result db userID tables output) as [-> _].
  rewrite dumpTables_trace.
  destruct (tableEvents_observed db userID tables) as (_ & -> & _).
  assert (∀ table, table ∈ tables →
            tableBlock db userID table =
              Some ("-- Insert for " +:+ table +:+ nl +:+ nl) ∧
            dumpError db (MainGo.queries !!! table) userID = None) as Hblock.
  { intros table Hin. destruct (Hempty table Hin) as (rows & cols & Hq & Hc & Hd).
    unfold tableBlock, tableDump, dumpError, header. rewrite Hq, Hc, Hd.
    cbn. by rewrite !sapp_assoc. }
  clear Hempty. induction tables as [|table tables IH]; [done|].
  destruct (Hblock table) as [Hb He]; [by left|].
  destruct IH as [IHr IHl]; [intros t Ht; apply Hblock; by right|].
  cbn [omap list_omap]. rewrite Hb, He, fmap_cons. cbn [cat fmap option_fmap option_map].
  injection IHr as IHr. apply (inj _) in IHr. rewrite IHr. by rewrite IHl.
Qed.

(** Witness of X12: the example table [app_auth_tokens] holds no
    row. *)
Lemma X12_empty_tables_keep_their_header_witness :
  result_of (MainGo.dumpTables Examples.db "U1" ["app_auth_tokens"] "") =
  Returned ("-- Insert for app_auth_tokens" +:+ nl +:+ nl).
Proof.
  destruct (X12_empty_tables_keep_their_header Examples.db "U1" ""
              ["app_auth_tokens"]) as [Hres _].
  - intros table Hin. exists Examples.noRows, ["id"].
    apply list_elem_of_singleton in Hin. rewrite Hin. repeat split.
  - rewrite Hres. reflexivity.
Defined.

(** X13.  [escapeSingleQuotes] works byte by byte: escaping a
    concatenation gives the concatenation of the escaped parts; the
    result is as long as the text plus one byte per single quote, and
    it is the text itself exactly when the text has no single quote;
    and two different texts are never escaped to the same text. *)
Theorem X13_escapeSingleQuotes_bytewise (a b : string) :
  MainGo.escapeSingleQuotes (a +:+ b) =
    MainGo.escapeSingleQuotes a +:+ MainGo.escapeSingleQuotes b ∧
  String.length (MainGo.escapeSingleQuotes a) =
    (String.length a + countQuotes a)%nat ∧
  (MainGo.escapeSingleQuotes a = a ↔ countQuotes a = 0%nat) ∧
  (MainGo.escapeSingleQuotes a = MainGo.escapeSingleQuotes b → a = b) ∧
  AccountDump.escapeSingleQuotes a = MainGo.escapeSingleQuotes a.
Proof.
  rewrite !escapeSingleQuotes_doubleQuotes.
  assert (∀ s, String.length (doubleQuotes s) =
               (String.length s + countQuotes s)%nat) as Hlen.
  { induction s as [|c s IH]; [done|].
    cbn [doubleQuotes countQuotes String.length].
    destruct (decide (c = "'"%char)); cbn [String.length]; lia. }
  split_and!.
  - induction a as [|c a IH]; [done|].
    rewrite sapp_cons. cbn [doubleQuotes].
    destruct (decide (c = "'"%char)); by rewrite IH.
  - apply Hlen.
  - split.
    + intros Heq. pose proof (Hlen a) as Hl. rewrite Heq in Hl. lia.
    + induction a as [|c a IH]; [done|].
      cbn [doubleQuotes countQuotes].
      destruct (decide (c = "'"%char)); [done|]. intros Hc. by rewrite IH.
  - intros Heq. apply (inj Some).
    by rewrite <- (unquoteBody_doubleQuotes a), <- (unquoteBody_doubleQuotes b), Heq.
  - done.
Qed.

(** *** The account-id variant *)

Lemma printRows_exits (table : string) (cols : list string)
    (data : list (result (list Value))) (file : option string) :
  allScanned (length cols) data = None →
  result_of (AccountDump.printRows table cols data file) = Exited 1.
Proof.
  induction data as [|row data IH]; [done|].
  cbn [allScanned].
  destruct (Scan (length cols) row) as [vals|err] eqn:Hscan.
  - destruct (allScanned (length cols) data); [done|]. intros _.
    destruct (printRows_step table cols row vals data file Hscan) as [-> _].
    by apply IH.
  - intros _. cbn [AccountDump.printRows]. by rewrite Hscan.
Qed.

Lemma runDump_outcome (db : DB) (accountID table : string)
    (file : option string) :
  (result_of (AccountDump.runDump db (AccountDump.queries !!! table) table
                accountID file) = Returned tt ↔
   is_Some (accountBlock db accountID table)) ∧
  (accountBlock db accountID table = None →
   result_of (AccountDump.runDump db (AccountDump.queries !!! table) table
                accountID file) = Exited 1).
Proof.
  assert (accountBlock db accountID table = None →
          result_of (AccountDump.runDump db (AccountDump.queries !!! table) table
                       accountID file) = Exited 1) as Hexit.
  { unfold accountBlock, AccountDump.runDump.
    destruct (db_Query db _ accountID) as [rows|]; [|done].
    destruct (rows_Columns rows) as [cols|]; [|done].
    destruct (allScanned (length cols) (rows_data rows)) eqn:Hdata; [done|].
    intros _. rewrite emit_bind_result, result_of_bind.
    by rewrite (printRows_exits table cols _ file Hdata). }
  split; [|done].
  destruct (accountBlock db accountID table) as [block|] eqn:Hblock.
  - destruct (runDump_accountBlock db accountID table block file Hblock)
      as [-> _].
    split; [by eauto|done].
  - rewrite (Hexit eq_refl). split; [done|]. by intros [? ?].
Qed.

(** X14.  [runDump] returns to its caller exactly when the query, its
    column list and the scan of every row succeed; in every other case
    it ends the process with status 1.  When the query itself fails,
    nothing is printed and the message names the table. *)
Theorem X14_runDump_returns_or_exits (db : DB) (accountID table : string)
    (file : option string) :
  (result_of (AccountDump.runDump db (AccountDump.queries !!! table) table
                accountID file) = Returned tt ↔
   is_Some (accountBlock db accountID table)) ∧
  (accountBlock db accountID table = None →
   result_of (AccountDump.runDump db (AccountDump.queries !!! table) table
                accountID file) = Exited 1) ∧
  (∀ err, db_Query db (AccountDump.queries !!! table) accountID = Err err →
     AccountDump.runDump db (AccountDump.queries !!! table) table accountID file =
     ([EvQuery (AccountDump.queries !!! table) accountID;
       EvLog ("Query for table " +:+ table +:+ " failed: " +:+ Error err)],
      Exited 1)).
Proof.
  destruct (runDump_outcome db accountID table file) as [Hret Hexit].
  split_and!; [done|done|].
  intros err Hq. unfold AccountDump.runDump. by rewrite Hq.
Qed.

Lemma X14_runDump_returns_or_exits_witness :
  AccountDump.runDump Examples.downDB (AccountDump.queries !!! "users") "users"
    "A1" None =
  ([EvQuery (AccountDump.queries !!! "users") "A1";
    EvLog ("Query for table " +:+ "users" +:+ " failed: " +:+
           "dial tcp 127.0.0.1:5432: connect: connection refused")],
   Exited 1).
Proof.
  exact (proj2 (proj2 (X14_runDump_returns_or_exits Examples.downDB "A1" "users"
                         None)) _ eq_refl).
Defined.

Lemma printRows_written (table : string) (cols : list string)
    (data : list (result (list Value))) (file : option string) :
  written (trace (AccountDump.printRows table cols data file)) =
  if file is Some _ then stdout (trace (AccountDump.printRows table cols data file))
  else "".
Proof.
  induction data as [|row data IH]; [by destruct file|].
  cbn [AccountDump.printRows].
  destruct (Scan (length cols) row) as [vals|err]; [|by destruct file].
  unfold fmt_Print. rewrite emit_bind_trace.
  destruct file as [name|]; rewrite ?emit_bind_trace, ?ret_bind;
    cbn [written stdout]; by rewrite IH.
Qed.

Lemma runDump_written (db : DB) (query table param : string)
    (file : option string) :
  written (trace (AccountDump.runDump db query table param file)) =
  if file is Some _ then stdout (trace (AccountDump.runDump db query table param file))
  else "".
Proof.
  pose proof (printRows_written table) as Hrows.
  unfold AccountDump.runDump.
  destruct (db_Query db query param) as [rows|]; [|by destruct file].
  destruct (rows_Columns rows) as [cols|]; [|by destruct file].
  specialize (Hrows cols (rows_data rows) file).
  rewrite emit_bind_trace, trace_bind.
  destruct (AccountDump.printRows table cols (rows_data rows) file)
    as [tr [[]|status]]; cbn in Hrows |- *.
  - assert (∀ tr', written (tr' ++ [EvRowsClose]) = written tr') as Hw.
    { induction tr' as [|[] tr' IH']; cbn; by rewrite ?IH'. }
    rewrite Hw, Hrows. destruct file; [|done]. by rewrite stdout_app, sapp_nil_r.
  - done.
Qed.

Lemma written_app (tr1 tr2 : list event) :
  written (tr1 ++ tr2) = written tr1 +:+ written tr2.
Proof.
  induction tr1 as [|e tr1 IH]; [done|].
  destruct e; cbn [written app]; rewrite ?IH, ?sapp_assoc; done.
Qed.

Lemma dumpTables_written (db : DB) (accountID : string) (file : option string)
    (tables : list string) :
  written (trace (AccountDump.dumpTables db accountID file tables)) =
  if file is Some _ then stdout (trace (AccountDump.dumpTables db accountID file tables))
  else "".
Proof.
  induction tables as [|table tables IH]; [by destruct file|].
  cbn [AccountDump.dumpTables]. rewrite trace_bind.
  pose proof (runDump_written db (AccountDump.queries !!! table) table
                accountID file) as Hrun.
  destruct (result_of (AccountDump.runDump db _ table accountID file));
    [|done].
  rewrite written_app, stdout_app, Hrun, IH. by destruct file.
Qed.

Lemma setupDB_observed (env : Env) :
  stdout (trace (AccountDump.setupDB env)) = "" ∧
  written (trace (AccountDump.setupDB env)) = "" ∧
  dumpQueries (trace (AccountDump.setupDB env)) = [].
Proof.
  unfold AccountDump.setupDB.
  repeat (first [case_decide | case_match]; cbn); done.
Qed.

(** The part of [main] of the account-id variant that comes after the
    connection. *)
Lemma AccountDump_main_eq (env : Env) (flags : AccountDump.Flags)
    (enum : list string) (accountID : string) (db : DB) :
  AccountDump.Args flags = [accountID] →
  result_of (AccountDump.setupDB env) = Returned db →
  AccountDump.main env flags enum =
  match db_QueryRow db "SELECT user_id FROM accounts WHERE id = $1" accountID with
  | Err err =>
      (trace (AccountDump.setupDB env) ++
       [EvQueryRow "SELECT user_id FROM accounts WHERE id = $1" accountID;
        EvLog ("Failed to look up user_id: " +:+ Error err)], Exited 1)
  | Ok userID =>
      let lookup := EvQueryRow "SELECT user_id FROM accounts WHERE id = $1" accountID in
      if AccountDump.flagOutput flags then
        match os_Create env (dumpFile userID) with
        | Some err =>
            (trace (AccountDump.setupDB env) ++
             [lookup; EvCreate (dumpFile userID);
              EvLog ("Failed to create output file: " +:+ Error err)], Exited 1)
        | None =>
            (trace (AccountDump.setupDB env) ++
             [lookup; EvCreate (dumpFile userID)] ++
             trace (AccountDump.dumpTables db accountID (Some (dumpFile userID)) enum) ++
             match result_of (AccountDump.dumpTables db accountID
                                (Some (dumpFile userID)) enum) with
             | Returned _ => [EvFileClose (dumpFile userID); EvClose]
             | Exited _ => []
             end,
             result_of (AccountDump.dumpTables db accountID
                          (Some (dumpFile userID)) enum))
        end
      else
        (trace (AccountDump.setupDB env) ++ [lookup] ++
         trace (AccountDump.dumpTables db accountID None enum) ++
         match result_of (AccountDump.dumpTables db accountID None enum) with
         | Returned _ => [EvClose]
         | Exited _ => []
         end,
         result_of (AccountDump.dumpTables db accountID None enum))
  end.
Proof.
  intros Hargs Hsetup. unfold AccountDump.main, AccountDump.lookupUserID, dumpFile.
  rewrite Hargs.
  destruct (AccountDump.setupDB env) as [tr o]. cbn in Hsetup. subst o.
  unfold mbind at 1, M_bind at 1. cbn [fst snd trace].
  destruct (db_QueryRow db _ accountID) as [userID|err]; [|done].
  cbv zeta. destruct (AccountDump.flagOutput flags).
  - cbn. destruct (os_Create env _) as [err|] eqn:Hcreate; cbn; [done|].
    destruct (AccountDump.dumpTables db accountID _ enum) as [trd [[]|status]];
      cbn; by rewrite ?(right_id_L [] (++)).
  - cbn.
    destruct (AccountDump.dumpTables db accountID None enum) as [trd [[]|status]];
      cbn; by rewrite ?(right_id_L [] (++)).
Qed.

(** X15.  In the account-id variant, with [--output] every statement
    printed is also handed to the file, in the same order, and nothing
    else is: what the file receives is what standard output receives,
    also when the run is cut short.  Without [--output] nothing is
    written. *)
Theorem X15_file_mirrors_standard_output (env : Env)
    (flags : AccountDump.Flags) (enum : list string) :
  written (trace (AccountDump.main env flags enum)) =
  if AccountDump.flagOutput flags
  then stdout (trace (AccountDump.main env flags enum))
  else "".
Proof.
  destruct (setupDB_observed env) as (Hout & Hw & _).
  destruct (AccountDump.Args flags) as [|accountID [|? ?]] eqn:Hargs;
    [unfold AccountDump.main; rewrite Hargs; by destruct (AccountDump.flagOutput flags)| |
     unfold AccountDump.main; rewrite Hargs; by destruct (AccountDump.flagOutput flags)].
  destruct (result_of (AccountDump.setupDB env)) as [db|status] eqn:Hsetup.
  - rewrite (AccountDump_main_eq env flags enum accountID db Hargs Hsetup).
    destruct (db_QueryRow db _ accountID) as [userID|err].
    + cbn zeta. destruct (AccountDump.flagOutput flags).
      * destruct (os_Create env _) as [err|]; cbn [trace fst];
          rewrite !written_app, !stdout_app, Hw, Hout; [done|].
        rewrite (dumpTables_written db accountID (Some (dumpFile userID)) enum).
        cbn [written stdout].
        by destruct (result_of (AccountDump.dumpTables db accountID _ enum)).
      * cbn [trace fst]. rewrite !written_app, Hw.
        rewrite (dumpTables_written db accountID None enum).
        by destruct (result_of (AccountDump.dumpTables db accountID None enum)).
    + cbn [trace fst]. rewrite written_app, stdout_app, Hw, Hout.
      by destruct (AccountDump.flagOutput flags).
  - unfold AccountDump.main. rewrite Hargs.
    destruct (AccountDump.setupDB env) as [tr o]. cbn in *. subst o.
    cbn. rewrite Hw, Hout. by destruct (AccountDump.flagOutput flags).
Qed.

Lemma dumpQueries_app (tr1 tr2 : list event) :
  dumpQueries (tr1 ++ tr2) = dumpQueries tr1 ++ dumpQueries tr2.
Proof. apply omap_app. Qed.

Lemma dumpQueries_cons (e : event) (tr : list event) :
  dumpQueries (e :: tr) =
  (if e is EvQuery q a then [(q, a)] else []) ++ dumpQueries tr.
Proof. by destruct e. Qed.

Lemma printRows_dumpQueries (table : string) (cols : list string)
    (data : list (result (list Value))) (file : option string) :
  dumpQueries (trace (AccountDump.printRows table cols data file)) = [].
Proof.
  induction data as [|row data IH]; [done|].
  cbn [AccountDump.printRows].
  destruct (Scan (length cols) row) as [vals|err]; [|done].
  unfold fmt_Print. rewrite emit_bind_trace.
  destruct file as [name|]; rewrite ?emit_bind_trace, ?ret_bind;
    by rewrite !dumpQueries_cons, IH.
Qed.

Lemma runDump_dumpQueries (db : DB) (query table param : string)
    (file : option string) :
  dumpQueries (trace (AccountDump.runDump db query table param file)) =
  [(query, param)].
Proof.
  unfold AccountDump.runDump. rewrite emit_bind_trace.
  destruct (db_Query db query param) as [rows|]; [|done].
  destruct (rows_Columns rows) as [cols|]; [|done].
  rewrite trace_bind.
  pose proof (printRows_dumpQueries table cols (rows_data rows) file) as Hrows.
  destruct (AccountDump.printRows table cols (rows_data rows) file)
    as [tr [[]|status]]; cbn [trace result_of fst snd app] in Hrows |- *;
    rewrite dumpQueries_cons, ?dumpQueries_app, Hrows; done.
Qed.

Lemma dumpTables_reached (db : DB) (accountID : string) (file : option string)
    (tables : list string) :
  dumpQueries (trace (AccountDump.dumpTables db accountID file tables)) =
  (λ table, (AccountDump.queries !!! table, accountID)) <$>
  reached db accountID tables.
Proof.
  induction tables as [|table tables IH]; [done|].
  cbn [AccountDump.dumpTables reached]. rewrite trace_bind.
  destruct (runDump_outcome db accountID table file) as (Hret & Hexit).
  destruct (accountBlock db accountID table) as [block|].
  - rewrite (proj2 Hret (ex_intro _ block eq_refl)).
    by rewrite dumpQueries_app, runDump_dumpQueries, IH.
  - rewrite (Hexit eq_refl). by rewrite runDump_dumpQueries.
Qed.

Lemma reached_all (db : DB) (accountID : string) (tables : list string) :
  Forall (λ table, is_Some (accountBlock db accountID table)) tables →
  reached db accountID tables = tables.
Proof.
  induction 1 as [|table tables [block Hblock] _ IH]; [done|].
  cbn. by rewrite Hblock, IH.
Qed.

(** X16.  The account-id variant binds every table query to the account
    identifier given on the command line, not to the user identifier it
    looked up, and queries the tables in the order of the map
    enumeration up to and including the first one whose dump fails;
    when no dump fails these are all the tables. *)
Theorem X16_tables_queried_by_account_id (env : Env)
    (flags : AccountDump.Flags) (enum : list string) (accountID userID : string)
    (db : DB) :
  AccountDump.Args flags = [accountID] →
  result_of (AccountDump.setupDB env) = Returned db →
  db_QueryRow db "SELECT user_id FROM accounts WHERE id = $1" accountID = Ok userID →
  (AccountDump.flagOutput flags = true → os_Create env (dumpFile userID) = None) →
  dumpQueries (trace (AccountDump.main env flags enum)) =
    (λ table, (AccountDump.queries !!! table, accountID)) <$>
    reached db accountID enum ∧
  (Forall (λ table, is_Some (accountBlock db accountID table)) enum →
   dumpQueries (trace (AccountDump.main env flags enum)) =
     (λ table, (AccountDump.queries !!! table, accountID)) <$> enum).
Proof.
  intros Hargs Hsetup Hlookup Hcreate.
  assert (dumpQueries (trace (AccountDump.main env flags enum)) =
          (λ table, (AccountDump.queries !!! table, accountID)) <$>
          reached db accountID enum) as Heq.
  { destruct (setupDB_observed env) as (_ & _ & Hq).
    rewrite (AccountDump_main_eq env flags enum accountID db Hargs Hsetup), Hlookup.
    cbv zeta. destruct (AccountDump.flagOutput flags).
    - rewrite (Hcreate eq_refl). cbn [trace fst].
      rewrite !dumpQueries_app, Hq, dumpTables_reached.
      destruct (result_of (AccountDump.dumpTables db accountID _ enum));
        cbn; by rewrite (right_id_L [] (++)).
    - cbn [trace fst].
      rewrite !dumpQueries_app, Hq, dumpTables_reached.
      destruct (result_of (AccountDump.dumpTables db accountID _ enum));
        cbn; by rewrite (right_id_L [] (++)). }
  split; [done|]. intros Hall. by rewrite Heq, reached_all.
Qed.

Lemma X16_tables_queried_by_account_id_witness :
  dumpQueries (trace (AccountDump.main Examples.env (Examples.accountArg "A1")
                        ["users"; "accounts"])) =
  [("SELECT * FROM users WHERE id = (SELECT user_id FROM accounts WHERE id = $1)", "A1");
   ("SELECT * FROM accounts WHERE id = $1", "A1")].
Proof.
  refine (proj2 (X16_tables_queried_by_account_id Examples.env
            (Examples.accountArg "A1") ["users"; "accounts"] "A1" "U1" Examples.db
            eq_refl eq_refl eq_refl _) _).
  - done.
  - repeat constructor; vm_compute; eauto.
Defined.

(** X17.  With [--output] the account-id variant creates the file, named
    after the user identifier it looked up, before it queries any
    table: when the file cannot be created the process ends with status
    1 on that message, nothing has been queried and nothing printed. *)
Theorem X17_output_file_created_first (env : Env)
    (flags : AccountDump.Flags) (enum : list string) (accountID userID : string)
    (db : DB) (err : error) :
  AccountDump.Args flags = [accountID] →
  result_of (AccountDump.setupDB env) = Returned db →
  db_QueryRow db "SELECT user_id FROM accounts WHERE id = $1" accountID = Ok userID →
  AccountDump.flagOutput flags = true →
  os_Create env ("user_" +:+ userID +:+ "_dump.sql") = Some err →
  AccountDump.main env flags enum =
    (trace (AccountDump.setupDB env) ++
     [EvQueryRow "SELECT user_id FROM accounts WHERE id = $1" accountID;
      EvCreate ("user_" +:+ userID +:+ "_dump.sql");
      EvLog ("Failed to create output file: " +:+ Error err)], Exited 1) ∧
  dumpQueries (trace (AccountDump.main env flags enum)) = [] ∧
  stdout (trace (AccountDump.main env flags enum)) = "".
Proof.
  intros Hargs Hsetup Hlookup Hflag Hcreate.
  destruct (setupDB_observed env) as (Hout & _ & Hq).
  rewrite (AccountDump_main_eq env flags enum accountID db Hargs Hsetup), Hlookup.
  cbv zeta. rewrite Hflag. unfold dumpFile. rewrite Hcreate. cbn [trace fst].
  split_and!; [done| |].
  - by rewrite dumpQueries_app, Hq.
  - by rewrite stdout_app, Hout.
Qed.

Lemma X17_output_file_created_first_witness :
  AccountDump.main Cases.readOnlyDisk (Cases.accountToFile "A1")
    ["users"; "accounts"] =
  ([EvOpen "postgres://localhost/development";
    EvQueryRow "SELECT user_id FROM accounts WHERE id = $1" "A1";
    EvCreate "user_U1_dump.sql";
    EvLog "Failed to create output file: open user_U1_dump.sql: read-only file system"],
   Exited 1).
Proof.
  exact (proj1 (X17_output_file_created_first Cases.readOnlyDisk
           (Cases.accountToFile "A1") ["users"; "accounts"] "A1" "U1" Examples.db
           (ErrOther "open user_U1_dump.sql: read-only file system")
           eq_refl eq_refl eq_refl eq_refl eq_refl)).
Defined.

(** X18.  The account-id variant takes exactly one positional argument:
    with none or with more than one it ends with status 1 on the usage
    line, before anything is read from the environment or opened. *)
Theorem X18_variant_needs_one_argument (env : Env)
    (flags : AccountDump.Flags) (enum : list string) :
  length (AccountDump.Args flags) ≠ 1%nat →
  AccountDump.main env flags enum =
  ([EvLog ("Usage: " +:+ os_Args0 env +:+ " [--output=true] <account_id>")],
   Exited 1).
Proof.
  intros Hlen. unfold AccountDump.main.
  by destruct (AccountDump.Args flags) as [|? [|? ?]].
Qed.

Lemma X18_variant_needs_one_argument_witness :
  AccountDump.main Examples.env
    {| AccountDump.flagOutput := false; AccountDump.Args := ["A1"; "A2"] |}
    ["users"] =
  ([EvLog "Usage: account-importer [--output=true] <account_id>"], Exited 1).
Proof.
  apply (X18_variant_needs_one_argument Examples.env
           {| AccountDump.flagOutput := false; AccountDump.Args := ["A1"; "A2"] |}
           ["users"]).
  cbn. lia.
Defined.

(** X19.  Neither program asks the cursor for the error that ended the
    iteration ([rows.Err()] is never called): a cursor that stopped
    early on an error is dumped like one that was exhausted, whatever
    the error. *)
Theorem X19_iteration_error_not_consulted (e : option error) (db : DB)
    (query table param : string) (file : option string) :
  MainGo.generateInsertStatements (withErr e db) query table param =
    MainGo.generateInsertStatements db query table param ∧
  AccountDump.runDump (withErr e db) query table param file =
    AccountDump.runDump db query table param file.
Proof.
  unfold MainGo.generateInsertStatements, AccountDump.runDump. cbn.
  by destruct (db_Query db query param).
Qed.
